(** * A shallow embedding of the dating bot (db.py, main.py)

  The record store (db.py) is modelled as three finite maps, one per table
  of [init_db], keyed by the table's primary key.  Every function of db.py
  opens a connection of its own and runs in autocommit mode, so it is a
  function from the committed store to a result; [create_user] alone runs
  its two inserts inside [conn.transaction()], which is modelled with an
  explicit pending write set.

  The handlers of main.py are modelled in a small state-and-exception monad
  over the store, the acting user's [context.user_data] and the list of
  requests sent to the chat transport.

  Conventions.  Text is ASCII: a [string] stands for a Python [str] whose
  characters are below 128.  The [created_at] columns are left out of the
  rows; the one query that reads them, [get_all_users], takes the times
  of creation as an argument.  Requests to the chat transport are
  recorded and assumed to be accepted.  The name of the bot, which the
  command handlers compare with the name a command is addressed to, is
  an argument of the dispatch.  Python exceptions and the errors of the
  driver and of the store are the constructors of [exn]. *)

From Stdlib Require Import ZArith Ascii String List Bool Lia DecimalString.
From Stdlib Require DecimalPos.
From stdpp Require Import base option list sorting gmap sets strings.

Local Open Scope Z_scope.

(** ** Exceptions and results *)

Inductive exn : Type :=
| ValueError
| TypeError
| KeyError
| IndexError
| AttributeError
(* asyncpg.exceptions.DataError, raised when a query argument cannot be
   encoded for the type of its placeholder.  The class derives from
   PostgresError, not from ValueError. *)
| DataError
(* errors reported by the store itself *)
| UniqueViolationError
| ForeignKeyViolationError
| NotNullViolationError
| NumericValueOutOfRangeError
| UndefinedColumnError
| PostgresSyntaxError
| FeatureNotSupportedError
(* the statement text is outside the fragment of SQL that is given a
   meaning below; nothing is stated about the store in that case *)
| UnsupportedStatement.

Global Instance exn_eq_dec : EqDecision exn.
Proof. solve_decision. Defined.

(** What [except ValueError] catches.  None of the other exceptions is a
  subclass of ValueError: an argument the driver cannot encode leaves a
  handler that catches ValueError only. *)
Definition is_ValueError (e : exn) : bool :=
match e with ValueError => true | _ => false end.

Inductive result (A : Type) : Type :=
| Ok (a : A)
| Raise (e : exn).
Global Arguments Ok {A} a.
Global Arguments Raise {A} e.

Global Instance result_ret : MRet result := λ A a, Ok a.
Global Instance result_bind : MBind result := λ A B f r,
match r with Ok a => f a | Raise e => Raise e end.

(** ** Column types of the store *)

(** INTEGER is a 32-bit and BIGINT a 64-bit signed integer; arithmetic that
  leaves the range is an error of the store, not a wrap-around. *)
Definition int4 (z : Z) : bool := (-2147483648 <=? z) && (z <=? 2147483647).
Definition int8 (z : Z) : bool :=
(-9223372036854775808 <=? z) && (z <=? 9223372036854775807).

(** Encoding of a Python int for an INTEGER or a BIGINT placeholder. *)
Definition integer_arg (z : Z) : result unit :=
if int4 z then Ok () else Raise DataError.
Definition bigint_arg (z : Z) : result unit :=
if int8 z then Ok () else Raise DataError.

(** Truthiness of the two kinds of optional values the code tests. *)
Definition truthy_str (o : option string) : bool :=
match o with Some s => negb (String.eqb s "") | None => false end.
Definition truthy_int (o : option Z) : bool :=
match o with Some z => negb (z =? 0) | None => false end.

(** ** Python's text functions, on ASCII text *)

Module py.

Definition chars (s : string) : list ascii := list_ascii_of_string s.
Definition text (l : list ascii) : string := string_of_list_ascii l.

(** [str.isspace] on one ASCII character: tab to carriage return, the
    four separators 28 to 31, and the space. *)
Definition isspace (c : ascii) : bool :=
  let n := Z.of_N (N_of_ascii c) in
  ((9 <=? n) && (n <=? 13)) || ((28 <=? n) && (n <=? 32)).

Definition digit (c : ascii) : option Z :=
  let n := Z.of_N (N_of_ascii c) in
  if (48 <=? n) && (n <=? 57) then Some (n - 48) else None.

(** The blanks [int] skips at both ends of an ASCII text: tab to carriage
    return, and the space.  The separators 28 to 31, which [str.isspace]
    and [str.split] take for whitespace, are not among them. *)
Definition Py_ISSPACE (c : ascii) : bool :=
  let n := Z.of_N (N_of_ascii c) in
  ((9 <=? n) && (n <=? 13)) || (n =? 32).

Fixpoint lskip (l : list ascii) : list ascii :=
  match l with
  | c :: l' => if Py_ISSPACE c then lskip l' else l
  | [] => []
  end.
Definition skip (l : list ascii) : list ascii :=
  rev (lskip (rev (lskip l))).

(** The digits of an [int] literal: at least one digit, single underscores
    allowed between two digits. *)
Fixpoint digits (acc : Z) (after_digit : bool) (l : list ascii) : option Z :=
  match l with
  | [] => if after_digit then Some acc else None
  | c :: l' =>
      match digit c with
      | Some d => digits (10 * acc + d) true l'
      | None =>
          if Ascii.eqb c "_" && after_digit then digits acc false l' else None
      end
  end.

(** [int(s)] for a [str]: [None] stands for ValueError.  The limit on the
    number of digits (4300) is above the length of any text of a message
    (4096) or of a button (64), and is left out. *)
Definition int (s : string) : option Z :=
  match skip (chars s) with
  | "-"%char :: l => Z.opp <$> digits 0 false l
  | "+"%char :: l => digits 0 false l
  | l => digits 0 false l
  end.

(** [s.split()]: the maximal runs of characters that are not whitespace. *)
Fixpoint split_ws (cur : list ascii) (l : list ascii) : list string :=
  match l with
  | [] => match cur with [] => [] | _ => [text (rev cur)] end
  | c :: l' =>
      if isspace c
      then match cur with [] => split_ws [] l' | _ => text (rev cur) :: split_ws [] l' end
      else split_ws (c :: cur) l'
  end.
Definition split (s : string) : list string := split_ws [] (chars s).

(** [s.split(sep)] for a separator of one character. *)
Fixpoint split_on (sep : ascii) (cur : list ascii) (l : list ascii) : list string :=
  match l with
  | [] => [text (rev cur)]
  | c :: l' =>
      if Ascii.eqb c sep then text (rev cur) :: split_on sep [] l'
      else split_on sep (c :: cur) l'
  end.
Definition split_sep (sep : ascii) (s : string) : list string :=
  split_on sep [] (chars s).

Definition startswith (s p : string) : bool := String.prefix p s.

(** [s[i:j]] for [0 <= i], and [s.lower()]. *)
Definition slice (i j : nat) (s : string) : string :=
  text (take (j - i) (drop i (chars s))).
Definition lower_char (c : ascii) : ascii :=
  let n := N_of_ascii c in
  if ((65 <=? n) && (n <=? 90))%N then ascii_of_N (n + 32) else c.
Definition lower (s : string) : string := text (map lower_char (chars s)).

End py.

(** ** db.py *)

Module db.

Record user_row : Type := UserRow {
  u_name : string;
  u_coins : Z;                          (* INTEGER DEFAULT 100 *)
  u_is_premium : bool;                  (* BOOLEAN DEFAULT FALSE *)
  u_is_banned : bool;                   (* BOOLEAN DEFAULT FALSE *)
  u_referral_code : option string;      (* TEXT UNIQUE *)
  u_referred_by : option string;        (* TEXT *)
}.

Record profile_row : Type := ProfileRow {
  p_gender : option string;
  p_age : option Z;
  p_bio : option string;
  p_photo_id : option string;
  p_location : option string;
}.

(** The three tables; [likes] has the primary key (liker_id, liked_id). *)
Record DB : Type := Store {
  users : gmap Z user_row;
  profiles : gmap Z profile_row;
  likes : gset (Z * Z);
}.

Definition init_db : DB := Store ∅ ∅ ∅.

Definition with_users (d : DB) (us : gmap Z user_row) : DB :=
  Store us (profiles d) (likes d).
Definition with_profiles (d : DB) (ps : gmap Z profile_row) : DB :=
  Store (users d) ps (likes d).

Definition set_coins (c : Z) (u : user_row) : user_row :=
  UserRow (u_name u) c (u_is_premium u) (u_is_banned u)
          (u_referral_code u) (u_referred_by u).
Definition set_premium (b : bool) (u : user_row) : user_row :=
  UserRow (u_name u) (u_coins u) b (u_is_banned u)
          (u_referral_code u) (u_referred_by u).
Definition set_banned (b : bool) (u : user_row) : user_row :=
  UserRow (u_name u) (u_coins u) (u_is_premium u) b
          (u_referral_code u) (u_referred_by u).

(** SELECT EXISTS(SELECT 1 FROM users WHERE user_id = $1) *)
Definition user_exists (d : DB) (user_id : Z) : result bool :=
  _ ← bigint_arg user_id;
  Ok (bool_decide (is_Some (users d !! user_id))).

(** SELECT is_banned FROM users WHERE user_id = $1, None read as False *)
Definition is_banned (d : DB) (user_id : Z) : result bool :=
  _ ← bigint_arg user_id;
  Ok (from_option u_is_banned false (users d !! user_id)).

(** UPDATE users SET coins = coins + $1 WHERE user_id = $2 *)
Definition add_coins (d : DB) (user_id amount : Z) : result DB :=
  _ ← integer_arg amount;
  _ ← bigint_arg user_id;
  match users d !! user_id with
  | None => Ok d
  | Some u =>
      if int4 (u_coins u + amount)
      then Ok (with_users d (<[user_id := set_coins (u_coins u + amount) u]> (users d)))
      else Raise NumericValueOutOfRangeError
  end.

(** UPDATE users SET is_premium = $1 WHERE user_id = $2 *)
Definition set_premium_status (d : DB) (user_id : Z) (status : bool) : result DB :=
  _ ← bigint_arg user_id;
  Ok (with_users d (alter (set_premium status) user_id (users d))).

(** UPDATE users SET is_banned = $1 WHERE user_id = $2 *)
Definition set_ban_status (d : DB) (user_id : Z) (status : bool) : result DB :=
  _ ← bigint_arg user_id;
  Ok (with_users d (alter (set_banned status) user_id (users d))).

(** SELECT referral_code FROM users WHERE user_id = $1 *)
Definition get_referral_code (d : DB) (user_id : Z) : result (option string) :=
  _ ← bigint_arg user_id;
  Ok (users d !! user_id ≫= u_referral_code).

(** SELECT user_id FROM users WHERE referral_code = $1, first row *)
Definition has_code (code : string) (kv : Z * user_row) : Prop :=
  u_referral_code kv.2 = Some code.
Global Instance has_code_dec code kv : Decision (has_code code kv).
Proof. unfold has_code. apply _. Defined.
Definition select_referrer (us : gmap Z user_row) (code : string) : option Z :=
  fst <$> head (filter (has_code code) (map_to_list us)).

(** [str(uuid.uuid4())[:8]]: the first eight hexadecimal digits of the
    128-bit value, which are its 32 most significant bits. *)
Definition hex_digit (n : Z) : ascii :=
  if n <? 10 then ascii_of_N (Z.to_N (48 + n)) else ascii_of_N (Z.to_N (87 + n)).
Fixpoint hex_digits (k : nat) (n : Z) (acc : string) : string :=
  match k with
  | O => acc
  | S k' => hex_digits k' (n / 16) (String (hex_digit (n mod 16)) acc)
  end.
Definition uuid_prefix (uuid4 : Z) : string :=
  hex_digits 8 ((uuid4 mod 2 ^ 128) / 2 ^ 96) "".

(** The default-valued row of INSERT INTO users (user_id, name,
    referral_code, referred_by). *)
Definition new_user (name code : string) (referred_by : option string) : user_row :=
  UserRow name 100 false false (Some code) referred_by.
Definition new_profile : profile_row := ProfileRow None None None None None.

(** The writes of the transaction of [create_user] that are not committed
    yet: the connection that runs the transaction sees them, another
    connection does not. *)
Definition pending (d : DB) (user_id : Z) (u : user_row) : DB :=
  Store (<[user_id := u]> (users d)) (<[user_id := new_profile]> (profiles d)) (likes d).

(** The constraints checked by the two inserts. *)
Definition insert_checks (d : DB) (user_id : Z) (code : string) : result unit :=
  _ ← bigint_arg user_id;
  if bool_decide (is_Some (users d !! user_id)) then Raise UniqueViolationError
  else if bool_decide (is_Some (select_referrer (users d) code)) then Raise UniqueViolationError
  else if bool_decide (is_Some (profiles d !! user_id)) then Raise UniqueViolationError
  else Ok ().

(** A run of [create_user]: the stores committed one after the other, as
    another connection can observe them, and the exception that ended the
    run, if any.  [add_coins] opens a connection of its own, so it reads
    and writes the committed store [d], not the pending one, and its update
    is committed when it returns; the two inserts are committed when the
    [async with] block is left without an exception. *)
Record run : Type := Run { commits : list DB; raised : option exn }.

Definition create_user_run (d : DB) (user_id : Z) (name : string)
    (referral_code : option string) (uuid4 : Z) : run :=
  match user_exists d user_id with
  | Raise e => Run [] (Some e)
  | Ok true => Run [] None
  | Ok false =>
      let user_referral_code := uuid_prefix uuid4 in
      let u := new_user name user_referral_code referral_code in
      match insert_checks d user_id user_referral_code with
      | Raise e => Run [] (Some e)
      | Ok _ =>
          if truthy_str referral_code then
            let referrer_id :=
              select_referrer (users (pending d user_id u)) (default "" referral_code) in
            if truthy_int referrer_id then
              match add_coins d (default 0 referrer_id) 50 with
              | Raise e => Run [] (Some e)
              | Ok d1 => Run [d1; pending d1 user_id u] None
              end
            else Run [pending d user_id u] None
          else Run [pending d user_id u] None
      end
  end.

(** The store [create_user] leaves behind, or the exception it raises. *)
Definition create_user (d : DB) (user_id : Z) (name : string)
    (referral_code : option string) (uuid4 : Z) : result DB :=
  let r := create_user_run d user_id name referral_code uuid4 in
  match raised r with
  | Some e => Raise e
  | None => Ok (List.last (commits r) d)
  end.

(** *** update_profile

    [update_profile] splices [field] into the text of the statement,
    UPDATE profiles SET {field} = $1 WHERE user_id = $2, and performs no
    check of its own.  The store reads the text between SET and WHERE,
    which is [field] followed by [ = $1], as a list of assignments.  The
    fragment given a meaning here: assignments separated by commas, each
    an unquoted name, [=], and either the placeholder [$1] or an integer
    literal (for an INTEGER or BIGINT column).  A text outside the
    fragment gets [UnsupportedStatement]: the model does not say what the
    store does with it. *)

Inductive column : Type :=
  c_user_id | c_gender | c_age | c_bio | c_photo_id | c_location.
Global Instance column_eq_dec : EqDecision column.
Proof. solve_decision. Defined.

Inductive sqltype : Type := TText | TInteger | TBigint.
Global Instance sqltype_eq_dec : EqDecision sqltype.
Proof. solve_decision. Defined.

Definition column_type (c : column) : sqltype :=
  match c with
  | c_user_id => TBigint
  | c_age => TInteger
  | c_gender | c_bio | c_photo_id | c_location => TText
  end.

Definition column_of_name (s : string) : option column :=
  if String.eqb s "user_id" then Some c_user_id
  else if String.eqb s "gender" then Some c_gender
  else if String.eqb s "age" then Some c_age
  else if String.eqb s "bio" then Some c_bio
  else if String.eqb s "photo_id" then Some c_photo_id
  else if String.eqb s "location" then Some c_location
  else None.

(** Whitespace of the SQL scanner. *)
Definition sql_space (c : ascii) : bool :=
  let n := Z.of_N (N_of_ascii c) in
  (n =? 32) || (n =? 9) || (n =? 10) || (n =? 13) || (n =? 12).
Fixpoint sql_ltrim (l : list ascii) : list ascii :=
  match l with
  | c :: l' => if sql_space c then sql_ltrim l' else l
  | [] => []
  end.
Definition sql_trim (l : list ascii) : list ascii :=
  rev (sql_ltrim (rev (sql_ltrim l))).

(** Unquoted names as the scanner reads them: a letter or underscore, then
    letters, digits and underscores; upper-case letters are folded to
    lower case.  A key word has the same shape; [key_word] below tells
    which names the grammar refuses where a column is to be named. *)
Definition is_letter (c : ascii) : bool :=
  let n := Z.of_N (N_of_ascii c) in
  ((65 <=? n) && (n <=? 90)) || ((97 <=? n) && (n <=? 122)) || (n =? 95).
Definition is_ident_char (c : ascii) : bool :=
  is_letter c || bool_decide (is_Some (py.digit c)).
Definition fold_case (c : ascii) : ascii :=
  let n := Z.of_N (N_of_ascii c) in
  if (65 <=? n) && (n <=? 90) then ascii_of_N (Z.to_N (n + 32)) else c.
Definition identifier (l : list ascii) : option string :=
  match l with
  | c :: _ =>
      if is_letter c && forallb is_ident_char l
      then Some (py.text (map fold_case l)) else None
  | [] => None
  end.

Inductive sql_value : Type :=
  | Placeholder               (* $1 *)
  | IntLit (z : Z).

Fixpoint plain_digits (acc : Z) (l : list ascii) : option Z :=
  match l with
  | [] => Some acc
  | c :: l' => d ← py.digit c; plain_digits (10 * acc + d) l'
  end.
Definition value_expr (l : list ascii) : option sql_value :=
  match l with
  | ["$"; "1"]%char => Some Placeholder
  | "-"%char :: (_ :: _) as ds => (λ z, IntLit (- z)) <$> plain_digits 0 ds
  | _ :: _ => IntLit <$> plain_digits 0 l
  | [] => None
  end.

(** One assignment: the text before the first [=] is the target. *)
Fixpoint break_eq (cur : list ascii) (l : list ascii) : option (list ascii * list ascii) :=
  match l with
  | [] => None
  | c :: l' => if Ascii.eqb c "=" then Some (rev cur, l') else break_eq (c :: cur) l'
  end.
Definition assignment (s : string) : option (string * sql_value) :=
  '(lhs, rhs) ← break_eq [] (py.chars s);
  name ← identifier (sql_trim lhs);
  v ← value_expr (sql_trim rhs);
  Some (name, v).

Definition set_clause (s : string) : option (list (string * sql_value)) :=
  mapM assignment (py.split_sep "," s).

(** The values a handler passes for [$1]. *)
Inductive pyval : Type :=
  | PyNone
  | PyStr (s : string)
  | PyInt (z : Z).

Definition encode_arg (t : sqltype) (v : pyval) : result unit :=
  match t, v with
  | _, PyNone => Ok ()
  | TText, PyStr _ => Ok ()
  | TInteger, PyInt z => integer_arg z
  | TBigint, PyInt z => bigint_arg z
  | _, _ => Raise DataError
  end.

(** The key words the grammar does not accept as the name of a column:
    the reserved key words of PostgreSQL 16, those that can name a
    function or a type included (Appendix C of its documentation).  The
    scanner compares the name folded to lower case. *)
Definition reserved_key_words : list string :=
  ["all"; "analyse"; "analyze"; "and"; "any"; "array"; "as"; "asc";
   "asymmetric"; "authorization"; "binary"; "both"; "case"; "cast"; "check";
   "collate"; "collation"; "column"; "concurrently"; "constraint"; "create";
   "cross"; "current_catalog"; "current_date"; "current_role";
   "current_schema"; "current_time"; "current_timestamp"; "current_user";
   "default"; "deferrable"; "desc"; "distinct"; "do"; "else"; "end";
   "except"; "false"; "fetch"; "for"; "foreign"; "freeze"; "from"; "full";
   "grant"; "group"; "having"; "ilike"; "in"; "initially"; "inner";
   "intersect"; "into"; "is"; "isnull"; "join"; "lateral"; "leading";
   "left"; "like"; "limit"; "localtime"; "localtimestamp"; "natural"; "not";
   "notnull"; "null"; "offset"; "on"; "only"; "or"; "order"; "outer";
   "overlaps"; "placing"; "primary"; "references"; "returning"; "right";
   "select"; "session_user"; "similar"; "some"; "symmetric"; "system_user";
   "table"; "tablesample"; "then"; "to"; "trailing"; "true"; "union";
   "unique"; "user"; "using"; "variadic"; "verbose"; "when"; "where";
   "window"; "with"].
Definition key_word (name : string) : bool :=
  bool_decide (name ∈ reserved_key_words).

(** The system columns every table has; they can be read, not assigned. *)
Definition system_columns : list string :=
  ["tableoid"; "xmin"; "cmin"; "xmax"; "cmax"; "ctid"].
Definition system_column (name : string) : bool :=
  bool_decide (name ∈ system_columns).

(** The target of an assignment is looked up among the columns of
    profiles: a name of no column is an error, and so is the name of a
    system column. *)
Definition resolve (a : string * sql_value) : result (column * sql_value) :=
  match column_of_name a.1 with
  | Some c => Ok (c, a.2)
  | None =>
      if system_column a.1 then Raise FeatureNotSupportedError
      else Raise UndefinedColumnError
  end.
Fixpoint resolve_all (l : list (string * sql_value)) : result (list (column * sql_value)) :=
  match l with
  | [] => Ok []
  | a :: l' => c ← resolve a; cs ← resolve_all l'; Ok (c :: cs)
  end.

(** The type the statement gives to [$1], [None] when its uses disagree. *)
Definition placeholder_types (l : list (column * sql_value)) : list sqltype :=
  omap (λ a, match a.2 with Placeholder => Some (column_type a.1) | IntLit _ => None end) l.
Definition placeholder_type (l : list (column * sql_value)) : option sqltype :=
  match placeholder_types l with
  | t :: ts => if forallb (λ t', bool_decide (t' = t)) ts then Some t else None
  | [] => None
  end.

(** An integer literal for a text column is outside the fragment. *)
Definition supported_literal (a : column * sql_value) : bool :=
  match a.2, column_type a.1 with
  | IntLit _, TText => false
  | _, _ => true
  end.

(** A literal is converted to the type of its column when the statement
    is executed: one that does not fit is an error then. *)
Definition check_literal (a : column * sql_value) : result unit :=
  match a.2, column_type a.1 with
  | IntLit z, TInteger => if int4 z then Ok () else Raise NumericValueOutOfRangeError
  | IntLit z, TBigint => if int8 z then Ok () else Raise NumericValueOutOfRangeError
  | _, _ => Ok ()
  end.
Fixpoint check_literals (l : list (column * sql_value)) : result unit :=
  match l with
  | [] => Ok ()
  | a :: l' => _ ← check_literal a; check_literals l'
  end.

Definition text_of (arg : pyval) : option string :=
  match arg with PyStr s => Some s | PyInt _ | PyNone => None end.
Definition int_of (arg : pyval) (v : sql_value) : option Z :=
  match v, arg with
  | IntLit z, _ => Some z
  | Placeholder, PyInt z => Some z
  | Placeholder, (PyStr _ | PyNone) => None
  end.

(** The new values of a row, and the new key when user_id is assigned
    ([None] is NULL). *)
Definition assign (arg : pyval) (a : column * sql_value)
    (kr : option Z * profile_row) : option Z * profile_row :=
  let '(k, r) := kr in
  match a.1 with
  | c_user_id => (int_of arg a.2, r)
  | c_gender => (k, ProfileRow (text_of arg) (p_age r) (p_bio r) (p_photo_id r) (p_location r))
  | c_age => (k, ProfileRow (p_gender r) (int_of arg a.2) (p_bio r) (p_photo_id r) (p_location r))
  | c_bio => (k, ProfileRow (p_gender r) (p_age r) (text_of arg) (p_photo_id r) (p_location r))
  | c_photo_id => (k, ProfileRow (p_gender r) (p_age r) (p_bio r) (text_of arg) (p_location r))
  | c_location => (k, ProfileRow (p_gender r) (p_age r) (p_bio r) (p_photo_id r) (text_of arg))
  end.

(** The update of the one row with the key [user_id], with the checks of
    the primary key of profiles and of its reference to users. *)
Definition update_row (d : DB) (user_id : Z) (r : profile_row)
    (new : option Z * profile_row) : result DB :=
  match new.1 with
  | None => Raise NotNullViolationError
  | Some k =>
      if bool_decide (k = user_id)
      then Ok (with_profiles d (<[user_id := new.2]> (profiles d)))
      else if bool_decide (is_Some (profiles d !! k))
      then Raise UniqueViolationError
      else if bool_decide (is_Some (users d !! k))
      then Ok (with_profiles d (<[k := new.2]> (delete user_id (profiles d))))
      else Raise ForeignKeyViolationError
  end.

(** UPDATE profiles SET ... WHERE user_id = $2.  The statement is parsed
    first, when it is prepared: a key word in the place of a name is a
    syntax error.  Then the names are looked up, in order.  The driver
    encodes the two arguments for the prepared statement, and the store
    executes it.  All right-hand sides are constants or [$1], so the
    order of the assignments does not matter for the values written. *)
Definition execute_update_profiles (d : DB) (set_text : string)
    (arg : pyval) (user_id : Z) : result DB :=
  match set_clause set_text with
  | None => Raise UnsupportedStatement
  | Some named =>
      if existsb (λ a, key_word a.1) named then Raise PostgresSyntaxError
      else
      cols ← resolve_all named;
      if negb (bool_decide (NoDup cols.*1)) then Raise PostgresSyntaxError
      else if negb (forallb supported_literal cols) then Raise UnsupportedStatement
      else
        match placeholder_type cols with
        | None => Raise UnsupportedStatement
        | Some t =>
            _ ← encode_arg t arg;
            _ ← bigint_arg user_id;
            _ ← check_literals cols;
            match profiles d !! user_id with
            | None => Ok d
            | Some r => update_row d user_id r (foldr (assign arg) (Some user_id, r) cols)
            end
        end
  end.

Definition update_profile (d : DB) (user_id : Z) (field : string)
    (value : pyval) : result DB :=
  execute_update_profiles d (field +:+ " = $1") value user_id.

(** SELECT u.name, u.coins, u.is_premium, p.gender, p.age, p.bio,
    p.photo_id, p.location FROM users u JOIN profiles p ... :
    the row as the pair of its two halves, or None. *)
Definition get_user_profile (d : DB) (user_id : Z)
    : result (option (user_row * profile_row)) :=
  _ ← bigint_arg user_id;
  Ok (u ← users d !! user_id; p ← profiles d !! user_id; Some (u, p)).

(** SELECT COUNT( * ) FROM users WHERE referred_by = $1, for the code of
    the user; 0 when the user has no code. *)
Definition get_referral_count (d : DB) (user_id : Z) : result Z :=
  user_code ← get_referral_code d user_id;
  if truthy_str user_code
  then Ok (Z.of_nat (size (filter (λ kv : Z * user_row, u_referred_by kv.2 = user_code) (users d))))
  else Ok 0.

(** ADMIN_USER_IDS is read from the environment when the module loads. *)
Definition is_admin (ADMIN_USER_IDS : list Z) (user_id : Z) : bool :=
  bool_decide (user_id ∈ ADMIN_USER_IDS).

(** *** search_users *)

(** The WHERE clause of the search on one row of profiles JOIN users.  A
    NULL gender or age makes the clause NULL, and the row is left out. *)
Definition candidate (d : DB) (searcher_id : Z) (gender : option string)
    (min_age max_age : Z) (kp : Z * profile_row) : Prop :=
  (is_Some gender ∧ p_gender kp.2 = gender)
  ∧ (∃ a, p_age kp.2 = Some a ∧ min_age ≤ a ≤ max_age)
  ∧ kp.1 ≠ searcher_id
  ∧ (∃ u, users d !! kp.1 = Some u ∧ u_is_banned u = false).

Global Instance candidate_dec d s g lo hi kp : Decision (candidate d s g lo hi kp).
Proof.
  unfold candidate.
  refine (and_dec _ (and_dec _ (and_dec _ _))); try apply _.
  - destruct (p_age kp.2) as [a|].
    + destruct (decide (lo ≤ a ≤ hi)) as [H|H].
      * left. by exists a.
      * right. intros (a' & Ha & Hr). by simplify_eq.
    + right. intros (a' & Ha & _). discriminate.
  - destruct (users d !! kp.1) as [u|].
    + destruct (decide (u_is_banned u = false)) as [H|H].
      * left. by exists u.
      * right. intros (u' & Hu & Hb). by simplify_eq.
    + right. intros (u' & Hu & _). discriminate.
Defined.

(** ORDER BY RANDOM(): each selected row draws a value, the rows are sorted
    by it.  The draws are an argument, [random], read in scan order (0 when
    the list runs out). *)
Definition by_key (a b : Z * Z) : Prop := a.1 ≤ b.1.
Global Instance by_key_dec a b : Decision (by_key a b).
Proof. unfold by_key. apply _. Defined.

Fixpoint draw (random : list Z) (rows : list Z) : list (Z * Z) :=
  match rows with
  | [] => []
  | r :: rows' => (hd 0 random, r) :: draw (tl random) rows'
  end.
Definition order_by_random (random : list Z) (rows : list Z) : list Z :=
  (merge_sort by_key (draw random rows)).*2.

Definition search_users (d : DB) (searcher_id : Z) (gender : option string)
    (min_age max_age : Z) (random : list Z) : result (list Z) :=
  _ ← integer_arg min_age;
  _ ← integer_arg max_age;
  _ ← bigint_arg searcher_id;
  let rows := filter (candidate d searcher_id gender min_age max_age)
                     (map_to_list (profiles d)) in
  Ok (take 20 (order_by_random random rows.*1)).

(** SELECT user_id, name, is_banned FROM users ORDER BY created_at DESC.
    The times of creation are not part of the rows of the model; they are
    an argument, [created_at], from the key of a user to the time. *)
Definition later (created_at : Z → Z) (a b : Z * user_row) : Prop :=
  created_at b.1 ≤ created_at a.1.
Global Instance later_dec created_at a b : Decision (later created_at a b).
Proof. unfold later. apply _. Defined.

Definition listed (kv : Z * user_row) : Z * string * bool :=
  (kv.1, u_name kv.2, u_is_banned kv.2).
Definition get_all_users (d : DB) (created_at : Z → Z) : list (Z * string * bool) :=
  listed <$> merge_sort (later created_at) (map_to_list (users d)).

(** *** Well-formed stores

    What the schema and the way rows are written guarantee: keys are
    BIGINT values, balances and ages INTEGER values, every user has a
    referral code of eight characters, no two users share one, every
    user has a profile row and every profile row a user, and a Like
    refers to users. *)
Record wf (d : DB) : Prop := WF {
  wf_key : ∀ k u, users d !! k = Some u → int8 k = true;
  wf_coins : ∀ k u, users d !! k = Some u → int4 (u_coins u) = true;
  wf_code : ∀ k u, users d !! k = Some u →
              ∃ c, u_referral_code u = Some c ∧ String.length c = 8%nat;
  wf_unique : ∀ k1 k2 u1 u2, users d !! k1 = Some u1 → users d !! k2 = Some u2 →
              u_referral_code u1 = u_referral_code u2 → k1 = k2;
  wf_profile : ∀ k, is_Some (profiles d !! k) ↔ is_Some (users d !! k);
  wf_age : ∀ k p a, profiles d !! k = Some p → p_age p = Some a → int4 a = true;
  wf_likes : ∀ a b, (a, b) ∈ likes d → is_Some (users d !! a) ∧ is_Some (users d !! b);
}.

(** The five fields the handlers of main.py pass. *)
Definition profile_fields : list string :=
  ["gender"; "age"; "bio"; "photo_id"; "location"].

Definition set_field (c : column) (value : pyval) (r : profile_row) : profile_row :=
  (assign value (c, Placeholder) (None, r)).2.

End db.

(** ** main.py *)

Module main.

(** The conversation states, and [ConversationHandler.END]. *)
Inductive state : Type :=
  | GENDER | AGE | BIO | PHOTO | LOCATION | MENU
  | SEARCH_GENDER | SEARCH_AGE_MIN | SEARCH_AGE_MAX | VIEW_PROFILE
  | ADMIN_MENU | ADMIN_GRANT_COINS | ADMIN_GRANT_PREMIUM | ADMIN_USER_LIST
  | ADMIN_BAN_USER | ADMIN_UNBAN_USER
  | END.
Global Instance state_eq_dec : EqDecision state.
Proof. solve_decision. Defined.

(** [context.user_data]: the four keys the handlers use; [None] is a
    missing key. *)
Record UserData : Type := Data {
  ud_search_gender : option (option string);
  ud_search_age_min : option Z;
  ud_search_results : option (list Z);
  ud_search_index : option nat;
}.
Definition no_data : UserData := Data None None None None.

(** What the bot sends. *)
Inductive text : Type :=
  | Lit (s : string)
  | ProfileText (data : db.user_row * db.profile_row)
  | GrantedText (amount target : Z)          (* "Successfully granted ..." *)
  | GrantNotice (amount : Z)                 (* "An admin has granted you ..." *)
  | ReferralText (code : option string) (count : Z).

Inductive markup : Type :=
  | NoMarkup
  | ReplyKeyboard (rows : list (list string))
  | ReplyKeyboardRemove
  | InlineKeyboard (rows : list (list (string * string))).   (* label, callback_data *)

Inductive request : Type :=
  | reply_text (chat : Z) (t : text) (m : markup)
  | send_message (chat_id : Z) (t : text)
  | send_photo (chat_id : Z) (photo : string) (caption : text) (m : markup)
  | edit_message_text (t : text) (m : markup)
  | delete_message
  | answer.

Record world : Type := World {
  store : db.DB;
  user_data : UserData;
  sent : list request;          (* oldest first *)
}.

(** *** The monad of the handlers *)

Inductive outcome (A : Type) : Type :=
  | Returned (a : A) (w : world)
  | Raised (e : exn) (w : world).
Global Arguments Returned {A} a w.
Global Arguments Raised {A} e w.

Definition M (A : Type) : Type := world → outcome A.

Global Instance M_ret : MRet M := λ A a w, Returned a w.
Global Instance M_bind : MBind M := λ A B f m w,
  match m w with
  | Returned a w' => f a w'
  | Raised e w' => Raised e w'
  end.

Definition raise {A} (e : exn) : M A := λ w, Raised e w.
Definition send (r : request) : M unit :=
  λ w, Returned () (World (store w) (user_data w) (sent w ++ [r])).
Definition get_data : M UserData := λ w, Returned (user_data w) w.
Definition put_data (u : UserData) : M unit :=
  λ w, Returned () (World (store w) u (sent w)).
(** A read of the store, and a write: nothing is written when it raises. *)
Definition query {A} (f : db.DB → result A) : M A :=
  λ w, match f (store w) with Ok a => Returned a w | Raise e => Raised e w end.
Definition execute (f : db.DB → result db.DB) : M unit :=
  λ w, match f (store w) with
       | Ok d => Returned () (World d (user_data w) (sent w))
       | Raise e => Raised e w
       end.
Definition of_option {A} (e : exn) (o : option A) : M A :=
  match o with Some a => mret a | None => raise e end.

(** [try: body except (classes): handler]; what [body] did before the
    exception stays done. *)
Definition try_except {A} (body : M A) (classes : exn → bool) (handler : M A) : M A :=
  λ w, match body w with
       | Returned a w' => Returned a w'
       | Raised e w' => if classes e then handler w' else Raised e w'
       end.

Definition ValueError_or_TypeError (e : exn) : bool :=
  is_ValueError e || bool_decide (e = TypeError).
Definition ValueError_or_IndexError (e : exn) : bool :=
  is_ValueError e || bool_decide (e = IndexError).

(** [int(x)] where [x] is a [str] or None. *)
Definition int_ (x : option string) : M Z :=
  match x with
  | None => raise TypeError
  | Some s => of_option ValueError (py.int s)
  end.

Definition str_of_int (z : Z) : string :=
  DecimalString.NilZero.string_of_int (Z.to_int z).

Definition arg_of_text (x : option string) : db.pyval :=
  match x with Some s => db.PyStr s | None => db.PyNone end.

(** *** Updates *)

(** A message: its sender, its chat, and what it carries: a text, with
    the length of the bot_command entity at its start when it has one, or
    the sizes of a photo (file ids), or something else.  A callback query:
    its sender, the chat of the message that carries the button, and the
    button's data. *)
Inductive content : Type :=
  | text_content (t : string) (entity : option nat)
  | photo_content (sizes : list string)
  | other_content.
Record message : Type := Message {
  from_user : Z;
  first_name : string;
  chat : Z;
  carries : content;
}.
Definition msg_text (m : message) : option string :=
  match carries m with text_content t _ => Some t | _ => None end.
Definition bot_command (m : message) : option nat :=
  match carries m with text_content _ e => e | _ => None end.
Definition photo (m : message) : list string :=
  match carries m with photo_content l => l | _ => [] end.
Record callback_query : Type := CallbackQuery {
  q_from_user : Z;
  q_chat : Z;
  q_data : string;
}.
Inductive update : Type :=
  | of_message (m : message)
  | of_callback (q : callback_query).

(** [view_profile] is called with an Update by [search_age_max] and with
    the CallbackQuery itself by [profile_callback].  Both have [.message];
    only an Update has [.effective_chat]. *)
Inductive update_like : Type :=
  | an_update (m : message)
  | a_query (q : callback_query).

Definition message_chat (u : update_like) : Z :=
  match u with an_update m => chat m | a_query q => q_chat q end.
Definition effective_chat (u : update_like) : M Z :=
  match u with
  | an_update m => mret (chat m)
  | a_query _ => raise AttributeError
  end.

Definition gender_keyboard : markup := ReplyKeyboard [["Male"; "Female"; "Other"]].

(** *** Start and profile creation *)

Definition get_user_profile_text (user_id : Z) : M text :=
  profile_data ← query (λ d, db.get_user_profile d user_id);
  match profile_data with
  | None => mret (Lit "Profile not found.")
  | Some data => mret (ProfileText data)
  end.

Definition start (m : message) (args : list string) (uuid4 : Z) : M state :=
  let user_id := from_user m in
  let referral_code := head args in
  exists_ ← query (λ d, db.user_exists d user_id);
  if exists_ : bool then
    send (reply_text (chat m) (Lit "Welcome back! You can access the menu with /menu.") NoMarkup);;
    mret END
  else
    execute (λ d, db.create_user d user_id (first_name m) referral_code uuid4);;
    send (reply_text (chat m)
      (Lit "Hi! Welcome to the Dating Bot. Let's create your profile. First, what is your gender?")
      gender_keyboard);;
    mret GENDER.

Definition gender (m : message) : M state :=
  execute (λ d, db.update_profile d (from_user m) "gender" (arg_of_text (msg_text m)));;
  send (reply_text (chat m) (Lit "Great! Now, how old are you?") NoMarkup);;
  mret AGE.

Definition age (m : message) : M state :=
  let user_id := from_user m in
  try_except
    (user_age ← int_ (msg_text m);
     (if negb ((18 <=? user_age) && (user_age <=? 99)) then raise ValueError else mret ());;
     execute (λ d, db.update_profile d user_id "age" (db.PyInt user_age));;
     send (reply_text (chat m) (Lit "Got it. Now, write a short bio about yourself.") NoMarkup);;
     mret BIO)
    ValueError_or_TypeError
    (send (reply_text (chat m) (Lit "Please enter a valid age (between 18 and 99).") NoMarkup);;
     mret AGE).

Definition bio (m : message) : M state :=
  execute (λ d, db.update_profile d (from_user m) "bio" (arg_of_text (msg_text m)));;
  send (reply_text (chat m) (Lit "Nice bio! Now, please send a photo of yourself.")
          ReplyKeyboardRemove);;
  mret PHOTO.

Definition photo_ (m : message) : M state :=
  file_id ← of_option IndexError (last (photo m));
  execute (λ d, db.update_profile d (from_user m) "photo_id" (db.PyStr file_id));;
  send (reply_text (chat m)
          (Lit "Looking good! Finally, what's your location (e.g., city, country)?") NoMarkup);;
  mret LOCATION.

Definition location (m : message) : M state :=
  execute (λ d, db.update_profile d (from_user m) "location" (arg_of_text (msg_text m)));;
  send (reply_text (chat m)
          (Lit "Your profile is complete! You can now use the bot's features. Use /menu to see what you can do.")
          NoMarkup);;
  mret END.

Definition cancel (m : message) : M state :=
  send (reply_text (chat m) (Lit "Operation cancelled.") ReplyKeyboardRemove);;
  mret END.

(** *** Search *)

Definition search_gender (m : message) : M state :=
  u ← get_data;
  put_data (Data (Some (msg_text m)) (ud_search_age_min u)
                 (ud_search_results u) (ud_search_index u));;
  send (reply_text (chat m) (Lit "What's the minimum age you're looking for?") NoMarkup);;
  mret SEARCH_AGE_MIN.

Definition search_age_min (m : message) : M state :=
  try_except
    (min_age ← int_ (msg_text m);
     (if negb ((18 <=? min_age) && (min_age <=? 99)) then raise ValueError else mret ());;
     u ← get_data;
     put_data (Data (ud_search_gender u) (Some min_age)
                    (ud_search_results u) (ud_search_index u));;
     send (reply_text (chat m) (Lit "And the maximum age?") NoMarkup);;
     mret SEARCH_AGE_MAX)
    ValueError_or_TypeError
    (send (reply_text (chat m) (Lit "Please enter a valid age (between 18 and 99).") NoMarkup);;
     mret SEARCH_AGE_MIN).

Definition profile_keyboard (target_user_id : Z) : markup :=
  InlineKeyboard [[("Like", "like_" +:+ str_of_int target_user_id);
                   ("Next", "next_profile")]].

Definition view_profile (u : update_like) : M state :=
  data ← get_data;
  let results := default [] (ud_search_results data) in
  let index := default 0%nat (ud_search_index data) in
  if bool_decide (results = []) || bool_decide (length results ≤ index)%nat then
    send (reply_text (message_chat u) (Lit "No more profiles to show.") ReplyKeyboardRemove);;
    mret END
  else
    target_user_id ← of_option IndexError (results !! index);
    profile_text ← get_user_profile_text target_user_id;
    profile_data ← query (λ d, db.get_user_profile d target_user_id);
    let reply_markup := profile_keyboard target_user_id in
    row ← of_option AttributeError profile_data;
    (if truthy_str (db.p_photo_id row.2) then
       chat_id ← effective_chat u;
       send (send_photo chat_id (default "" (db.p_photo_id row.2)) profile_text reply_markup)
     else
       send (reply_text (message_chat u) profile_text reply_markup));;
    mret VIEW_PROFILE.

Definition search_age_max (m : message) (random : list Z) : M state :=
  try_except
    (max_age ← int_ (msg_text m);
     data ← get_data;
     min_age ← of_option KeyError (ud_search_age_min data);
     (if negb ((min_age <=? max_age) && (max_age <=? 99)) then raise ValueError else mret ());;
     gender_pref ← of_option KeyError (ud_search_gender data);
     let user_id := from_user m in
     results ← query (λ d, db.search_users d user_id gender_pref min_age max_age random);
     if bool_decide (results = []) then
       send (reply_text (chat m) (Lit "No users found matching your criteria.") NoMarkup);;
       mret END
     else
       put_data (Data (ud_search_gender data) (ud_search_age_min data) (Some results) (Some 0%nat));;
       view_profile (an_update m);;
       mret VIEW_PROFILE)
    ValueError_or_TypeError
    (send (reply_text (chat m)
             (Lit "Please enter a valid age greater than or equal to the minimum age.") NoMarkup);;
     mret SEARCH_AGE_MAX).

(** [context.user_data["search_index"] += 1] *)
Definition increment_index : M unit :=
  data ← get_data;
  index ← of_option KeyError (ud_search_index data);
  put_data (Data (ud_search_gender data) (ud_search_age_min data)
                 (ud_search_results data) (Some (S index))).

Definition profile_callback (q : callback_query) : M state :=
  send answer;;
  let data := q_data q in
  let user_id := q_from_user q in
  if py.startswith data "like_" then
    part ← of_option IndexError (py.split_sep "_" data !! 1%nat);
    target_user_id ← of_option ValueError (py.int part);
    send (send_message target_user_id
            (Lit "Someone liked your profile! You can view their profile by searching for them."));;
    send (edit_message_text (Lit "You liked this profile!") NoMarkup);;
    increment_index;;
    send (send_message user_id (Lit "Loading next profile..."));;
    view_profile (a_query q);;
    mret VIEW_PROFILE
  else if String.eqb data "next_profile" then
    increment_index;;
    send delete_message;;
    view_profile (a_query q);;
    mret VIEW_PROFILE
  else mret VIEW_PROFILE.

(** *** Admin *)

Definition admin_keyboard : markup :=
  InlineKeyboard [[("List Users", "admin_list_users")];
                  [("Grant Coins", "admin_grant_coins")];
                  [("Grant Premium", "admin_grant_premium")];
                  [("Ban User", "admin_ban_user")];
                  [("Unban User", "admin_unban_user")];
                  [("Back to Main Menu", "main_menu_back")]].

Definition effective_user (u : update) : Z :=
  match u with of_message m => from_user m | of_callback q => q_from_user q end.

Definition admin_menu_command (ADMIN_USER_IDS : list Z) (u : update) : M state :=
  let user_id := effective_user u in
  if negb (db.is_admin ADMIN_USER_IDS user_id) then
    match u with
    | of_callback _ =>
        send (edit_message_text (Lit "You are not authorized to use this command.") NoMarkup);;
        mret END
    | of_message _ => raise AttributeError
    end
  else
    match u with
    | of_callback _ => send (edit_message_text (Lit "Admin Menu:") admin_keyboard)
    | of_message m => send (reply_text (chat m) (Lit "Admin Menu:") admin_keyboard)
    end;;
    mret ADMIN_MENU.

(** The body of the [try] of [admin_grant_coins]: [Some s] is an early
    [return s], [None] falls through to the code after the [try]. *)
Definition admin_grant_coins_try (m : message) : M (option state) :=
  txt ← of_option AttributeError (msg_text m);
  match py.split txt with
  | [user_id_str; amount_str] =>
      target_user_id ← of_option ValueError (py.int user_id_str);
      amount ← of_option ValueError (py.int amount_str);
      exists_ ← query (λ d, db.user_exists d target_user_id);
      if negb exists_ then
        send (reply_text (chat m) (Lit "User not found.") NoMarkup);;
        mret (Some ADMIN_MENU)
      else
        execute (λ d, db.add_coins d target_user_id amount);;
        send (reply_text (chat m) (GrantedText amount target_user_id) NoMarkup);;
        send (send_message target_user_id (GrantNotice amount));;
        mret None
  | _ => raise ValueError
  end.

Definition admin_grant_coins (ADMIN_USER_IDS : list Z) (m : message) : M state :=
  early ← try_except (admin_grant_coins_try m) ValueError_or_IndexError
             (send (reply_text (chat m) (Lit "Invalid format. Please use: UserID Amount") NoMarkup);;
              mret None);
  match early with
  | Some s => mret s
  | None =>
      admin_menu_command ADMIN_USER_IDS (of_message m);;
      mret ADMIN_MENU
  end.

(** *** The handlers registered by [main()]

    A handler of the library names a callback and says which updates it
    takes.  The updates considered are new messages and button presses. *)

Inductive callback : Type :=
  | cb_start | cb_gender | cb_age | cb_bio | cb_photo | cb_location | cb_cancel
  | cb_menu | cb_menu_callback
  | cb_search_gender | cb_search_age_min | cb_search_age_max | cb_profile_callback
  | cb_admin_menu_command | cb_admin_menu_callback
  | cb_admin_grant_coins | cb_admin_grant_premium
  | cb_admin_ban_user | cb_admin_unban_user.
Global Instance callback_eq_dec : EqDecision callback.
Proof. solve_decision. Defined.

(** The three message filters in use.  [filters.Regex] searches the text
    for ^(Male|Female|Other)$, and [$] also matches before a final line
    feed. *)
Inductive message_filter : Type :=
  | filters_Regex_gender
  | filters_TEXT_and_not_COMMAND
  | filters_PHOTO.

Definition line_feed : string := String (ascii_of_N 10) "".
Definition gender_words : list string := ["Male"; "Female"; "Other"].
Definition regex_gender (t : string) : bool :=
  bool_decide (t ∈ gender_words ++ ((λ g, g +:+ line_feed) <$> gender_words)).

Definition COMMAND (m : message) : bool := bool_decide (is_Some (bot_command m)).

Definition check_filter (f : message_filter) (m : message) : bool :=
  match f with
  | filters_Regex_gender => from_option regex_gender false (msg_text m)
  | filters_TEXT_and_not_COMMAND => truthy_str (msg_text m) && negb (COMMAND m)
  | filters_PHOTO => negb (bool_decide (photo m = []))
  end.

(** The patterns of the button handlers, matched at the start of the
    data. *)
Inductive pattern : Type :=
  | search_pattern            (* ^search$ *)
  | like_or_next_pattern      (* ^(like_|next_profile) *)
  | admin_pattern.            (* ^admin_ *)
Definition re_match (p : pattern) (data : string) : bool :=
  match p with
  | search_pattern => String.eqb data "search" || String.eqb data ("search" +:+ line_feed)
  | like_or_next_pattern => py.startswith data "like_" || py.startswith data "next_profile"
  | admin_pattern => py.startswith data "admin_"
  end.

Inductive handler : Type :=
  | CommandHandler (command : string) (cb : callback)
  | MessageHandler (f : message_filter) (cb : callback)
  | CallbackQueryHandler (cb : callback) (p : option pattern).

Definition callback_of (h : handler) : callback :=
  match h with
  | CommandHandler _ cb | MessageHandler _ cb | CallbackQueryHandler cb _ => cb
  end.

(** The command a message gives to the bot named [username]
    ([message.get_bot().username]).  The text of the bot_command entity,
    without the slash, is split at [@] and the name of the bot is appended
    to the parts: the first part is the command, and the second, which is
    the bot's own name when the text names no bot, has to be the name of
    this bot.  Both are compared in lower case.  A command addressed to
    another bot is no command for this one. *)
Definition command_name (username : string) (m : message) : option string :=
  n ← bot_command m;
  t ← msg_text m;
  if String.eqb t "" then None
  else
    let command_parts := py.split_sep "@" (py.slice 1 n t) ++ [username] in
    if String.eqb (py.lower (nth 1 command_parts "")) (py.lower username)
    then Some (py.lower (nth 0 command_parts ""))
    else None.

Definition check_update (username : string) (h : handler) (u : update) : bool :=
  match h, u with
  | CommandHandler c _, of_message m => bool_decide (command_name username m = Some c)
  | MessageHandler f _, of_message m => check_filter f m
  | CallbackQueryHandler _ p, of_callback q =>
      from_option (λ p, re_match p (q_data q)) true p
  | _, _ => false
  end.

(** A conversation: [states] is the dict of the handlers of each state. *)
Record ConversationHandler : Type := Conversation {
  entry_points : list handler;
  states : list (state * list handler);
  fallbacks : list handler;
}.

Definition first_match (username : string) (hs : list handler) (u : update)
    : option callback :=
  callback_of <$> List.find (λ h, check_update username h u) hs.

Definition state_handlers (c : ConversationHandler) (s : state) : list handler :=
  from_option snd [] (List.find (λ e, bool_decide (e.1 = s)) (states c)).

(** The callback a conversation chooses for an update, if any: without a
    state, an entry point; in a state, a handler of the state, and when
    none takes the update, a fallback. *)
Definition conversation_check (username : string) (c : ConversationHandler)
    (s : option state) (u : update) : option callback :=
  match s with
  | None => first_match username (entry_points c) u
  | Some st =>
      match first_match username (state_handlers c st) u with
      | Some cb => Some cb
      | None => first_match username (fallbacks c) u
      end
  end.

(** The state of the conversation after the callback returned [new]:
    END removes the key of the conversation. *)
Definition update_state (new : state) : option state :=
  if bool_decide (new = END) then None else Some new.

Definition conv_handler : ConversationHandler :=
  Conversation
    [CommandHandler "start" cb_start]
    [(GENDER, [MessageHandler filters_Regex_gender cb_gender]);
     (AGE, [MessageHandler filters_TEXT_and_not_COMMAND cb_age]);
     (BIO, [MessageHandler filters_TEXT_and_not_COMMAND cb_bio]);
     (PHOTO, [MessageHandler filters_PHOTO cb_photo]);
     (LOCATION, [MessageHandler filters_TEXT_and_not_COMMAND cb_location])]
    [CommandHandler "cancel" cb_cancel].

Definition search_conv_handler : ConversationHandler :=
  Conversation
    [CallbackQueryHandler cb_menu_callback (Some search_pattern)]
    [(SEARCH_GENDER, [MessageHandler filters_Regex_gender cb_search_gender]);
     (SEARCH_AGE_MIN, [MessageHandler filters_TEXT_and_not_COMMAND cb_search_age_min]);
     (SEARCH_AGE_MAX, [MessageHandler filters_TEXT_and_not_COMMAND cb_search_age_max]);
     (VIEW_PROFILE, [CallbackQueryHandler cb_profile_callback (Some like_or_next_pattern)])]
    [CommandHandler "cancel" cb_cancel].

Definition admin_conv_handler : ConversationHandler :=
  Conversation
    [CallbackQueryHandler cb_admin_menu_callback (Some admin_pattern)]
    [(ADMIN_MENU, [CallbackQueryHandler cb_admin_menu_callback None]);
     (ADMIN_GRANT_COINS, [MessageHandler filters_TEXT_and_not_COMMAND cb_admin_grant_coins]);
     (ADMIN_GRANT_PREMIUM, [MessageHandler filters_TEXT_and_not_COMMAND cb_admin_grant_premium]);
     (ADMIN_BAN_USER, [MessageHandler filters_TEXT_and_not_COMMAND cb_admin_ban_user]);
     (ADMIN_UNBAN_USER, [MessageHandler filters_TEXT_and_not_COMMAND cb_admin_unban_user])]
    [CommandHandler "cancel" cb_cancel].

(** The handlers of the application, in the order of [add_handler]; all
    are in one group, so an update goes to the first that takes it.  The
    three conversations come first, each with the state it has for the
    user. *)
Inductive registered : Type :=
  | conversation (c : ConversationHandler) (s : option state)
  | plain (h : handler).

Definition application (s1 s2 s3 : option state) : list registered :=
  [conversation conv_handler s1;
   conversation search_conv_handler s2;
   conversation admin_conv_handler s3;
   plain (CommandHandler "menu" cb_menu);
   plain (CommandHandler "admin" cb_admin_menu_command);
   plain (CallbackQueryHandler cb_menu_callback None)].

Definition takes (username : string) (r : registered) (u : update)
    : option callback :=
  match r with
  | conversation c s => conversation_check username c s u
  | plain h => if check_update username h u then Some (callback_of h) else None
  end.

(** The position of the handler that takes the update, and its callback,
    for the bot named [username]. *)
Fixpoint process_update (username : string) (rs : list registered) (u : update)
    : option (nat * callback) :=
  match rs with
  | [] => None
  | r :: rs' =>
      match takes username r u with
      | Some cb => Some (0%nat, cb)
      | None => prod_map S id <$> process_update username rs' u
      end
  end.

(** *** What a handler leaves behind *)

Definition final {A} (o : outcome A) : world :=
  match o with Returned _ w | Raised _ w => w end.
Definition returned {A} (o : outcome A) : option A :=
  match o with Returned a _ => Some a | Raised _ _ => None end.

(** A computation that leaves the store as it is, whatever its outcome. *)
Definition keeps_store {A} (m : M A) : Prop :=
  ∀ w, store (final (m w)) = store w.

(** The user data with the cursor at [i]. *)
Definition with_index (u : UserData) (i : nat) : UserData :=
  Data (ud_search_gender u) (ud_search_age_min u) (ud_search_results u) (Some i).

(** *** Main menu *)

Definition menu_keyboard (admin : bool) : markup :=
  InlineKeyboard
    ([[("Search for others", "search")];
      [("View my profile", "my_profile")];
      [("Referral System", "referral")];
      [("Store", "store")]]
     ++ (if admin then [[("Admin Menu", "admin_menu")]] else [])).

Definition menu (ADMIN_USER_IDS : list Z) (m : message) : M unit :=
  send (reply_text (chat m) (Lit "Main Menu:")
          (menu_keyboard (db.is_admin ADMIN_USER_IDS (from_user m)))).

(** *** The other handlers of the admin conversation *)

Definition user_line (user : Z * string * bool) : string :=
  "ID: <code>" +:+ str_of_int user.1.1 +:+ "</code>, Name: " +:+ user.1.2
  +:+ ", Banned: " +:+ (if user.2 then "Yes" else "No") +:+ line_feed.
Definition user_list_text (users : list (Z * string * bool)) : string :=
  foldl (λ user_list user, user_list +:+ user_line user)
        ("<b>List of Users:</b>" +:+ line_feed +:+ line_feed) users.

Definition admin_menu_callback (q : callback_query) (created_at : Z → Z) : M state :=
  send answer;;
  let data := q_data q in
  if String.eqb data "admin_list_users" then
    users ← query (λ d, Ok (db.get_all_users d created_at));
    if bool_decide (users = []) then
      send (edit_message_text (Lit "No users found.") NoMarkup);;
      mret ADMIN_MENU
    else
      send (edit_message_text (Lit (user_list_text users)) NoMarkup);;
      mret ADMIN_MENU
  else if String.eqb data "admin_grant_coins" then
    send (edit_message_text
            (Lit "Enter the User ID and amount of coins to grant (e.g., 12345678 100).")
            NoMarkup);;
    mret ADMIN_GRANT_COINS
  else if String.eqb data "admin_grant_premium" then
    send (edit_message_text (Lit "Enter the User ID to grant premium status to.") NoMarkup);;
    mret ADMIN_GRANT_PREMIUM
  else if String.eqb data "admin_ban_user" then
    send (edit_message_text (Lit "Enter the User ID to ban.") NoMarkup);;
    mret ADMIN_BAN_USER
  else if String.eqb data "admin_unban_user" then
    send (edit_message_text (Lit "Enter the User ID to unban.") NoMarkup);;
    mret ADMIN_UNBAN_USER
  else if String.eqb data "main_menu_back" then
    send (edit_message_text
            (Lit "Returning to main menu... Use /menu to bring it up again.") NoMarkup);;
    mret END
  else mret ADMIN_MENU.

(** The body of the [try] of [admin_grant_premium], as for
    [admin_grant_coins]. *)
Definition admin_grant_premium_try (m : message) : M (option state) :=
  target_user_id ← int_ (msg_text m);
  exists_ ← query (λ d, db.user_exists d target_user_id);
  if negb exists_ then
    send (reply_text (chat m) (Lit "User not found.") NoMarkup);;
    mret (Some ADMIN_MENU)
  else
    execute (λ d, db.set_premium_status d target_user_id true);;
    send (reply_text (chat m)
            (Lit ("Successfully granted premium status to user "
                  +:+ str_of_int target_user_id +:+ "."))
            NoMarkup);;
    send (send_message target_user_id (Lit "An admin has granted you premium status!"));;
    mret None.

Definition admin_grant_premium (ADMIN_USER_IDS : list Z) (m : message) : M state :=
  early ← try_except (admin_grant_premium_try m) is_ValueError
             (send (reply_text (chat m) (Lit "Invalid User ID.") NoMarkup);;
              mret None);
  match early with
  | Some s => mret s
  | None =>
      admin_menu_command ADMIN_USER_IDS (of_message m);;
      mret ADMIN_MENU
  end.

Definition action_word (ban : bool) : string :=
  if ban then "banned" else "unbanned".

Definition admin_ban_unban_user_try (m : message) (ban : bool) : M (option state) :=
  target_user_id ← int_ (msg_text m);
  exists_ ← query (λ d, db.user_exists d target_user_id);
  if negb exists_ then
    send (reply_text (chat m) (Lit "User not found.") NoMarkup);;
    mret (Some ADMIN_MENU)
  else
    execute (λ d, db.set_ban_status d target_user_id ban);;
    let action := action_word ban in
    send (reply_text (chat m)
            (Lit ("Successfully " +:+ action +:+ " user "
                  +:+ str_of_int target_user_id +:+ "."))
            NoMarkup);;
    send (send_message target_user_id (Lit ("An admin has " +:+ action +:+ " you.")));;
    mret None.

Definition admin_ban_unban_user (ADMIN_USER_IDS : list Z) (m : message) (ban : bool)
    : M state :=
  early ← try_except (admin_ban_unban_user_try m ban) is_ValueError
             (send (reply_text (chat m) (Lit "Invalid User ID.") NoMarkup);;
              mret None);
  match early with
  | Some s => mret s
  | None =>
      admin_menu_command ADMIN_USER_IDS (of_message m);;
      mret ADMIN_MENU
  end.


(** The characters of a string of decimal digits. *)
Definition decimal (d : Decimal.uint) : list ascii :=
  py.chars (DecimalString.NilEmpty.string_of_uint d).

(** *** Invariants of computations *)

(** A computation that keeps the store well formed, whatever its
    outcome, and one that only adds to what was sent. *)
Definition keeps_wf {A} (m : M A) : Prop :=
  ∀ w, db.wf (store w) → db.wf (store (final (m w))).
Definition only_sends {A} (m : M A) : Prop :=
  ∀ w, ∃ rest, sent (final (m w)) = sent w ++ rest.

End main.

(** ** Stores and worlds used as examples *)

Module scenario.
Import db.

(** A store with one user, id [B], whose referral code is 7ab3c9d2. *)
Definition referrer_uuid : Z := 0x7ab3c9d2 * 2 ^ 96.
Definition one_user (B : Z) : DB :=
  pending init_db B (new_user "Y" (uuid_prefix referrer_uuid) None).

Definition balance (d : DB) (k : Z) : option Z := u_coins <$> users d !! k.


(** A store in which the balance of user 5 is the largest INTEGER. *)
Definition rich_referrer : DB :=
  with_users (one_user 5)
    (<[5 := set_coins 2147483647 (new_user "Y" (uuid_prefix referrer_uuid) None)]>
       (users (one_user 5))).

(** A store with user 5, created by [create_user]. *)
Definition lone_user : DB :=
  pending init_db 5 (new_user "Y" (uuid_prefix 0) None).

(** Messages and button presses in a private chat, where the id of the
    chat is the id of the user. *)
Definition says (id : Z) (t : string) : main.message :=
  main.Message id "N" id (main.text_content t None).
Definition commands (id : Z) (t : string) : main.message :=
  main.Message id "N" id (main.text_content t (Some (String.length t))).
Definition shows (id : Z) (file_id : string) : main.message :=
  main.Message id "N" id (main.photo_content [file_id]).
Definition presses (id : Z) (data : string) : main.callback_query :=
  main.CallbackQuery id id data.

Definition fresh : main.world := main.World init_db main.no_data [].

(** A user who answers the first three questions of the profile creation,
    and the two answers that complete the profile. *)
Definition joins (id : Z) (g a : string) (uuid4 : Z) : main.M main.state :=
  main.start (commands id "/start") [] uuid4;;
  main.gender (says id g);;
  main.age (says id a);;
  main.bio (says id "hi").
Definition completes (id : Z) (file_id : string) : main.M main.state :=
  main.photo_ (shows id file_id);;
  main.location (says id "Paris").

(** A search for women between 18 and 99. *)
Definition searches (id : Z) (random : list Z) : main.M main.state :=
  main.search_gender (says id "Female");;
  main.search_age_min (says id "18");;
  main.search_age_max (says id "99") random.

(** Users 2 and 3 have answered three questions and have no photo; user
    5 has searched and sees the first candidate. *)
Definition without_photos : main.outcome main.state :=
  (joins 2 "Female" "25" (2 * 2 ^ 96);;
   joins 3 "Female" "30" (3 * 2 ^ 96);;
   joins 5 "Male" "40" (5 * 2 ^ 96);;
   searches 5 []) fresh.

(** The same with complete profiles for users 2 and 3. *)
Definition with_photos : main.outcome main.state :=
  (joins 2 "Female" "25" (2 * 2 ^ 96);;
   completes 2 "photo-of-2";;
   joins 3 "Female" "30" (3 * 2 ^ 96);;
   completes 3 "photo-of-3";;
   joins 5 "Male" "40" (5 * 2 ^ 96);;
   searches 5 []) fresh.

End scenario.

(** * Properties of the store *)

Module db_facts.
Import db.

Lemma int4_spec z : int4 z = true ↔ -2147483648 ≤ z ≤ 2147483647.
Proof. unfold int4. rewrite andb_true_iff, !Z.leb_le. tauto. Qed.

Lemma int8_spec z :
  int8 z = true ↔ -9223372036854775808 ≤ z ≤ 9223372036854775807.
Proof. unfold int8. rewrite andb_true_iff, !Z.leb_le. tauto. Qed.

Lemma bigint_arg_Ok z : int8 z = true → bigint_arg z = Ok ().
Proof. unfold bigint_arg. by intros ->. Qed.

Lemma integer_arg_Ok z : int4 z = true → integer_arg z = Ok ().
Proof. unfold integer_arg. by intros ->. Qed.

(** ** The lookup of a referrer *)

Lemma select_referrer_Some us code k :
  select_referrer us code = Some k →
  ∃ u, us !! k = Some u ∧ u_referral_code u = Some code.
Proof.
  unfold select_referrer. intros H.
  destruct (head _) as [[k' u]|] eqn:Hh; simplify_eq/=.
  apply head_Some_elem_of, list_elem_of_filter in Hh as [Hc Hin].
  apply elem_of_map_to_list in Hin. by exists u.
Qed.

Lemma select_referrer_None us code k u :
  select_referrer us code = None → us !! k = Some u →
  u_referral_code u ≠ Some code.
Proof.
  unfold select_referrer. intros H Hk Hc.
  destruct (head _) as [x|] eqn:Hh; simplify_eq/=.
  apply head_None in Hh.
  assert ((k, u) ∈ filter (has_code code) (map_to_list us)) as Hin.
  { apply list_elem_of_filter. split; [done|]. by apply elem_of_map_to_list. }
  rewrite Hh in Hin. by apply not_elem_of_nil in Hin.
Qed.

(** ** Well-formed stores *)

Lemma wf_init_db : wf init_db.
Proof.
  split; simpl; intros; simplify_map_eq; done.
Qed.

Lemma select_referrer_unique d code k u :
  wf d → users d !! k = Some u → u_referral_code u = Some code →
  select_referrer (users d) code = Some k.
Proof.
  intros Hwf Hk Hc.
  destruct (select_referrer (users d) code) as [k'|] eqn:Hs.
  - apply select_referrer_Some in Hs as (u' & Hk' & Hc').
    f_equal. eapply wf_unique; eauto. congruence.
  - exfalso. eapply select_referrer_None; eauto.
Qed.

Lemma hex_digits_length k n acc :
  String.length (hex_digits k n acc) = (k + String.length acc)%nat.
Proof.
  revert n acc. induction k as [|k IH]; intros n acc; simpl; [done|].
  rewrite IH. simpl. lia.
Qed.

Lemma uuid_prefix_length uuid4 : String.length (uuid_prefix uuid4) = 8%nat.
Proof. unfold uuid_prefix. by rewrite hex_digits_length. Qed.

Lemma code_truthy c : String.length c = 8%nat → truthy_str (Some c) = true.
Proof. destruct c; simpl; [discriminate|done]. Qed.

(** ** add_coins *)

Lemma add_coins_Ok d k amount u :
  users d !! k = Some u → int8 k = true → int4 amount = true →
  int4 (u_coins u + amount) = true →
  add_coins d k amount
  = Ok (with_users d (<[k := set_coins (u_coins u + amount) u]> (users d))).
Proof.
  intros Hk H8 H4 Hsum. unfold add_coins.
  rewrite (integer_arg_Ok _ H4), (bigint_arg_Ok _ H8). simpl.
  by rewrite Hk, Hsum.
Qed.

Lemma add_coins_absent d k amount d' :
  users d !! k = None → add_coins d k amount = Ok d' → d' = d.
Proof.
  unfold add_coins. intros Hk H.
  destruct (integer_arg amount); simpl in H; [|done].
  destruct (bigint_arg k); simpl in H; [|done].
  rewrite Hk in H. by simplify_eq.
Qed.

(** What a successful [add_coins] did. *)
Lemma add_coins_inv d k amount d' :
  add_coins d k amount = Ok d' →
  int4 amount = true ∧ int8 k = true
  ∧ ((users d !! k = None ∧ d' = d)
     ∨ (∃ u, users d !! k = Some u ∧ int4 (u_coins u + amount) = true
           ∧ d' = with_users d (<[k := set_coins (u_coins u + amount) u]> (users d)))).
Proof.
  unfold add_coins, integer_arg, bigint_arg. intros H.
  destruct (int4 amount) eqn:H4; simpl in H; [|done].
  destruct (int8 k) eqn:H8; simpl in H; [|done].
  do 2 (split; [done|]).
  destruct (users d !! k) as [u|] eqn:Hk.
  - destruct (int4 (u_coins u + amount)) eqn:Hs; [|done].
    right. exists u. by simplify_eq.
  - left. by simplify_eq.
Qed.

Lemma add_coins_wf d k amount d' :
  wf d → add_coins d k amount = Ok d' → wf d'.
Proof.
  intros Hwf H. apply add_coins_inv in H as (H4 & H8 & [[_ ->]|(u & Hk & Hs & ->)]); [done|].
  destruct Hwf as [Hkey Hcoins Hcode Huniq Hprof Hage Hlikes].
  split; simpl.
  - intros k' u'. rewrite lookup_insert. case_decide; intros; simplify_eq; eauto.
  - intros k' u'. rewrite lookup_insert. case_decide; intros; simplify_eq; eauto.
  - intros k' u'. rewrite lookup_insert. case_decide; intros; simplify_eq/=; eauto.
  - intros k1 k2 u1 u2. rewrite !lookup_insert.
    repeat case_decide; intros; simplify_eq/=; eauto.
  - intros k'. rewrite Hprof, lookup_insert. case_decide; subst; [|done].
    rewrite Hk. split; eauto.
  - done.
  - intros a b Hab. apply Hlikes in Hab as [Ha Hb].
    rewrite !lookup_insert. split; case_decide; eauto.
Qed.

Lemma add_coins_likes d k amount d' :
  add_coins d k amount = Ok d' → likes d' = likes d ∧ profiles d' = profiles d.
Proof.
  intros H. by apply add_coins_inv in H as (_ & _ & [[_ ->]|(u & _ & _ & ->)]).
Qed.

(** ** set_premium_status, set_ban_status *)

Lemma alter_flag_wf d k (f : user_row → user_row) :
  (∀ u, u_coins (f u) = u_coins u) →
  (∀ u, u_referral_code (f u) = u_referral_code u) →
  wf d → wf (with_users d (alter f k (users d))).
Proof.
  intros Hc Hr [Hkey Hcoins Hcode Huniq Hprof Hage Hlikes].
  assert (∀ k' u', alter f k (users d) !! k' = Some u' →
            ∃ u, users d !! k' = Some u ∧ u_coins u' = u_coins u
                 ∧ u_referral_code u' = u_referral_code u) as Hinv.
  { intros k' u'. rewrite lookup_alter. case_decide; subst.
    - destruct (users d !! k') as [u|]; intros; simplify_eq/=. eauto.
    - eauto. }
  split; simpl.
  - intros k' u' (u & ? & _)%Hinv. eauto.
  - intros k' u' (u & ? & -> & _)%Hinv. eauto.
  - intros k' u' (u & ? & _ & ->)%Hinv. eauto.
  - intros k1 k2 u1 u2 (v1 & ? & _ & ->)%Hinv (v2 & ? & _ & ->)%Hinv. eauto.
  - intros k'. rewrite Hprof, lookup_alter. case_decide; subst; [|done].
    by rewrite fmap_is_Some.
  - done.
  - intros a b Hab. apply Hlikes in Hab as [Ha Hb].
    rewrite !lookup_alter. split; case_decide; subst; rewrite ?fmap_is_Some; done.
Qed.

Lemma set_premium_status_wf d k b d' :
  wf d → set_premium_status d k b = Ok d' → wf d'.
Proof.
  unfold set_premium_status. intros Hwf H.
  destruct (bigint_arg k); simplify_eq/=. by apply alter_flag_wf.
Qed.

Lemma set_ban_status_wf d k b d' :
  wf d → set_ban_status d k b = Ok d' → wf d'.
Proof.
  unfold set_ban_status. intros Hwf H.
  destruct (bigint_arg k); simplify_eq/=. by apply alter_flag_wf.
Qed.

End db_facts.

(** * User creation and the referral credit *)

Module create_user_facts.
Import db db_facts.

Lemma user_exists_Ok d k :
  int8 k = true → user_exists d k = Ok (bool_decide (is_Some (users d !! k))).
Proof. intros H. unfold user_exists. by rewrite (bigint_arg_Ok _ H). Qed.

Lemma not_is_Some_None {A} (o : option A) : o = None → bool_decide (is_Some o) = false.
Proof. intros ->. apply bool_decide_eq_false. by intros [? ?]. Qed.

(** The run of [create_user] for a user that can be inserted. *)
Lemma create_user_run_fresh d A name rc uuid4 :
  wf d → users d !! A = None → int8 A = true →
  select_referrer (users d) (uuid_prefix uuid4) = None →
  create_user_run d A name rc uuid4
  = let u := new_user name (uuid_prefix uuid4) rc in
    if truthy_str rc then
      let referrer_id := select_referrer (<[A := u]> (users d)) (default "" rc) in
      if truthy_int referrer_id then
        match add_coins d (default 0 referrer_id) 50 with
        | Raise e => Run [] (Some e)
        | Ok d1 => Run [d1; pending d1 A u] None
        end
      else Run [pending d A u] None
    else Run [pending d A u] None.
Proof.
  intros Hwf HA H8 Hfree. unfold create_user_run.
  rewrite (user_exists_Ok _ _ H8), (not_is_Some_None _ HA).
  unfold insert_checks. rewrite (bigint_arg_Ok _ H8). simpl.
  rewrite (not_is_Some_None _ HA), (not_is_Some_None _ Hfree).
  assert (profiles d !! A = None) as HP.
  { apply eq_None_not_Some. rewrite (wf_profile _ Hwf), HA. by intros [? ?]. }
  by rewrite (not_is_Some_None _ HP).
Qed.

(** The referrer the transaction finds: the holder of the code. *)
Lemma select_referrer_pending d A u code B ub :
  wf d → users d !! A = None →
  users d !! B = Some ub → u_referral_code ub = Some code →
  u_referral_code u ≠ Some code →
  select_referrer (<[A := u]> (users d)) code = Some B.
Proof.
  intros Hwf HA HB Hc Hu.
  assert (A ≠ B) as Hne by (intros ->; congruence).
  destruct (select_referrer _ code) as [k|] eqn:Hs.
  - apply select_referrer_Some in Hs as (u' & Hk & Hc').
    rewrite lookup_insert in Hk. case_decide; simplify_eq; try done.
    f_equal. eapply (wf_unique _ Hwf); eauto. congruence.
  - exfalso. eapply select_referrer_None; [exact Hs| |exact Hc].
    by rewrite lookup_insert_ne.
Qed.

(** With a code nobody holds, the transaction can only find its own row. *)
Lemma select_referrer_pending_own (us : gmap Z user_row) A u code k :
  (∀ k' u', us !! k' = Some u' → u_referral_code u' ≠ Some code) →
  select_referrer (<[A := u]> us) code = Some k → k = A.
Proof.
  intros Hno Hs. apply select_referrer_Some in Hs as (u' & Hk & Hc).
  rewrite lookup_insert in Hk. case_decide; simplify_eq; try done.
  by apply Hno in Hk.
Qed.

Lemma pending_wf d A name c rc :
  wf d → users d !! A = None → int8 A = true → String.length c = 8%nat →
  select_referrer (users d) c = None →
  wf (pending d A (new_user name c rc)).
Proof.
  intros [Hkey Hcoins Hcode Huniq Hprof Hage Hlikes] HA H8 Hlen Hfree.
  split; simpl.
  - intros k u. rewrite lookup_insert. case_decide; intros; simplify_eq; eauto.
  - intros k u. rewrite lookup_insert. case_decide; intros; simplify_eq/=; eauto.
  - intros k u. rewrite lookup_insert. case_decide; intros; simplify_eq/=; eauto.
  - intros k1 k2 u1 u2. rewrite !lookup_insert.
    repeat case_decide; intros H1 H2 Heq; simplify_eq/=; eauto.
    + exfalso. eapply select_referrer_None; eauto.
    + exfalso. eapply select_referrer_None; eauto.
  - intros k. rewrite !lookup_insert. case_decide; [|done].
    split; eauto.
  - intros k p a. rewrite lookup_insert. case_decide; intros; simplify_eq/=; eauto.
  - intros a b Hab. apply Hlikes in Hab as [Ha Hb].
    rewrite !lookup_insert. split; case_decide; eauto.
Qed.

Lemma select_referrer_coins (d : DB) k u c code :
  users d !! k = Some u →
  select_referrer (users d) code = None →
  select_referrer (<[k := set_coins c u]> (users d)) code = None.
Proof.
  intros Hk Hno.
  destruct (select_referrer (<[k := _]> _) code) as [k'|] eqn:Hs; [|done].
  apply select_referrer_Some in Hs as (u' & Hk' & Hc).
  rewrite lookup_insert in Hk'. case_decide; simplify_eq/=.
  - exfalso. eapply select_referrer_None; eauto.
  - exfalso. eapply select_referrer_None; eauto.
Qed.

(** [create_user] keeps the store well formed. *)
Lemma create_user_wf d A name rc uuid4 d' :
  wf d → create_user d A name rc uuid4 = Ok d' → wf d'.
Proof.
  intros Hwf. unfold create_user, create_user_run, user_exists, insert_checks.
  cbv zeta.
  destruct (bigint_arg A) eqn:H8; simpl; [|done].
  assert (int8 A = true) as H8'.
  { unfold bigint_arg in H8. by destruct (int8 A). }
  destruct (decide (is_Some (users d !! A))) as [HA|HA].
  { rewrite (bool_decide_eq_true_2 _ HA). simpl. by intros [= <-]. }
  rewrite (bool_decide_eq_false_2 _ HA). simpl.
  apply eq_None_not_Some in HA.
  destruct (decide (is_Some (select_referrer (users d) (uuid_prefix uuid4)))) as [HF|HF].
  { by rewrite (bool_decide_eq_true_2 _ HF). }
  rewrite (bool_decide_eq_false_2 _ HF).
  apply eq_None_not_Some in HF.
  destruct (bool_decide (is_Some (profiles d !! A))); [done|].
  pose proof (uuid_prefix_length uuid4) as Hlen.
  destruct (truthy_str rc); [|intros [= <-]; by apply pending_wf].
  destruct (truthy_int _); [|intros [= <-]; by apply pending_wf].
  match goal with
  | |- context [add_coins ?a ?b ?c] => destruct (add_coins a b c) as [d1|e] eqn:Hadd
  end; simpl; [|done].
  intros [= <-].
  pose proof (add_coins_wf _ _ _ _ Hwf Hadd) as Hwf1.
  apply add_coins_inv in Hadd as (_ & _ & [[_ ->]|(u & Hk & _ & ->)]).
  - by apply pending_wf.
  - apply pending_wf; simpl; try done.
    + rewrite lookup_insert_ne; [done|]. intros E. rewrite E in Hk. congruence.
    + by apply select_referrer_coins.
Qed.

(** The referral credit: the store after the creation of [A] with the code
    of [B], for a referrer whose id is not 0 and whose balance can take
    the credit. *)
Lemma create_user_credits_referrer d A name code uuid4 B ub :
  wf d → users d !! A = None → int8 A = true →
  select_referrer (users d) (uuid_prefix uuid4) = None →
  users d !! B = Some ub → u_referral_code ub = Some code →
  B ≠ 0 → int4 (u_coins ub + 50) = true →
  create_user d A name (Some code) uuid4
  = Ok (pending (with_users d (<[B := set_coins (u_coins ub + 50) ub]> (users d)))
                A (new_user name (uuid_prefix uuid4) (Some code))).
Proof.
  intros Hwf HA H8 Hfree HB Hc H0 Hsum. unfold create_user.
  rewrite create_user_run_fresh by done. cbv zeta.
  destruct (wf_code _ Hwf _ _ HB) as (c & Hc' & Hlen).
  assert (c = code) as -> by congruence.
  rewrite (code_truthy _ Hlen). simpl default.
  rewrite (select_referrer_pending d A _ code B ub) by
    (try done; simpl; intros [= E]; eapply select_referrer_None; eauto; congruence).
  simpl. assert ((B =? 0) = false) as -> by (by apply Z.eqb_neq). simpl.
  rewrite (add_coins_Ok _ _ _ ub) by (try done; by eapply wf_key).
  done.
Qed.

(** A code that nobody holds: the user is created, nothing else changes. *)
Lemma create_user_no_referrer d A name rc uuid4 :
  wf d → users d !! A = None → int8 A = true →
  select_referrer (users d) (uuid_prefix uuid4) = None →
  (∀ c k u, rc = Some c → users d !! k = Some u → u_referral_code u ≠ Some c) →
  create_user d A name rc uuid4
  = Ok (pending d A (new_user name (uuid_prefix uuid4) rc)).
Proof.
  intros Hwf HA H8 Hfree Hno. unfold create_user.
  rewrite create_user_run_fresh by done. cbv zeta.
  destruct (truthy_str rc) eqn:Ht; [|done].
  destruct rc as [c|]; [|done]. simpl default.
  destruct (select_referrer _ c) as [k|] eqn:Hs; [|done].
  apply select_referrer_pending_own in Hs; [|by eauto]. subst k.
  simpl. destruct (A =? 0); simpl; [done|].
  unfold add_coins. rewrite (bigint_arg_Ok _ H8). simpl. by rewrite HA.
Qed.

End create_user_facts.

(** * Referral credit, atomicity and the initial balance *)

Module referral.
Import db db_facts create_user_facts scenario.

Lemma one_user_created B :
  int8 B = true → create_user init_db B "Y" None referrer_uuid = Ok (one_user B).
Proof.
  intros H8. apply create_user_no_referrer; try done.
  apply wf_init_db.
Qed.

Lemma one_user_wf B : int8 B = true → wf (one_user B).
Proof.
  intros H8. eapply create_user_wf; [apply wf_init_db|by apply one_user_created].
Qed.

(** C2 (the code at the failing input): after user 0 was created, with
    the referral code 7ab3c9d2, the creation of user 7 with that referring
    code succeeds and leaves the balance of user 0 at 100: [if
    referrer_id:] is false for the id 0, and [add_coins] is not called. *)
Theorem create_user_referrer_zero_not_credited :
  create_user init_db 0 "Y" None referrer_uuid = Ok (one_user 0)
  ∧ u_referral_code <$> users (one_user 0) !! 0 = Some (Some "7ab3c9d2")
  ∧ ∃ d', create_user (one_user 0) 7 "X" (Some "7ab3c9d2") 1 = Ok d'
        ∧ is_Some (users d' !! 7)
        ∧ balance (one_user 0) 0 = Some 100
        ∧ balance d' 0 = Some 100.
Proof.
  split; [by apply one_user_created|]. split; [reflexivity|].
  eexists. split; [vm_compute; reflexivity|].
  split; [by eexists|]. split; reflexivity.
Qed.

(** The same creation with a referrer whose id is not 0 credits it. *)
Example create_user_referrer_five_credited :
  ∃ d', create_user (one_user 5) 7 "X" (Some "7ab3c9d2") 1 = Ok d'
        ∧ balance (one_user 5) 5 = Some 100 ∧ balance d' 5 = Some 150.
Proof. eexists. split; [vm_compute; reflexivity|]. split; reflexivity. Qed.

(** What holds of the referral for every referrer but the one with id 0:
    the balance of the referrer grows by 50, the new user has the default
    balance, nobody else changes; and a second creation of the same user
    changes nothing. *)
Lemma create_user_referral d A name code uuid4 B ub :
  wf d → users d !! A = None → int8 A = true →
  select_referrer (users d) (uuid_prefix uuid4) = None →
  users d !! B = Some ub → u_referral_code ub = Some code →
  B ≠ 0 → int4 (u_coins ub + 50) = true →
  ∃ d', create_user d A name (Some code) uuid4 = Ok d'
    ∧ balance d' B = Some (u_coins ub + 50)
    ∧ balance d' A = Some 100
    ∧ (∀ k, k ≠ A → k ≠ B → users d' !! k = users d !! k)
    ∧ create_user d' A name (Some code) uuid4 = Ok d'.
Proof.
  intros Hwf HA H8 Hfree HB Hc H0 Hsum.
  assert (A ≠ B) as Hne by (intros ->; congruence).
  eexists. split; [by eapply create_user_credits_referrer|].
  unfold balance, pending; simpl. repeat split.
  - rewrite lookup_insert_ne, lookup_insert_eq; done.
  - by rewrite lookup_insert_eq.
  - intros k ? ?. by rewrite !lookup_insert_ne.
  - unfold create_user, create_user_run. rewrite (user_exists_Ok _ _ H8). simpl.
    rewrite lookup_insert_eq.
    by rewrite bool_decide_eq_true_2 by eauto.
Qed.

Lemma create_user_referral_witness :
  ∃ d', create_user (one_user 5) 7 "X" (Some "7ab3c9d2") 1 = Ok d'
    ∧ balance d' 5 = Some (100 + 50)
    ∧ balance d' 7 = Some 100
    ∧ (∀ k, k ≠ 7 → k ≠ 5 → users d' !! k = users (one_user 5) !! k)
    ∧ create_user d' 7 "X" (Some "7ab3c9d2") 1 = Ok d'.
Proof.
  exact (create_user_referral (one_user 5) 7 "X" "7ab3c9d2" 1 5
           (new_user "Y" (uuid_prefix referrer_uuid) None)
           (one_user_wf 5 eq_refl) eq_refl eq_refl ltac:(vm_compute; reflexivity)
           eq_refl eq_refl ltac:(lia) eq_refl).
Defined.

(** ** C3 *)

Lemma rich_referrer_reached :
  add_coins (one_user 5) 5 2147483547 = Ok rich_referrer.
Proof. vm_compute. reflexivity. Qed.




(** ** C10 *)

(** C10: a newly created user has the balance 100, the default of the
    column, whatever the referring code; a credit of 50 to that user is
    accepted and gives 150, the balance before plus 50. *)
Theorem create_user_initial_balance d A name rc uuid4 d' :
  users d !! A = None →
  create_user d A name rc uuid4 = Ok d' →
  balance d' A = Some 100
  ∧ ∃ d'', add_coins d' A 50 = Ok d'' ∧ balance d'' A = Some (100 + 50).
Proof.
  intros HA H.
  assert (int8 A = true ∧ ∃ d0, d' = pending d0 A (new_user name (uuid_prefix uuid4) rc))
    as (H8 & d0 & ->).
  { revert H. unfold create_user, create_user_run, user_exists, bigint_arg. cbv zeta.
    destruct (int8 A); simpl; [|done]. split; [done|].
    rewrite (not_is_Some_None _ HA) in H.
    destruct (insert_checks _ _ _); simpl in H; [|done].
    destruct (truthy_str rc); [|simplify_eq/=; eauto].
    destruct (truthy_int _); [|simplify_eq/=; eauto].
    revert H.
    match goal with
    | |- context [add_coins ?a ?b ?c] => destruct (add_coins a b c) as [d1|e]
    end; simpl; intros; simplify_eq/=; eauto. }
  assert (balance (pending d0 A (new_user name (uuid_prefix uuid4) rc)) A = Some 100) as Hb.
  { unfold balance, pending. simpl. by rewrite lookup_insert_eq. }
  split; [done|]. eexists. split.
  - eapply add_coins_Ok; [simpl; apply lookup_insert_eq|done..].
  - unfold balance. simpl. by rewrite lookup_insert_eq.
Qed.

Lemma create_user_initial_balance_witness :
  users init_db !! 5 = None
  ∧ create_user init_db 5 "Y" None referrer_uuid = Ok (one_user 5)
  ∧ balance (one_user 5) 5 = Some 100
  ∧ ∃ d'', add_coins (one_user 5) 5 50 = Ok d'' ∧ balance d'' 5 = Some (100 + 50).
Proof.
  assert (users init_db !! 5 = None) as H1 by reflexivity.
  assert (create_user init_db 5 "Y" None referrer_uuid = Ok (one_user 5)) as H2
    by (vm_compute; reflexivity).
  split; [exact H1|]. split; [exact H2|].
  exact (create_user_initial_balance init_db 5 "Y" None referrer_uuid (one_user 5) H1 H2).
Defined.

End referral.

(** * Profile updates *)

Module update_profile_facts.
Import db db_facts.

(** ** The text of the statement *)

Lemma chars_app s1 s2 : py.chars (s1 +:+ s2) = py.chars s1 ++ py.chars s2.
Proof. unfold py.chars. induction s1 as [|c s1 IH]; simpl; [done|]. by rewrite IH. Qed.

Lemma chars_text l : py.chars (py.text l) = l.
Proof. apply list_ascii_of_string_of_list_ascii. Qed.

Lemma split_on_none sep cur l :
  forallb (λ c, negb (Ascii.eqb c sep)) l = true →
  py.split_on sep cur l = [py.text (rev cur ++ l)].
Proof.
  revert cur. induction l as [|c l IH]; intros cur H; simpl in *.
  - by rewrite app_nil_r.
  - apply andb_true_iff in H as [Hc Hl]. apply negb_true_iff in Hc.
    rewrite Hc, IH by done. simpl. by rewrite <- app_assoc.
Qed.

Lemma break_eq_first cur l r :
  forallb (λ c, negb (Ascii.eqb c "=")) l = true →
  break_eq cur (l ++ "="%char :: r) = Some (rev cur ++ l, r).
Proof.
  revert cur. induction l as [|c l IH]; intros cur H; simpl in *.
  - by rewrite app_nil_r.
  - apply andb_true_iff in H as [Hc Hl]. apply negb_true_iff in Hc.
    rewrite Hc, IH by done. simpl. by rewrite <- app_assoc.
Qed.

Lemma sql_ltrim_head c l : sql_space c = false → sql_ltrim (c :: l) = c :: l.
Proof. intros H. simpl. by rewrite H. Qed.

(** The characters of an identifier are no separators and no blanks. *)
Lemma ident_char_plain c :
  is_ident_char c = true →
  Ascii.eqb c "," = false ∧ Ascii.eqb c "=" = false ∧ sql_space c = false.
Proof.
  intros H. repeat split.
  - destruct (Ascii.eqb_spec c ","); [subst; by vm_compute in H|done].
  - destruct (Ascii.eqb_spec c "="); [subst; by vm_compute in H|done].
  - destruct c as [[] [] [] [] [] [] [] []]; by vm_compute in H |- *.
Qed.

Lemma identifier_inv l name :
  identifier l = Some name →
  ∃ c l', l = c :: l' ∧ forallb is_ident_char l = true
          ∧ name = py.text (map fold_case l).
Proof.
  unfold identifier. destruct l as [|c l']; [done|].
  destruct (is_letter c && forallb is_ident_char (c :: l')) eqn:H; [|done].
  intros [= <-]. apply andb_true_iff in H as [_ H]. eauto.
Qed.

Lemma forallb_plain (P : ascii → bool) l :
  (∀ c, is_ident_char c = true → P c = true) →
  forallb is_ident_char l = true → forallb P l = true.
Proof.
  intros HP. rewrite !forallb_forall. intros H c Hc. by apply HP, H.
Qed.

Lemma sql_ltrim_plain l :
  l ≠ [] → forallb is_ident_char l = true → ∀ l2, sql_ltrim (l ++ l2) = l ++ l2.
Proof.
  intros Hne Hall l2. destruct l as [|c l']; [done|].
  simpl in Hall. apply andb_true_iff in Hall as [Hc _].
  apply ident_char_plain in Hc as (_ & _ & Hc). simpl. by rewrite Hc.
Qed.

Lemma sql_trim_ident l :
  l ≠ [] → forallb is_ident_char l = true → sql_trim (l ++ [" "%char]) = l.
Proof.
  intros Hne Hall. unfold sql_trim.
  rewrite (sql_ltrim_plain l Hne Hall), rev_unit.
  change (sql_ltrim (" "%char :: rev l)) with (sql_ltrim (rev l)).
  rewrite <- (app_nil_r (rev l)), sql_ltrim_plain, app_nil_r.
  - apply rev_involutive.
  - intros Hnil. apply (f_equal (@length _)) in Hnil.
    rewrite length_rev in Hnil. by destruct l.
  - rewrite forallb_forall in Hall |- *. intros c Hc. by apply Hall, in_rev.
Qed.

(** The statement built from a field that is one identifier has one
    assignment: the folded identifier takes [$1]. *)
Lemma set_clause_identifier field name :
  identifier (py.chars field) = Some name →
  set_clause (field +:+ " = $1") = Some [(name, Placeholder)].
Proof.
  intros Hid. pose proof Hid as (c & l' & Hl & Hall & _)%identifier_inv.
  unfold set_clause, py.split_sep. rewrite chars_app.
  rewrite split_on_none.
  2:{ rewrite forallb_app. apply andb_true_iff. split; [|reflexivity].
      apply (forallb_plain _ _ (λ c Hc, f_equal negb (proj1 (ident_char_plain c Hc)))), Hall. }
  simpl rev. simpl app at 1. cbn [mapM]. unfold assignment.
  rewrite chars_text.
  replace (py.chars field ++ [" "; "="; " "; "$"; "1"]%char)
    with ((py.chars field ++ [" "%char]) ++ "="%char :: [" "; "$"; "1"]%char)
    by (by rewrite <- app_assoc).
  rewrite break_eq_first.
  2:{ rewrite forallb_app. apply andb_true_iff. split; [|reflexivity].
      apply (forallb_plain _ _
               (λ c Hc, f_equal negb (proj1 (proj2 (ident_char_plain c Hc))))), Hall. }
  simpl rev. simpl app at 1. cbn [mbind option_bind].
  rewrite sql_trim_ident by (try done; by rewrite Hl).
  rewrite Hid. reflexivity.
Qed.

(** The names of the columns are no key words. *)
Lemma column_of_name_inv name c :
  column_of_name name = Some c →
  name ∈ ["user_id"; "gender"; "age"; "bio"; "photo_id"; "location"].
Proof.
  unfold column_of_name. intros H.
  repeat match type of H with
    | context [String.eqb name ?s] =>
        destruct (String.eqb_spec name s) as [->|_];
          [apply (bool_decide_unpack _); by vm_compute|]
    end.
  done.
Qed.

Lemma column_not_key_word name c :
  column_of_name name = Some c → key_word name = false.
Proof.
  intros H%column_of_name_inv.
  repeat (apply elem_of_cons in H as [->|H]); [..|by apply not_elem_of_nil in H].
  all: by vm_compute.
Qed.

(** [update_profile] for a field that is one name. *)
Lemma update_profile_identifier d user_id field name value :
  identifier (py.chars field) = Some name →
  update_profile d user_id field value
  = if key_word name then Raise PostgresSyntaxError
    else
      match column_of_name name with
      | None =>
          if system_column name then Raise FeatureNotSupportedError
          else Raise UndefinedColumnError
      | Some c =>
          _ ← encode_arg (column_type c) value;
          _ ← bigint_arg user_id;
          match profiles d !! user_id with
          | None => Ok d
          | Some r => update_row d user_id r (assign value (c, Placeholder) (Some user_id, r))
          end
      end.
Proof.
  intros Hid. unfold update_profile, execute_update_profiles.
  rewrite (set_clause_identifier _ _ Hid). cbn [existsb fst orb].
  rewrite orb_false_r. destruct (key_word name); [done|]. simpl.
  unfold resolve. simpl. destruct (column_of_name name) as [c|]; [|by destruct (system_column name)].
  simpl. reflexivity.
Qed.

Lemma update_profile_of_column d user_id field name c value :
  identifier (py.chars field) = Some name → column_of_name name = Some c →
  update_profile d user_id field value
  = (_ ← encode_arg (column_type c) value;
     _ ← bigint_arg user_id;
     match profiles d !! user_id with
     | None => Ok d
     | Some r => update_row d user_id r (assign value (c, Placeholder) (Some user_id, r))
     end).
Proof.
  intros Hid Hcol.
  by rewrite (update_profile_identifier _ _ _ _ _ Hid), (column_not_key_word _ _ Hcol), Hcol.
Qed.

Lemma update_row_field d user_id c value r :
  c ≠ c_user_id →
  update_row d user_id r (assign value (c, Placeholder) (Some user_id, r))
  = Ok (with_profiles d (<[user_id := set_field c value r]> (profiles d))).
Proof.
  intros Hc. unfold update_row, set_field.
  destruct c; try done; simpl; by rewrite bool_decide_eq_true_2.
Qed.

Lemma update_profile_column d user_id field c value r :
  identifier (py.chars field) = Some field →
  column_of_name field = Some c → c ≠ c_user_id →
  profiles d !! user_id = Some r → int8 user_id = true →
  update_profile d user_id field value
  = (_ ← encode_arg (column_type c) value;
     Ok (with_profiles d (<[user_id := set_field c value r]> (profiles d)))).
Proof.
  intros Hid Hcol Hc Hr H8.
  rewrite (update_profile_of_column _ _ _ _ _ _ Hid Hcol).
  destruct (encode_arg (column_type c) value); [|done].
  cbn [mbind result_bind].
  rewrite (bigint_arg_Ok _ H8). cbn [mbind result_bind].
  by rewrite Hr, update_row_field.
Qed.

Lemma profile_field_column field :
  field ∈ profile_fields →
  identifier (py.chars field) = Some field
  ∧ ∃ c, column_of_name field = Some c ∧ c ≠ c_user_id.
Proof.
  unfold profile_fields. intros Hf.
  repeat (apply elem_of_cons in Hf as [->|Hf]); [..|by apply not_elem_of_nil in Hf].
  all: split; [reflexivity|eexists; split; [reflexivity|done]].
Qed.

Lemma update_profile_field d user_id field value r :
  field ∈ profile_fields →
  profiles d !! user_id = Some r → int8 user_id = true →
  ∃ c, column_of_name field = Some c ∧ c ≠ c_user_id ∧
    update_profile d user_id field value
    = (_ ← encode_arg (column_type c) value;
       Ok (with_profiles d (<[user_id := set_field c value r]> (profiles d)))).
Proof.
  intros (Hid & c & Hcol & Hc)%profile_field_column Hr H8.
  exists c. eauto using update_profile_column.
Qed.

End update_profile_facts.

(** * The field of an update, and the candidate search *)

Module store_claims.
Import db db_facts update_profile_facts scenario.

(** ** C4 *)

(** C4 (counterexample): the field text "age = 7, bio" is none of gender,
    age, bio, photo_id, location, and [update_profile] does not reject
    it: the statement UPDATE profiles SET age = 7, bio = $1 WHERE
    user_id = $2 is executed, and sets the age of user 5 to 7 and the bio
    to the value. *)
Lemma update_profile_field_not_checked :
  ("age = 7, bio" ∉ profile_fields)
  ∧ create_user init_db 5 "Y" None 0 = Ok lone_user
  ∧ ∃ d', update_profile lone_user 5 "age = 7, bio" (PyStr "hi") = Ok d'
        ∧ profiles d' !! 5 = Some (ProfileRow None (Some 7) (Some "hi") None None).
Proof.
  split; [apply (bool_decide_unpack _); by vm_compute|].
  split; [vm_compute; reflexivity|].
  eexists. split; vm_compute; reflexivity.
Qed.

(** C4 (amended): [update_profile] checks nothing itself; what happens to
    a field that is one plain name is decided by the store, on the name
    folded to lower case.  A name that is no column of profiles makes the
    statement fail, and nothing is updated: with a syntax error when the
    name is a reserved key word, with the error for an assignment to a
    system column when it is one, and with an undefined-column error
    otherwise.  A name that folds to a column other than user_id, which
    the five names gender, age, bio, photo_id and location do, updates
    that column of the user's row when the value fits the column's type.
    The name user_id is not rejected either: assigning the user's own id
    leaves the row as it is. *)
Theorem update_profile_plain_name d user_id field value name :
  identifier (py.chars field) = Some name →
  (column_of_name name = None →
   update_profile d user_id field value
   = Raise (if key_word name then PostgresSyntaxError
            else if system_column name then FeatureNotSupportedError
            else UndefinedColumnError))
  ∧ (∀ c r, column_of_name name = Some c → c ≠ c_user_id →
       profiles d !! user_id = Some r → int8 user_id = true →
       encode_arg (column_type c) value = Ok () →
       update_profile d user_id field value
       = Ok (with_profiles d (<[user_id := set_field c value r]> (profiles d))))
  ∧ (field ∈ profile_fields → ∃ c, column_of_name name = Some c ∧ c ≠ c_user_id)
  ∧ (∀ r, name = "user_id" → value = PyInt user_id →
       profiles d !! user_id = Some r → int8 user_id = true →
       update_profile d user_id field value
       = Ok (with_profiles d (<[user_id := r]> (profiles d)))).
Proof.
  intros Hid. split; [|split; [|split]].
  - intros Hcol. rewrite (update_profile_identifier _ _ _ _ _ Hid), Hcol.
    destruct (key_word name); [done|]. by destruct (system_column name).
  - intros c r Hcol Hc Hr H8 Henc.
    rewrite (update_profile_of_column _ _ _ _ _ _ Hid Hcol), Henc.
    cbn [mbind result_bind]. rewrite (bigint_arg_Ok _ H8). cbn [mbind result_bind].
    by rewrite Hr, update_row_field.
  - intros (Hid' & c & Hcol & Hc)%profile_field_column.
    assert (name = field) as -> by congruence. eauto.
  - intros r -> -> Hr H8.
    rewrite (update_profile_of_column _ _ _ _ c_user_id _ Hid eq_refl).
    cbn [column_type encode_arg]. rewrite (bigint_arg_Ok _ H8). cbn [mbind result_bind].
    rewrite Hr. unfold update_row. cbn [assign fst snd int_of].
    by rewrite bool_decide_eq_true_2.
Qed.

Lemma update_profile_plain_name_witness :
  update_profile lone_user 5 "favourite_colour" (PyStr "red") = Raise UndefinedColumnError
  ∧ update_profile lone_user 5 "Select" (PyStr "red") = Raise PostgresSyntaxError
  ∧ update_profile lone_user 5 "ctid" (PyStr "red") = Raise FeatureNotSupportedError
  ∧ update_profile lone_user 5 "Bio" (PyStr "hi")
    = Ok (with_profiles lone_user
            (<[5 := set_field c_bio (PyStr "hi") new_profile]> (profiles lone_user))).
Proof.
  split; [|split; [|split]].
  - exact (proj1 (update_profile_plain_name lone_user 5 "favourite_colour" (PyStr "red")
                    "favourite_colour" eq_refl) eq_refl).
  - exact (proj1 (update_profile_plain_name lone_user 5 "Select" (PyStr "red")
                    "select" eq_refl) eq_refl).
  - exact (proj1 (update_profile_plain_name lone_user 5 "ctid" (PyStr "red")
                    "ctid" eq_refl) eq_refl).
  - exact (proj1 (proj2 (update_profile_plain_name lone_user 5 "Bio" (PyStr "hi")
                           "bio" eq_refl))
             c_bio new_profile eq_refl ltac:(discriminate) eq_refl eq_refl eq_refl).
Defined.

(** ** C5 *)

Lemma draw_rows random rows : (draw random rows).*2 = rows.
Proof.
  revert random. induction rows as [|r rows IH]; intros random; simpl; [done|].
  by rewrite IH.
Qed.

Lemma order_by_random_Permutation random rows : order_by_random random rows ≡ₚ rows.
Proof.
  unfold order_by_random.
  rewrite (merge_sort_Permutation by_key (draw random rows)).
  by rewrite draw_rows.
Qed.

Lemma candidate_rows_NoDup d s g lo hi :
  NoDup (filter (candidate d s g lo hi) (map_to_list (profiles d))).*1.
Proof.
  eapply sublist_NoDup; [apply (NoDup_fst_map_to_list (profiles d))|].
  apply fmap_sublist, sublist_filter.
Qed.

(** C5: whatever the draws of ORDER BY RANDOM(), the search returns at
    most 20 ids, no id twice, and every id it returns is not the
    searcher's, has a profile whose gender is the requested one and whose
    age lies in [min_age, max_age], and belongs to a user who is not
    banned.  The search raises only when an argument does not fit the
    type of its placeholder. *)
Theorem search_users_sound d searcher_id gender min_age max_age random :
  match search_users d searcher_id gender min_age max_age random with
  | Ok l =>
      (length l ≤ 20)%nat ∧ NoDup l
      ∧ ∀ id, id ∈ l →
          id ≠ searcher_id
          ∧ ∃ p u a, profiles d !! id = Some p ∧ users d !! id = Some u
              ∧ is_Some gender ∧ p_gender p = gender
              ∧ p_age p = Some a ∧ min_age ≤ a ≤ max_age
              ∧ u_is_banned u = false
  | Raise e =>
      e = DataError
      ∧ (int4 min_age = false ∨ int4 max_age = false ∨ int8 searcher_id = false)
  end.
Proof.
  unfold search_users, integer_arg, bigint_arg.
  destruct (int4 min_age) eqn:Hlo; simpl; [|by auto].
  destruct (int4 max_age) eqn:Hhi; simpl; [|by auto].
  destruct (int8 searcher_id) eqn:Hs; simpl; [|by auto].
  set (rows := filter _ _).
  pose proof (order_by_random_Permutation random rows.*1) as Hperm.
  split; [rewrite length_take; lia|]. split.
  - eapply sublist_NoDup; [|apply sublist_take].
    rewrite Hperm. apply candidate_rows_NoDup.
  - intros id Hid. apply subseteq_take in Hid. rewrite Hperm in Hid.
    apply list_elem_of_fmap in Hid as ([k p] & -> & Hin).
    apply list_elem_of_filter in Hin as [Hc Hin].
    apply elem_of_map_to_list in Hin.
    destruct Hc as ((Hg & Hpg) & (a & Ha & Hr) & Hne & (u & Hu & Hb)).
    simpl in *. split; [done|]. exists p, u, a. done.
Qed.

(** The search leaves nobody out when at most 20 rows qualify. *)
Lemma search_users_complete d searcher_id gender min_age max_age random l k p :
  search_users d searcher_id gender min_age max_age random = Ok l →
  profiles d !! k = Some p →
  candidate d searcher_id gender min_age max_age (k, p) →
  (length l < 20)%nat → k ∈ l.
Proof.
  unfold search_users, integer_arg, bigint_arg.
  destruct (int4 min_age); simpl; [|done].
  destruct (int4 max_age); simpl; [|done].
  destruct (int8 searcher_id); simpl; [|done].
  intros [= <-] Hp Hc Hlen.
  rewrite length_take in Hlen.
  rewrite take_ge by lia.
  rewrite order_by_random_Permutation.
  apply list_elem_of_fmap. exists (k, p). split; [done|].
  apply list_elem_of_filter. split; [done|]. by apply elem_of_map_to_list.
Qed.

Lemma search_users_complete_witness :
  search_users (main.store (main.final without_photos)) 5 (Some "Female") 18 99 [] = Ok [3; 2]
  ∧ 2 ∈ [3; 2].
Proof.
  assert (search_users (main.store (main.final without_photos)) 5 (Some "Female") 18 99 []
          = Ok [3; 2]) as Hs by (vm_compute; reflexivity).
  split; [exact Hs|].
  refine (search_users_complete _ _ _ _ _ _ _ 2
            (ProfileRow (Some "Female") (Some 25) (Some "hi") None None) Hs _ _ _).
  - vm_compute. reflexivity.
  - apply (bool_decide_unpack _). vm_compute. reflexivity.
  - simpl. lia.
Defined.

End store_claims.

(** * The handlers of main.py *)

Module handler_facts.
Import db main db_facts update_profile_facts scenario.

(** ** C7 *)

Lemma update_profile_age d user_id n r :
  18 ≤ n ≤ 99 → profiles d !! user_id = Some r → int8 user_id = true →
  update_profile d user_id "age" (PyInt n)
  = Ok (with_profiles d (<[user_id := set_field c_age (PyInt n) r]> (profiles d))).
Proof.
  intros Hn Hr H8.
  rewrite (update_profile_column d user_id "age" c_age (PyInt n) r) by done.
  simpl. rewrite integer_arg_Ok; [done|]. apply int4_spec. lia.
Qed.

Lemma in_range_true n : 18 ≤ n ≤ 99 → (18 <=? n) && (n <=? 99) = true.
Proof. intros ?. apply andb_true_iff. split; apply Z.leb_le; lia. Qed.




(** [int] skips blanks, not the separators that [split] also takes for
    white space: a text of digits after the separator 28 is no integer,
    and its only token is. *)
Example int_after_separator :
  py.int " 42 " = Some 42
  ∧ py.int (String (ascii_of_N 28) "42") = None
  ∧ py.split (String (ascii_of_N 28) "42") = ["42"].
Proof. repeat split. Qed.

(** ** C9 *)

Lemma split_on_cons sep cur l :
  ∃ x xs, py.split_on sep cur l = x :: xs.
Proof.
  revert cur. induction l as [|c l IH]; intros cur; simpl; [by eauto|].
  destruct (Ascii.eqb c sep); [by eauto|apply IH].
Qed.

(** The command of a message is the first part of the text of its
    bot_command entity, in lower case. *)
Lemma command_name_first username m c :
  command_name username m = Some c →
  ∃ n t, carries m = text_content t (Some n)
         ∧ c = py.lower (hd "" (py.split_sep "@" (py.slice 1 n t))).
Proof.
  unfold command_name, msg_text, bot_command.
  destruct (carries m) as [t [n|]| |]; try done. cbn [mbind option_bind].
  destruct (String.eqb t ""); [done|]. cbv zeta.
  unfold py.split_sep.
  destruct (split_on_cons "@" [] (py.chars (py.slice 1 n t))) as (x & xs & Hx).
  rewrite Hx. cbn [app nth]. destruct (String.eqb _ _); [|done].
  intros [= <-]. exists n, t. by rewrite Hx.
Qed.

(** A message that gives the bot the command /cancel or /start is a text
    with a bot_command entity, and its text is none of the three gender
    words. *)
Lemma command_no_gender_word username m c :
  command_name username m = Some c → c ∈ ["cancel"; "start"] →
  COMMAND m = true ∧ photo m = []
  ∧ from_option regex_gender false (msg_text m) = false.
Proof.
  intros (n & t & Hm & Hc)%command_name_first Hin.
  unfold COMMAND, photo, msg_text, bot_command. rewrite Hm. cbn [from_option].
  split; [done|]. split; [done|].
  destruct (regex_gender t) eqn:E; [exfalso|done].
  apply bool_decide_eq_true in E. simpl in E.
  assert (c ≠ "cancel" ∧ c ≠ "start") as [? ?];
    [|repeat (apply elem_of_cons in Hin as [->|Hin]); try done;
      by apply not_elem_of_nil in Hin].
  subst c.
  repeat (apply elem_of_cons in E as [->|E]); [..|by apply not_elem_of_nil in E].
  all: do 8 (destruct n as [|n]; [by vm_compute|]); by vm_compute.
Qed.

Lemma cancel_command username m :
  command_name username m = Some "cancel" →
  COMMAND m = true ∧ photo m = [] ∧ check_filter filters_Regex_gender m = false.
Proof.
  intros H. apply (command_no_gender_word username m "cancel" H). repeat constructor.
Qed.

Lemma conversation_check_cancel username c s m :
  c ∈ [conv_handler; search_conv_handler; admin_conv_handler] →
  command_name username m = Some "cancel" →
  conversation_check username c (Some s) (of_message m) = Some cb_cancel.
Proof.
  intros Hc Hm. pose proof (cancel_command username m Hm) as (Hcmd & Hph & Hre).
  unfold check_filter in Hre.
  repeat (apply elem_of_cons in Hc as [->|Hc]); [..|by apply not_elem_of_nil in Hc].
  all: destruct s; unfold conversation_check, state_handlers, first_match; simpl;
    rewrite ?Hcmd, ?Hph, ?Hre, ?andb_false_r; simpl; by rewrite ?Hm.
Qed.

(** C9 (counterexample): user 5 is browsing the candidates 3 and 2 and
    sends /cancel.  The search conversation takes the command with its
    fallback and ends, and [context.user_data] still holds the candidate
    list and the cursor. *)
Lemma cancel_keeps_user_data :
  returned without_photos = Some VIEW_PROFILE
  ∧ process_update "dating_bot" (application None (Some VIEW_PROFILE) None)
      (of_message (commands 5 "/cancel")) = Some (1%nat, cb_cancel)
  ∧ ∃ w', cancel (commands 5 "/cancel") (final without_photos) = Returned END w'
      ∧ ud_search_results (user_data w') = Some [3; 2]
      ∧ ud_search_index (user_data w') = Some 0%nat.
Proof.
  split; [vm_compute; reflexivity|]. split; [vm_compute; reflexivity|].
  eexists. split; [reflexivity|]. split; vm_compute; reflexivity.
Qed.

(** C9 (amended): whatever the states of the three conversations, the
    command /cancel, given to this bot (with the bot's name after [@], or
    with none), goes to the [cancel] fallback of the first conversation
    that has a state for the user, and to no handler when none has one;
    [cancel] replies that the operation is cancelled and returns END,
    which removes the state of that conversation; it leaves the store and
    [context.user_data] as they are. *)
Theorem cancel_ends_conversation username m w s1 s2 s3 :
  command_name username m = Some "cancel" →
  process_update username (application s1 s2 s3) (of_message m)
  = match s1, s2, s3 with
    | Some _, _, _ => Some (0%nat, cb_cancel)
    | None, Some _, _ => Some (1%nat, cb_cancel)
    | None, None, Some _ => Some (2%nat, cb_cancel)
    | None, None, None => None
    end
  ∧ cancel m w
    = Returned END
        (World (store w) (user_data w)
               (sent w ++ [reply_text (chat m) (Lit "Operation cancelled.") ReplyKeyboardRemove]))
  ∧ update_state END = None.
Proof.
  intros Hm. split; [|done].
  pose proof (λ c s Hc, conversation_check_cancel username c s m Hc Hm) as Hc.
  assert (bool_decide (command_name username m = Some "start") = false
          ∧ bool_decide (command_name username m = Some "menu") = false
          ∧ bool_decide (command_name username m = Some "admin") = false)
    as (Hs & Hmenu & Hadm) by (by rewrite Hm).
  unfold application, process_update, takes.
  destruct s1 as [s1|]; [rewrite Hc by set_solver; done|].
  unfold conversation_check at 1. unfold first_match at 1. simpl List.find. rewrite Hs.
  simpl fmap at 1. cbv iota.
  destruct s2 as [s2|]; [rewrite Hc by set_solver; done|].
  unfold conversation_check at 1. unfold first_match at 1. simpl List.find.
  simpl fmap at 1. cbv iota.
  destruct s3 as [s3|]; [rewrite Hc by set_solver; done|].
  simpl. by rewrite Hmenu, Hadm.
Qed.

Lemma cancel_ends_conversation_witness :
  process_update "dating_bot" (application None (Some VIEW_PROFILE) None)
    (of_message (commands 5 "/cancel@Dating_Bot")) = Some (1%nat, cb_cancel)
  ∧ cancel (commands 5 "/cancel@Dating_Bot") fresh
    = Returned END
        (World init_db no_data
               [reply_text 5 (Lit "Operation cancelled.") ReplyKeyboardRemove])
  ∧ update_state END = None.
Proof.
  exact (cancel_ends_conversation "dating_bot" (commands 5 "/cancel@Dating_Bot") fresh
           None (Some VIEW_PROFILE) None eq_refl).
Defined.

(** A /cancel addressed to another bot is no command for this one: in a
    state that waits for a button, no handler takes it. *)
Example cancel_for_another_bot :
  command_name "dating_bot" (commands 5 "/cancel@otherbot") = None
  ∧ process_update "dating_bot" (application None (Some VIEW_PROFILE) None)
      (of_message (commands 5 "/cancel@otherbot")) = None.
Proof. split; vm_compute; reflexivity. Qed.

(** A search that finds candidates overwrites the list and the cursor
    before they are read: what [search_age_max] returns, sends and does to
    the store does not depend on an earlier list and cursor. *)
Lemma search_age_max_overwrites m random d g a r i r' i' sn :
  let o := search_age_max m random (World d (Data g a r i) sn) in
  let o' := search_age_max m random (World d (Data g a r' i') sn) in
  returned o = returned o' ∧ store (final o) = store (final o')
  ∧ sent (final o) = sent (final o')
  ∧ (returned o = Some VIEW_PROFILE → user_data (final o) = user_data (final o')).
Proof.
  cbv zeta. unfold search_age_max, try_except, int_.
  unfold mbind, M_bind, of_option, get_data, put_data, query, send, raise, mret, M_ret.
  destruct (msg_text m) as [s|]; [|done]. destruct (py.int s) as [n|]; [|done].
  destruct a as [lo|]; [|done]. cbn [ud_search_age_min ud_search_gender user_data store sent].
  destruct (negb _); [done|]. destruct g as [g|]; [|done].
  destruct (search_users _ _ _ _ _ _) as [l|e]; [|by destruct (ValueError_or_TypeError e)].
  by destruct (bool_decide (l = [])).
Qed.

(** ** Browsing *)

(** [view_profile] by cases: past the end of the list, a candidate
    without a profile row, with a photo, without one. *)
Lemma view_profile_cases u w :
  view_profile u w
  = match default [] (ud_search_results (user_data w))
          !! default 0%nat (ud_search_index (user_data w)) with
    | None =>
        Returned END
          (World (store w) (user_data w)
                 (sent w ++ [reply_text (message_chat u)
                               (Lit "No more profiles to show.") ReplyKeyboardRemove]))
    | Some t =>
        match get_user_profile (store w) t with
        | Raise e => Raised e w
        | Ok None => Raised AttributeError w
        | Ok (Some row) =>
            if truthy_str (p_photo_id row.2) then
              match u with
              | an_update m =>
                  Returned VIEW_PROFILE
                    (World (store w) (user_data w)
                           (sent w ++ [send_photo (chat m) (default "" (p_photo_id row.2))
                                         (ProfileText row) (profile_keyboard t)]))
              | a_query _ => Raised AttributeError w
              end
            else
              Returned VIEW_PROFILE
                (World (store w) (user_data w)
                       (sent w ++ [reply_text (message_chat u) (ProfileText row)
                                     (profile_keyboard t)]))
        end
    end.
Proof.
  unfold view_profile. unfold mbind at 1. unfold M_bind at 1. unfold get_data at 1.
  set (l := default [] (ud_search_results (user_data w))).
  set (i := default 0%nat (ud_search_index (user_data w))).
  destruct (l !! i) as [t|] eqn:Hli.
  - rewrite bool_decide_eq_false_2 by (intros ->; by rewrite lookup_nil in Hli).
    rewrite bool_decide_eq_false_2
      by (intros Hle; apply lookup_ge_None in Hle; congruence).
    unfold get_user_profile_text, mbind, M_bind, of_option, query, send, mret, M_ret, raise.
    simpl. destruct (get_user_profile (store w) t) as [[row|]|e] eqn:Hrow; simpl;
      rewrite ?Hrow; simpl; try done.
    destruct (truthy_str (p_photo_id row.2)); [|done].
    by destruct u.
  - apply lookup_ge_None in Hli.
    rewrite (bool_decide_eq_true_2 (length l ≤ i)%nat) by done.
    by rewrite orb_true_r.
Qed.

Lemma increment_index_Some w i :
  ud_search_index (user_data w) = Some i →
  increment_index w = Returned () (World (store w) (with_index (user_data w) (S i)) (sent w)).
Proof.
  intros Hi. unfold increment_index, mbind, M_bind, get_data, of_option. by rewrite Hi.
Qed.

(** *** Computations that do not write to the store *)

Lemma keeps_store_ret {A} (a : A) : keeps_store (mret a).
Proof. done. Qed.
Lemma keeps_store_raise {A} e : keeps_store (@raise A e).
Proof. done. Qed.
Lemma keeps_store_send r : keeps_store (send r).
Proof. done. Qed.
Lemma keeps_store_get_data : keeps_store get_data.
Proof. done. Qed.
Lemma keeps_store_put_data u : keeps_store (put_data u).
Proof. done. Qed.
Lemma keeps_store_of_option {A} e (o : option A) : keeps_store (of_option e o).
Proof. by destruct o. Qed.
Lemma keeps_store_query {A} (f : DB → result A) : keeps_store (query f).
Proof. intros w. unfold query. by destruct (f (store w)). Qed.
Lemma keeps_store_bind {A B} (m : M A) (k : A → M B) :
  keeps_store m → (∀ a, keeps_store (k a)) → keeps_store (m ≫= k).
Proof.
  intros Hm Hk w. unfold mbind, M_bind. specialize (Hm w).
  destruct (m w) as [a w'|e w']; simpl in *; [|done]. by rewrite Hk.
Qed.
Lemma keeps_store_try_except {A} (m : M A) classes h :
  keeps_store m → keeps_store h → keeps_store (try_except m classes h).
Proof.
  intros Hm Hh w. unfold try_except. specialize (Hm w).
  destruct (m w) as [a w'|e w']; simpl in *; [done|].
  destruct (classes e); [|done]. by rewrite Hh.
Qed.
Lemma keeps_store_view_profile u : keeps_store (view_profile u).
Proof. intros w. rewrite view_profile_cases. by repeat case_match. Qed.
Lemma keeps_store_increment_index : keeps_store increment_index.
Proof.
  unfold increment_index.
  repeat (apply keeps_store_bind; [|intros ?]);
    auto using keeps_store_get_data, keeps_store_of_option, keeps_store_put_data.
Qed.

Create HintDb keeps discriminated.
#[local] Hint Resolve keeps_store_ret keeps_store_raise keeps_store_send keeps_store_get_data
  keeps_store_put_data keeps_store_of_option keeps_store_query keeps_store_view_profile
  keeps_store_increment_index : keeps.

Ltac keeps_store :=
  repeat first
    [ solve [auto with keeps]
    | apply keeps_store_bind; [|intros ?]
    | apply keeps_store_try_except
    | match goal with |- keeps_store (if ?b then _ else _) => destruct b end
    | match goal with |- keeps_store (match ?o with _ => _ end) => destruct o end ].

(** No handler of the browse writes to the store. *)
Lemma keeps_store_profile_callback q : keeps_store (profile_callback q).
Proof. unfold profile_callback. keeps_store. Qed.

Lemma keeps_store_search_age_max m random : keeps_store (search_age_max m random).
Proof. unfold search_age_max, int_. keeps_store. Qed.

Lemma keeps_store_cancel m : keeps_store (cancel m).
Proof. unfold cancel. keeps_store. Qed.

Lemma view_profile_frame u w :
  user_data (final (view_profile u w)) = user_data w
  ∧ ∃ rest, sent (final (view_profile u w)) = sent w ++ rest.
Proof.
  rewrite view_profile_cases.
  repeat case_match; simpl; (split; [done|]); eauto using app_nil_r.
Qed.

(** ** C1 *)




(** ** C6 *)

(** One press of Next, by cases on what comes next in the list. *)
Lemma next_profile_step q w l i :
  q_data q = "next_profile" →
  ud_search_results (user_data w) = Some l →
  ud_search_index (user_data w) = Some i →
  let w1 := World (store w) (with_index (user_data w) (S i))
                  (sent w ++ [answer; delete_message]) in
  let shown r := World (store w) (with_index (user_data w) (S i))
                       (sent w ++ [answer; delete_message; r]) in
  match l !! S i with
  | None =>
      profile_callback q w
      = Returned VIEW_PROFILE
          (shown (reply_text (q_chat q) (Lit "No more profiles to show.") ReplyKeyboardRemove))
  | Some t =>
      ∀ u p, int8 t = true → users (store w) !! t = Some u → profiles (store w) !! t = Some p →
        profile_callback q w
        = if truthy_str (p_photo_id p) then Raised AttributeError w1
          else Returned VIEW_PROFILE
                 (shown (reply_text (q_chat q) (ProfileText (u, p)) (profile_keyboard t)))
  end.
Proof.
  intros Hq Hl Hi. cbv zeta.
  assert (profile_callback q w
          = match increment_index (World (store w) (user_data w) (sent w ++ [answer])) with
            | Returned _ w0 =>
                match view_profile (a_query q)
                        (World (store w0) (user_data w0) (sent w0 ++ [delete_message])) with
                | Returned _ w' => Returned VIEW_PROFILE w'
                | Raised e w' => Raised e w'
                end
            | Raised e w0 => Raised e w0
            end) as ->.
  { unfold profile_callback. rewrite Hq. done. }
  rewrite (increment_index_Some _ i) by done. cbn [store user_data sent].
  rewrite view_profile_cases. cbn [store user_data sent with_index ud_search_results
    ud_search_index]. rewrite Hl. cbn [from_option]. unfold id.
  destruct (l !! S i) as [t|]; [|by rewrite <- !app_assoc].
  intros u p H8 Hu Hp. unfold get_user_profile. rewrite (bigint_arg_Ok _ H8).
  cbn [mbind result_bind]. rewrite Hu, Hp. simpl.
  destruct (truthy_str (p_photo_id p)); by rewrite <- !app_assoc.
Qed.

(** C6 (the code at the failing input): users 2 and 3 have complete
    profiles, with photos; user 5 searches, the two are found and the
    first, 3, is shown.  Pressing Next raises AttributeError in
    [view_profile], which reads [effective_chat] of the callback query it
    was given: the cursor has moved, the shown message is deleted, and
    nothing is shown for candidate 2.  Pressing Like ends the same way. *)
Theorem next_profile_with_photo_raises :
  returned with_photos = Some VIEW_PROFILE
  ∧ ud_search_results (user_data (final with_photos)) = Some [3; 2]
  ∧ ud_search_index (user_data (final with_photos)) = Some 0%nat
  ∧ p_photo_id <$> profiles (store (final with_photos)) !! 2 = Some (Some "photo-of-2")
  ∧ profile_callback (presses 5 "next_profile") (final with_photos)
    = Raised AttributeError
        (World (store (final with_photos))
               (with_index (user_data (final with_photos)) 1)
               (sent (final with_photos) ++ [answer; delete_message]))
  ∧ ∃ w', profile_callback (presses 5 "like_3") (final with_photos) = Raised AttributeError w'
      ∧ ud_search_index (user_data w') = Some 1%nat.
Proof.
  split; [vm_compute; reflexivity|]. split; [vm_compute; reflexivity|].
  split; [vm_compute; reflexivity|]. split; [vm_compute; reflexivity|].
  split; [vm_compute; reflexivity|].
  eexists. split; vm_compute; reflexivity.
Qed.

(** Without photos the browse goes through the list: two candidates, two
    presses, and the second press gives the end of the list. *)
Example next_profile_without_photos :
  ∃ w1 w2 u p,
    profile_callback (presses 5 "next_profile") (final without_photos) = Returned VIEW_PROFILE w1
    ∧ get_user_profile (store w1) 2 = Ok (Some (u, p))
    ∧ sent w1 = sent (final without_photos)
               ++ [answer; delete_message; reply_text 5 (ProfileText (u, p)) (profile_keyboard 2)]
    ∧ profile_callback (presses 5 "next_profile") w1 = Returned VIEW_PROFILE w2
    ∧ sent w2 = sent w1
               ++ [answer; delete_message;
                   reply_text 5 (Lit "No more profiles to show.") ReplyKeyboardRemove].
Proof.
  eexists _, _, _, _. split; [vm_compute; reflexivity|].
  split; [vm_compute; reflexivity|]. split; [vm_compute; reflexivity|].
  split; vm_compute; reflexivity.
Qed.

(** An empty result ends the search at once: the browse is not entered,
    and nothing is stored. *)
Lemma search_age_max_no_results m random w s max_age min_age gender_pref :
  msg_text m = Some s → py.int s = Some max_age →
  ud_search_age_min (user_data w) = Some min_age →
  ud_search_gender (user_data w) = Some gender_pref →
  min_age ≤ max_age ≤ 99 →
  search_users (store w) (from_user m) gender_pref min_age max_age random = Ok [] →
  search_age_max m random w
  = Returned END
      (World (store w) (user_data w)
             (sent w ++ [reply_text (chat m)
                           (Lit "No users found matching your criteria.") NoMarkup])).
Proof.
  intros Ht Hint Hlo Hg Hr Hs.
  unfold search_age_max, try_except, int_. rewrite Ht.
  unfold mbind, M_bind, of_option, get_data, query. rewrite Hint. simpl.
  rewrite Hlo, Hg. simpl.
  assert ((min_age <=? max_age) && (max_age <=? 99) = true) as ->
    by (apply andb_true_iff; split; apply Z.leb_le; lia).
  simpl. by rewrite Hs.
Qed.

(** ** C8 *)

Lemma keeps_store_admin_menu_command ADMIN_USER_IDS u :
  keeps_store (admin_menu_command ADMIN_USER_IDS u).
Proof. unfold admin_menu_command. keeps_store. Qed.

(** [admin_grant_coins] on a text of two integers. *)
Lemma admin_grant_coins_parsed ADMIN_USER_IDS m w txt s1 s2 target amount :
  msg_text m = Some txt → py.split txt = [s1; s2] →
  py.int s1 = Some target → py.int s2 = Some amount →
  admin_grant_coins ADMIN_USER_IDS m w
  = match user_exists (store w) target with
    | Raise e =>
        if ValueError_or_IndexError e then
          (send (reply_text (chat m) (Lit "Invalid format. Please use: UserID Amount") NoMarkup);;
           admin_menu_command ADMIN_USER_IDS (of_message m);; mret ADMIN_MENU) w
        else Raised e w
    | Ok false =>
        Returned ADMIN_MENU
          (World (store w) (user_data w)
                 (sent w ++ [reply_text (chat m) (Lit "User not found.") NoMarkup]))
    | Ok true =>
        match add_coins (store w) target amount with
        | Raise e =>
            if ValueError_or_IndexError e then
              (send (reply_text (chat m) (Lit "Invalid format. Please use: UserID Amount")
                       NoMarkup);;
               admin_menu_command ADMIN_USER_IDS (of_message m);; mret ADMIN_MENU) w
            else Raised e w
        | Ok d =>
            (admin_menu_command ADMIN_USER_IDS (of_message m);; mret ADMIN_MENU)
              (World d (user_data w)
                 (sent w ++ [reply_text (chat m) (GrantedText amount target) NoMarkup;
                             send_message target (GrantNotice amount)]))
        end
    end.
Proof.
  intros Ht Hs H1 H2.
  unfold admin_grant_coins, admin_grant_coins_try, try_except,
    mbind, M_bind, of_option, mret, M_ret, query, execute, send.
  rewrite Ht. cbn beta iota. rewrite Hs, H1. cbn beta iota. rewrite H2. cbn beta iota.
  destruct (user_exists (store w) target) as [[|]|e]; simpl.
  - destruct (add_coins (store w) target amount) as [d|e]; simpl.
    + by rewrite <- app_assoc.
    + by destruct (ValueError_or_IndexError e).
  - done.
  - by destruct (ValueError_or_IndexError e).
Qed.

Lemma admin_menu_again ADMIN_USER_IDS m w :
  store (final ((admin_menu_command ADMIN_USER_IDS (of_message m);; mret ADMIN_MENU) w))
  = store w
  ∧ ∃ rest,
      sent (final ((admin_menu_command ADMIN_USER_IDS (of_message m);; mret ADMIN_MENU) w))
      = sent w ++ rest.
Proof.
  unfold admin_menu_command, mbind, M_bind, send, raise. simpl.
  destruct (negb _); simpl; eauto using app_nil_r.
Qed.




(** ** The likes table is never written *)

Lemma create_user_new d A name rc uuid4 d' :
  user_exists d A = Ok false → create_user d A name rc uuid4 = Ok d' →
  ∃ d0, d' = pending d0 A (new_user name (uuid_prefix uuid4) rc) ∧ likes d0 = likes d.
Proof.
  intros Hex. unfold create_user, create_user_run. rewrite Hex. cbv zeta.
  destruct (insert_checks _ _ _); simpl; [|done].
  destruct (truthy_str rc); [|intros; simplify_eq/=; eauto].
  destruct (truthy_int _); [|intros; simplify_eq/=; eauto].
  match goal with
  | |- context [add_coins ?a ?b ?c] => destruct (add_coins a b c) as [d1|e] eqn:Hadd
  end; simpl; intros; simplify_eq/=.
  apply add_coins_likes in Hadd as [? _]. eauto.
Qed.

Lemma create_user_likes d A name rc uuid4 d' :
  create_user d A name rc uuid4 = Ok d' → likes d' = likes d.
Proof.
  destruct (user_exists d A) as [[|]|e] eqn:Hex.
  - unfold create_user, create_user_run. rewrite Hex. simpl. by intros [= <-].
  - intros (d0 & -> & Hl)%create_user_new; done.
  - unfold create_user, create_user_run. by rewrite Hex.
Qed.

Lemma update_profile_likes d user_id field value d' :
  update_profile d user_id field value = Ok d' → likes d' = likes d.
Proof.
  unfold update_profile, execute_update_profiles.
  destruct (set_clause _); [|done]. destruct (existsb _ _); [done|].
  destruct (resolve_all _); simpl; [|done].
  destruct (negb _); [done|]. destruct (negb _); [done|].
  destruct (placeholder_type _); [|done]. destruct (encode_arg _ _); simpl; [|done].
  destruct (bigint_arg _); simpl; [|done]. destruct (check_literals _); simpl; [|done].
  destruct (profiles d !! user_id); [|by intros [= <-]].
  unfold update_row. destruct (foldr _ _ _).1; [|done].
  repeat case_bool_decide; intros; by simplify_eq/=.
Qed.

Lemma set_status_likes d user_id status d' :
  set_premium_status d user_id status = Ok d' ∨ set_ban_status d user_id status = Ok d' →
  likes d' = likes d.
Proof.
  unfold set_premium_status, set_ban_status.
  destruct (bigint_arg user_id); simpl; intros [?|?]; by simplify_eq/=.
Qed.

(** ** Reaching the question for the age *)

(** [start] goes to GENDER after it created the user, with a profile row;
    [gender] goes to AGE and keeps the row. *)
Lemma start_GENDER m args uuid4 w w' :
  start m args uuid4 w = Returned GENDER w' →
  int8 (from_user m) = true ∧ is_Some (profiles (store w') !! from_user m).
Proof.
  unfold start, mbind, M_bind, query, execute, send. cbv zeta.
  destruct (user_exists (store w) (from_user m)) as [[|]|e] eqn:Hex; simpl; try done.
  destruct (create_user _ _ _ _ _) as [d'|e] eqn:Hc; simpl; [|done].
  intros [= <-]. simpl.
  apply (create_user_new _ _ _ _ _ _ Hex) in Hc as (d0 & -> & _).
  split.
  - unfold user_exists, bigint_arg in Hex. by destruct (int8 (from_user m)).
  - simpl. rewrite lookup_insert_eq. eauto.
Qed.

Lemma gender_AGE m w w' :
  gender m w = Returned AGE w' → is_Some (profiles (store w) !! from_user m) →
  is_Some (profiles (store w') !! from_user m).
Proof.
  unfold gender, mbind, M_bind, execute, send.
  rewrite (update_profile_identifier _ _ "gender" "gender") by done.
  change (column_of_name "gender") with (Some c_gender). cbn iota.
  destruct (encode_arg _ _); cbn [mbind result_bind]; [|done].
  destruct (bigint_arg _); cbn [mbind result_bind]; [|done].
  intros H [r Hr]. rewrite Hr in H. rewrite update_row_field in H by done.
  simpl in H. injection H as <-. simpl. rewrite lookup_insert_eq. eauto.
Qed.

Lemma start_GENDER_witness :
  int8 5 = true ∧ is_Some (profiles (store (final (start (commands 5 "/start") [] 0 fresh))) !! 5).
Proof.
  exact (start_GENDER (commands 5 "/start") [] 0 fresh
           (final (start (commands 5 "/start") [] 0 fresh)) eq_refl).
Defined.

(** Every function of db.py that writes leaves the likes table as it
    is. *)
Lemma likes_never_written d d' :
  (∃ user_id name referral_code uuid4,
      create_user d user_id name referral_code uuid4 = Ok d')
  ∨ (∃ user_id field value, update_profile d user_id field value = Ok d')
  ∨ (∃ user_id amount, add_coins d user_id amount = Ok d')
  ∨ (∃ user_id status, set_premium_status d user_id status = Ok d')
  ∨ (∃ user_id status, set_ban_status d user_id status = Ok d') →
  likes d' = likes d.
Proof.
  intros [(? & ? & ? & ? & H)|[(? & ? & ? & H)|[(? & ? & H)|[(? & ? & H)|(? & ? & H)]]]].
  - by eapply create_user_likes.
  - by eapply update_profile_likes.
  - by apply add_coins_likes in H as [? _].
  - eapply set_status_likes; eauto.
  - eapply set_status_likes; eauto.
Qed.

Lemma likes_never_written_witness :
  likes (pending lone_user 6 (new_user "Z" (uuid_prefix (2 ^ 96)) None)) = likes lone_user.
Proof.
  apply likes_never_written. left. exists 6, "Z", None, (2 ^ 96). vm_compute. reflexivity.
Defined.

Lemma next_profile_step_witness :
  profile_callback (presses 5 "next_profile") (final without_photos)
  = Returned VIEW_PROFILE
      (World (store (final without_photos))
             (with_index (user_data (final without_photos)) 1)
             (sent (final without_photos)
              ++ [answer; delete_message;
                  reply_text 5
                    (ProfileText (UserRow "N" 100 false false (Some "00000002") None,
                                  ProfileRow (Some "Female") (Some 25) (Some "hi") None None))
                    (profile_keyboard 2)])).
Proof.
  exact (next_profile_step (presses 5 "next_profile") (final without_photos) [3; 2] 0
           eq_refl ltac:(vm_compute; reflexivity) ltac:(vm_compute; reflexivity)
           (UserRow "N" 100 false false (Some "00000002") None)
           (ProfileRow (Some "Female") (Some 25) (Some "hi") None None)
           eq_refl ltac:(vm_compute; reflexivity) ltac:(vm_compute; reflexivity)).
Defined.

Lemma search_age_max_no_results_witness :
  search_age_max (says 5 "99") []
    (World lone_user (Data (Some (Some "Female")) (Some 18) None None) [])
  = Returned END
      (World lone_user (Data (Some (Some "Female")) (Some 18) None None)
             [reply_text 5 (Lit "No users found matching your criteria.") NoMarkup]).
Proof.
  exact (search_age_max_no_results (says 5 "99") []
           (World lone_user (Data (Some (Some "Female")) (Some 18) None None) [])
           "99" 99 18 (Some "Female") eq_refl eq_refl eq_refl eq_refl ltac:(lia)
           ltac:(vm_compute; reflexivity)).
Defined.

End handler_facts.

(** * More on the store: invariants, repeated calls, missing rows *)

Module store_more.
Import db db_facts create_user_facts update_profile_facts scenario.

(** ** create_user *)

(** What a successful [create_user] for a user who did not exist has
    done: at most one credit, then the two inserts. *)
Lemma create_user_fresh_inv d A name rc uuid4 d' :
  user_exists d A = Ok false → create_user d A name rc uuid4 = Ok d' →
  int8 A = true ∧ users d !! A = None
  ∧ ∃ d0, d' = pending d0 A (new_user name (uuid_prefix uuid4) rc)
      ∧ (d0 = d ∨ ∃ k, k ≠ A ∧ add_coins d k 50 = Ok d0).
Proof.
  intros Hex.
  assert (int8 A = true ∧ users d !! A = None) as [H8 HA].
  { unfold user_exists, bigint_arg in Hex. destruct (int8 A); simplify_eq/=.
    split; [done|]. apply eq_None_not_Some. intros HS.
    by rewrite (bool_decide_eq_true_2 _ HS) in Hex. }
  unfold create_user, create_user_run. rewrite Hex. cbv zeta.
  destruct (insert_checks _ _ _); simpl; [|done].
  destruct (truthy_str rc); [|intros; simplify_eq/=; eauto 10].
  destruct (truthy_int _) eqn:Ht; [|intros; simplify_eq/=; eauto 10].
  match goal with
  | |- context [add_coins ?a ?b ?c] => destruct (add_coins a b c) as [d1|e] eqn:Hadd
  end; simpl; intros; simplify_eq/=.
  do 2 (split; [done|]). eexists. split; [done|].
  destruct (decide (default 0 (select_referrer
              (<[A:=new_user name (uuid_prefix uuid4) rc]> (users d)) (default "" rc)) = A))
    as [E|E].
  - left. rewrite E in Hadd. by apply (add_coins_absent _ _ _ _ HA) in Hadd.
  - right. eauto.
Qed.

Lemma user_exists_absent d A name rc uuid4 d' :
  users d !! A = None → create_user d A name rc uuid4 = Ok d' →
  user_exists d A = Ok false.
Proof.
  intros HA Hc. destruct (user_exists d A) as [[|]|e] eqn:Hex.
  - unfold user_exists in Hex. destruct (bigint_arg A); simplify_eq/=.
    by rewrite (not_is_Some_None _ HA) in Hex.
  - done.
  - unfold create_user, create_user_run in Hc. by rewrite Hex in Hc.
Qed.

(** A second [create_user] for the same id, whatever its other arguments,
    changes nothing: no second row, no second credit. *)
Theorem create_user_twice d A name rc uuid4 d' name' rc' uuid4' :
  create_user d A name rc uuid4 = Ok d' →
  create_user d' A name' rc' uuid4' = Ok d'.
Proof.
  intros H.
  assert (user_exists d' A = Ok true) as Hex'.
  { destruct (user_exists d A) as [[|]|e] eqn:Hex.
    - unfold create_user, create_user_run in H. rewrite Hex in H. by simplify_eq/=.
    - apply (create_user_fresh_inv _ _ _ _ _ _ Hex) in H as (H8 & _ & d0 & -> & _).
      rewrite (user_exists_Ok _ _ H8). simpl. rewrite lookup_insert_eq.
      by rewrite bool_decide_eq_true_2 by eauto.
    - unfold create_user, create_user_run in H. by rewrite Hex in H. }
  unfold create_user, create_user_run. by rewrite Hex'.
Qed.

Lemma create_user_twice_witness :
  create_user (one_user 5) 5 "Z" (Some "7ab3c9d2") 9 = Ok (one_user 5).
Proof.
  exact (create_user_twice init_db 5 "Y" None referrer_uuid (one_user 5) "Z"
           (Some "7ab3c9d2") 9 ltac:(vm_compute; reflexivity)).
Defined.

(** A new referral code that a user already holds makes the insert fail:
    the creation raises, and nothing is committed, not even a credit. *)
Theorem create_user_code_collision d A name rc uuid4 k u :
  users d !! A = None → int8 A = true →
  users d !! k = Some u → u_referral_code u = Some (uuid_prefix uuid4) →
  create_user d A name rc uuid4 = Raise UniqueViolationError
  ∧ commits (create_user_run d A name rc uuid4) = [].
Proof.
  intros HA H8 Hk Hc.
  assert (create_user_run d A name rc uuid4 = Run [] (Some UniqueViolationError)) as Hrun.
  { unfold create_user_run. rewrite (user_exists_Ok _ _ H8), (not_is_Some_None _ HA).
    unfold insert_checks. rewrite (bigint_arg_Ok _ H8). simpl.
    rewrite (not_is_Some_None _ HA).
    rewrite bool_decide_eq_true_2; [done|].
    destruct (select_referrer (users d) (uuid_prefix uuid4)) eqn:Hs; [by eauto|].
    exfalso. eapply select_referrer_None; eauto. }
  unfold create_user. by rewrite Hrun.
Qed.

Lemma create_user_code_collision_witness :
  create_user (one_user 5) 7 "X" None (referrer_uuid + 1) = Raise UniqueViolationError
  ∧ commits (create_user_run (one_user 5) 7 "X" None (referrer_uuid + 1)) = [].
Proof.
  exact (create_user_code_collision (one_user 5) 7 "X" None (referrer_uuid + 1) 5
           (new_user "Y" (uuid_prefix referrer_uuid) None)
           eq_refl eq_refl eq_refl ltac:(vm_compute; reflexivity)).
Defined.

(** ** Rows that do not exist *)

Lemma DB_eta d : Store (users d) (profiles d) (likes d) = d.
Proof. by destruct d. Qed.

(** For a user without rows, every update succeeds and changes nothing:
    none of them reports the missing user. *)
Theorem writes_to_missing_user d k :
  users d !! k = None → profiles d !! k = None → int8 k = true →
  (∀ amount, int4 amount = true → add_coins d k amount = Ok d)
  ∧ (∀ status, set_premium_status d k status = Ok d)
  ∧ (∀ status, set_ban_status d k status = Ok d)
  ∧ (∀ field c value, field ∈ profile_fields → column_of_name field = Some c →
       encode_arg (column_type c) value = Ok () →
       update_profile d k field value = Ok d).
Proof.
  intros Hu Hp H8. repeat split.
  - intros amount H4. unfold add_coins.
    rewrite (integer_arg_Ok _ H4), (bigint_arg_Ok _ H8). simpl. by rewrite Hu.
  - intros status. unfold set_premium_status, with_users.
    rewrite (bigint_arg_Ok _ H8). simpl. by rewrite alter_id', DB_eta.
  - intros status. unfold set_ban_status, with_users.
    rewrite (bigint_arg_Ok _ H8). simpl. by rewrite alter_id', DB_eta.
  - intros field c value (Hid & _)%profile_field_column Hc Henc.
    rewrite (update_profile_of_column _ _ _ _ _ _ Hid Hc), Henc.
    cbn [mbind result_bind]. rewrite (bigint_arg_Ok _ H8). cbn [mbind result_bind].
    by rewrite Hp.
Qed.

Lemma writes_to_missing_user_witness :
  add_coins lone_user 6 10 = Ok lone_user
  ∧ set_ban_status lone_user 6 true = Ok lone_user
  ∧ update_profile lone_user 6 "bio" (PyStr "hi") = Ok lone_user.
Proof.
  pose proof (writes_to_missing_user lone_user 6 eq_refl eq_refl eq_refl)
    as (Ha & _ & Hb & Hu).
  split; [exact (Ha 10 eq_refl)|]. split; [exact (Hb true)|].
  refine (Hu "bio" c_bio (PyStr "hi") _ eq_refl eq_refl).
  apply (bool_decide_unpack _). vm_compute. exact I.
Defined.

(** ** Bans *)

Lemma search_users_elem d searcher_id gender min_age max_age random l id :
  search_users d searcher_id gender min_age max_age random = Ok l → id ∈ l →
  ∃ p, profiles d !! id = Some p
       ∧ candidate d searcher_id gender min_age max_age (id, p).
Proof.
  unfold search_users, integer_arg, bigint_arg.
  destruct (int4 min_age); simpl; [|done].
  destruct (int4 max_age); simpl; [|done].
  destruct (int8 searcher_id); simpl; [|done].
  intros [= <-] Hid. apply subseteq_take in Hid.
  rewrite store_claims.order_by_random_Permutation in Hid.
  apply list_elem_of_fmap in Hid as ([k p] & -> & Hin).
  apply list_elem_of_filter in Hin as [Hc Hin].
  apply elem_of_map_to_list in Hin. eauto.
Qed.

(** After a ban no search returns the user, whoever searches and for
    whatever criteria. *)
Theorem banned_user_not_found d k d' :
  set_ban_status d k true = Ok d' →
  ∀ searcher_id gender min_age max_age random l,
    search_users d' searcher_id gender min_age max_age random = Ok l → k ∉ l.
Proof.
  unfold set_ban_status. destruct (bigint_arg k); simpl; [|done]. intros [= <-].
  intros s g lo hi random l Hs Hk.
  apply (search_users_elem _ _ _ _ _ _ _ _ Hs) in Hk as (p & _ & _ & _ & _ & u & Hu & Hb).
  simpl in Hu. rewrite lookup_alter_eq in Hu.
  destruct (users d !! k) as [u0|]; simplify_eq/=.
Qed.

Lemma banned_user_not_found_witness :
  search_users (main.store (main.final without_photos)) 5 (Some "Female") 18 99 [] = Ok [3; 2]
  ∧ ∃ d', set_ban_status (main.store (main.final without_photos)) 3 true = Ok d'
      ∧ search_users d' 5 (Some "Female") 18 99 [] = Ok [2]
      ∧ 3 ∉ [2].
Proof.
  split; [vm_compute; reflexivity|].
  eexists. split; [reflexivity|].
  assert (search_users
            (with_users (main.store (main.final without_photos))
               (alter (set_banned true) 3 (users (main.store (main.final without_photos)))))
            5 (Some "Female") 18 99 [] = Ok [2]) as Hs by (vm_compute; reflexivity).
  split; [exact Hs|].
  exact (banned_user_not_found _ 3 _ eq_refl 5 (Some "Female") 18 99 [] [2] Hs).
Defined.

(** A ban, or its lifting, changes nothing in what the user finds:
    no search reads the flag of the searcher. *)
Theorem ban_keeps_own_search d k status d' :
  set_ban_status d k status = Ok d' →
  ∀ gender min_age max_age random,
    search_users d' k gender min_age max_age random
    = search_users d k gender min_age max_age random.
Proof.
  unfold set_ban_status. destruct (bigint_arg k); simpl; [|done]. intros [= <-].
  intros g lo hi random. unfold search_users.
  destruct (integer_arg lo); simpl; [|done].
  destruct (integer_arg hi); simpl; [|done].
  destruct (bigint_arg k); simpl; [|done].
  do 4 f_equal. apply list_filter_iff. intros [k' p]. unfold candidate. simpl.
  split; intros (Hg & Ha & Hne & Hu); (do 3 (split; [done|]));
    by rewrite lookup_alter_ne in * by done.
Qed.

Lemma ban_keeps_own_search_witness :
  ∃ d', set_ban_status (main.store (main.final without_photos)) 5 true = Ok d'
    ∧ search_users d' 5 (Some "Female") 18 99 []
      = search_users (main.store (main.final without_photos)) 5 (Some "Female") 18 99 [].
Proof.
  eexists. split; [reflexivity|].
  exact (ban_keeps_own_search _ 5 true _ eq_refl (Some "Female") 18 99 []).
Defined.

Lemma user_row_eta u :
  UserRow (u_name u) (u_coins u) (u_is_premium u) (u_is_banned u)
          (u_referral_code u) (u_referred_by u) = u.
Proof. by destruct u. Qed.

(** A ban is read back by [is_banned], and lifting the ban of a user who
    was not banned before gives the store before the ban. *)
Theorem ban_then_unban d k u d1 d2 :
  users d !! k = Some u → u_is_banned u = false →
  set_ban_status d k true = Ok d1 → set_ban_status d1 k false = Ok d2 →
  is_banned d k = Ok false ∧ is_banned d1 k = Ok true ∧ is_banned d2 k = Ok false
  ∧ d2 = d.
Proof.
  unfold set_ban_status, is_banned. intros Hu Hb.
  destruct (bigint_arg k); simpl; [|done]. intros [= <-] [= <-]. simpl.
  rewrite !lookup_alter_eq, Hu. simpl. rewrite Hb. do 3 (split; [done|]).
  destruct d as [us ps ls]. unfold with_users. simpl in *. f_equal.
  apply map_eq. intros k'. destruct (decide (k' = k)) as [->|Hne].
  - rewrite !lookup_alter_eq, Hu. simpl. unfold set_banned. simpl.
    by rewrite <- Hb, user_row_eta.
  - by rewrite !lookup_alter_ne.
Qed.

Lemma ban_then_unban_witness :
  is_banned (one_user 5) 5 = Ok false
  ∧ is_banned (with_users (one_user 5) (alter (set_banned true) 5 (users (one_user 5)))) 5
    = Ok true
  ∧ set_ban_status
      (with_users (one_user 5) (alter (set_banned true) 5 (users (one_user 5)))) 5 false
    = Ok (one_user 5).
Proof.
  pose proof (ban_then_unban (one_user 5) 5 (new_user "Y" (uuid_prefix referrer_uuid) None)
                (with_users (one_user 5) (alter (set_banned true) 5 (users (one_user 5))))
                (one_user 5) eq_refl eq_refl eq_refl ltac:(vm_compute; reflexivity))
    as (H0 & H1 & _ & _).
  split; [exact H0|]. split; [exact H1|]. vm_compute. reflexivity.
Defined.

(** ** The list of users *)

Lemma later_total created_at : Total (later created_at).
Proof. intros a b. unfold later. lia. Qed.

(** [get_all_users] lists every user once, with the name and the flag of
    the row, the latest first. *)
Theorem get_all_users_lists_every_user d created_at :
  (∀ k name banned,
      (k, name, banned) ∈ get_all_users d created_at
      ↔ ∃ u, users d !! k = Some u ∧ name = u_name u ∧ banned = u_is_banned u)
  ∧ NoDup (get_all_users d created_at).*1.*1
  ∧ length (get_all_users d created_at) = size (users d)
  ∧ Sorted (λ a b, created_at b.1.1 ≤ created_at a.1.1) (get_all_users d created_at).
Proof.
  unfold get_all_users.
  pose proof (merge_sort_Permutation (later created_at) (map_to_list (users d))) as Hperm.
  repeat split.
  - intros ([k' u] & [= -> -> ->] & Hin)%list_elem_of_fmap.
    rewrite Hperm in Hin. apply elem_of_map_to_list in Hin. eauto.
  - intros (u & Hu & -> & ->). apply list_elem_of_fmap. exists (k, u). split; [done|].
    rewrite Hperm. by apply elem_of_map_to_list.
  - assert (∀ l : list (Z * user_row), (listed <$> l).*1.*1 = l.*1) as E
      by (induction l as [|? ? IH]; simpl; [done|by f_equal]).
    rewrite E, Hperm. apply NoDup_fst_map_to_list.
  - by rewrite length_fmap, Hperm, length_map_to_list.
  - apply (Sorted_fmap _ (later created_at)); [done|].
    apply Sorted_merge_sort, later_total.
Qed.

(** ** The count of referrals *)

Lemma referred_count_insert (m : gmap Z user_row) code k c uk :
  m !! k = Some uk →
  size (filter (λ kv : Z * user_row, u_referred_by kv.2 = code) (<[k := set_coins c uk]> m))
  = size (filter (λ kv : Z * user_row, u_referred_by kv.2 = code) m).
Proof.
  intros Hk. rewrite map_filter_insert. case_decide as HP; simpl in HP.
  - apply map_size_insert_Some. exists uk. by apply map_lookup_filter_Some.
  - rewrite map_filter_delete_not; [done|]. intros y Hy. by simplify_eq/=.
Qed.

(** A user created with the referral code of [B] counts as one more
    referral of [B], with or without a credit. *)
Theorem referral_count_grows d A name code uuid4 B ub d' n :
  wf d → users d !! A = None → users d !! B = Some ub →
  u_referral_code ub = Some code →
  create_user d A name (Some code) uuid4 = Ok d' →
  get_referral_count d B = Ok n →
  get_referral_count d' B = Ok (n + 1).
Proof.
  intros Hwf HA HB Hcode Hc Hn.
  assert (A ≠ B) as Hne by (intros ->; congruence).
  assert (user_exists d A = Ok false) as Hex.
  { destruct (user_exists d A) as [[|]|e] eqn:Hex.
    - unfold user_exists in Hex. destruct (bigint_arg A); simplify_eq/=.
      rewrite (not_is_Some_None _ HA) in Hex. done.
    - done.
    - unfold create_user, create_user_run in Hc. by rewrite Hex in Hc. }
  apply (create_user_fresh_inv _ _ _ _ _ _ Hex) in Hc as (_ & _ & d0 & -> & Hd0).
  destruct (wf_code _ Hwf _ _ HB) as (c' & Hc' & Hlen).
  assert (c' = code) as -> by congruence.
  pose proof (wf_key _ Hwf _ _ HB) as H8.
  revert Hn. unfold get_referral_count, get_referral_code.
  rewrite (bigint_arg_Ok _ H8). cbn [mbind result_bind]. rewrite HB.
  change (Some ub ≫= u_referral_code) with (u_referral_code ub).
  rewrite Hcode, (code_truthy _ Hlen). intros [= <-].
  assert (∃ ub', users d0 !! B = Some ub' ∧ u_referral_code ub' = Some code
                 ∧ users d0 !! A = None
                 ∧ size (filter (λ kv : Z * user_row, u_referred_by kv.2 = Some code) (users d0))
                   = size (filter (λ kv : Z * user_row, u_referred_by kv.2 = Some code)
                             (users d))) as (ub' & HB' & Hcode' & HA' & Hsize).
  { destruct Hd0 as [->|(k & Hk & Hadd)]; [by eauto|].
    apply add_coins_inv in Hadd as (_ & _ & [[_ ->]|(uk & Huk & _ & ->)]); [by eauto|].
    simpl. destruct (decide (k = B)) as [->|HkB].
    - exists (set_coins (u_coins ub + 50) ub). simplify_eq.
      rewrite lookup_insert_eq, lookup_insert_ne by done.
      by rewrite referred_count_insert.
    - exists ub. rewrite !lookup_insert_ne by done.
      by rewrite referred_count_insert. }
  cbn [users pending]. rewrite lookup_insert_ne by done. rewrite HB'.
  change (Some ub' ≫= u_referral_code) with (u_referral_code ub').
  rewrite Hcode', (code_truthy _ Hlen). f_equal.
  rewrite map_filter_insert_True by done.
  rewrite map_size_insert_None; [lia|].
  apply map_lookup_filter_None. by left.
Qed.

Lemma referral_count_grows_witness :
  get_referral_count (one_user 0) 0 = Ok 0
  ∧ ∃ d', create_user (one_user 0) 7 "X" (Some "7ab3c9d2") 1 = Ok d'
      ∧ get_referral_count d' 0 = Ok (0 + 1).
Proof.
  assert (get_referral_count (one_user 0) 0 = Ok 0) as Hn by (vm_compute; reflexivity).
  split; [exact Hn|]. eexists. split; [vm_compute; reflexivity|].
  refine (referral_count_grows (one_user 0) 7 "X" "7ab3c9d2" 1 0
            (new_user "Y" (uuid_prefix referrer_uuid) None) _ 0
            (referral.one_user_wf 0 eq_refl) eq_refl eq_refl eq_refl _ Hn).
  vm_compute. reflexivity.
Defined.

(** ** The invariant of the store *)

Lemma check_literals_elem cols a :
  check_literals cols = Ok () → a ∈ cols → check_literal a = Ok ().
Proof.
  induction cols as [|b cols IH]; simpl; intros H Ha; [by apply not_elem_of_nil in Ha|].
  destruct (check_literal b) as [[]|] eqn:Hb; simpl in H; [|done].
  apply elem_of_cons in Ha as [->|Ha]; eauto.
Qed.

Lemma placeholder_type_elem cols t a :
  placeholder_type cols = Some t → a ∈ cols → a.2 = Placeholder →
  column_type a.1 = t.
Proof.
  unfold placeholder_type, placeholder_types. intros Ht Ha Hp.
  assert (column_type a.1 ∈
            omap (λ a : column * sql_value,
                    match a.2 with Placeholder => Some (column_type a.1) | IntLit _ => None end)
                 cols) as Hin.
  { apply list_elem_of_omap. exists a. by rewrite Hp. }
  destruct (omap _ cols) as [|t0 ts] eqn:E; [by apply not_elem_of_nil in Hin|].
  destruct (forallb _ _) eqn:Hall; simplify_eq.
  apply elem_of_cons in Hin as [->|Hin]; [done|].
  rewrite forallb_forall in Hall. apply list_elem_of_In, Hall in Hin.
  by apply bool_decide_eq_true in Hin.
Qed.

(** The age a statement assigns fits INTEGER. *)
Lemma assigned_age_fits cols t value k r :
  (∀ a, a ∈ cols → check_literal a = Ok ()) →
  (∀ a, a ∈ cols → a.2 = Placeholder → column_type a.1 = t) →
  encode_arg t value = Ok () →
  (∀ z, p_age r = Some z → int4 z = true) →
  ∀ z, p_age (foldr (assign value) (k, r) cols).2 = Some z → int4 z = true.
Proof.
  intros Hlit Hty Henc Hr. induction cols as [|a cols IH]; simpl; [done|].
  assert (∀ z, p_age (foldr (assign value) (k, r) cols).2 = Some z → int4 z = true) as IH'.
  { apply IH; intros; [apply Hlit|apply Hty]; try done; by apply list_elem_of_further. }
  clear IH. destruct (foldr (assign value) (k, r) cols) as [k' r']. simpl in IH'.
  pose proof (Hlit a (list_elem_of_here _ _)) as Ha.
  pose proof (Hty a (list_elem_of_here _ _)) as Hta.
  destruct a as [c v]. unfold assign. simpl in *.
  destruct c; simpl; try done.
  intros z Hz. destruct v as [|z']; simpl in *.
  - rewrite <- (Hta eq_refl) in Henc. destruct value; simplify_eq/=.
    unfold integer_arg in Henc. by destruct (int4 z).
  - unfold check_literal in Ha. simpl in Ha. simplify_eq. by destruct (int4 z).
Qed.

Lemma update_profile_wf d user_id field value d' :
  wf d → update_profile d user_id field value = Ok d' → wf d'.
Proof.
  intros Hwf. unfold update_profile, execute_update_profiles.
  destruct (set_clause _); [|done]. destruct (existsb _ _); [done|].
  destruct (resolve_all _) as [cols|]; simpl; [|done].
  destruct (negb _); [done|]. destruct (negb _); [done|].
  destruct (placeholder_type cols) as [t|] eqn:Ht; [|done].
  destruct (encode_arg t value) as [[]|] eqn:Henc; simpl; [|done].
  destruct (bigint_arg user_id); simpl; [|done].
  destruct (check_literals cols) as [[]|] eqn:Hlit; simpl; [|done].
  destruct (profiles d !! user_id) as [r|] eqn:Hr; [|by intros [= <-]].
  pose proof (assigned_age_fits cols t value (Some user_id) r
                (λ a, check_literals_elem _ _ Hlit)
                (λ a, placeholder_type_elem _ _ _ Ht) Henc
                (λ z, wf_age _ Hwf _ _ _ Hr)) as Hage.
  destruct (foldr _ _ cols) as [k' r']. unfold update_row. simpl in *.
  destruct k' as [k'|]; [|done].
  assert (is_Some (users d !! user_id)) as Hu
    by (apply (wf_profile _ Hwf); eauto).
  case_bool_decide as Hk; [subst k'|].
  - intros [= <-]. destruct Hwf as [Hkey Hcoins Hcode Huniq Hprof Hag Hlikes].
    split; simpl; try done.
    + intros k. rewrite lookup_insert. case_decide; subst; [|done].
      split; eauto.
    + intros k p z. rewrite lookup_insert. case_decide; intros; simplify_eq; eauto.
  - case_bool_decide as Hp; [done|]. case_bool_decide as Hk'; [|done].
    exfalso. apply Hp. by apply (wf_profile _ Hwf).
Qed.



End store_more.

(** * More on the handlers *)

Module handler_more.
Import db main db_facts create_user_facts update_profile_facts scenario handler_facts
  store_more.

(** ** Decimal text: [str] of an integer is read back by [int] *)

Lemma decimal_digits d :
  Forall (λ c, is_Some (py.digit c)) (decimal d).
Proof.
  unfold decimal. induction d; simpl; constructor; try done; by eexists.
Qed.

Lemma digits_of_uint_acc d acc :
  py.digits (Z.pos acc) true (decimal d) = Some (Z.pos (Pos.of_uint_acc d acc)).
Proof.
  unfold decimal. revert acc. induction d as [|d IH|d IH|d IH|d IH|d IH|d IH|d IH|d IH|d IH|d IH];
    intros acc; simpl; [done|..];
    change (py.chars ?s) with (list_ascii_of_string s) in IH; rewrite <- IH;
    f_equal; lia.
Qed.

Lemma digits_of_uint d :
  py.digits 0 true (decimal d) = Some (Z.of_N (Pos.of_uint d)).
Proof.
  induction d as [|d IH|d IH|d IH|d IH|d IH|d IH|d IH|d IH|d IH|d IH];
    [done|exact IH|exact (digits_of_uint_acc d _)..].
Qed.

Lemma digits_of_uint_first d b :
  d ≠ Decimal.Nil →
  py.digits 0 b (decimal d) = Some (Z.of_N (Pos.of_uint d)).
Proof.
  intros Hd. destruct d; [done|exact (digits_of_uint _)|exact (digits_of_uint_acc _ _)..].
Qed.

Lemma to_uint_not_Nil p : Pos.to_uint p ≠ Decimal.Nil.
Proof.
  intros E. pose proof (DecimalPos.Unsigned.of_to p) as H. by rewrite E in H.
Qed.

Lemma digit_not_space c : is_Some (py.digit c) → py.Py_ISSPACE c = false.
Proof.
  unfold py.digit, py.Py_ISSPACE. intros [d Hd].
  destruct (_ && _) eqn:E in Hd; [|done].
  apply andb_true_iff in E as [?%Z.leb_le ?%Z.leb_le].
  apply orb_false_iff. split; [apply andb_false_iff; rewrite !Z.leb_gt|apply Z.eqb_neq]; lia.
Qed.

(** Nothing is skipped of a text that begins and ends with a character
    that is no blank. *)
Lemma skip_plain c l c' :
  py.Py_ISSPACE c = false → py.Py_ISSPACE c' = false →
  py.skip (c :: l ++ [c']) = c :: l ++ [c'].
Proof.
  intros Hc Hc'. unfold py.skip. simpl. rewrite Hc.
  change (c :: l ++ [c']) with ((c :: l) ++ [c']).
  rewrite rev_unit. simpl. rewrite Hc'.
  simpl. by rewrite !rev_app_distr, rev_involutive.
Qed.

Lemma skip_one c : py.Py_ISSPACE c = false → py.skip [c] = [c].
Proof. intros Hc. unfold py.skip. simpl. rewrite Hc. simpl. by rewrite Hc. Qed.

Lemma skip_decimal d pre :
  (∀ c, c ∈ pre → py.Py_ISSPACE c = false) →
  py.skip (pre ++ decimal d) = pre ++ decimal d.
Proof.
  intros Hpre. pose proof (decimal_digits d) as Hd.
  assert (Forall (λ c, py.Py_ISSPACE c = false) (pre ++ decimal d)) as Hall.
  { apply Forall_app. split; [by apply Forall_forall|].
    eapply Forall_impl; [exact Hd|]. apply digit_not_space. }
  destruct (pre ++ decimal d) as [|c l] eqn:E; [done|].
  apply Forall_cons in Hall as [Hc Hl].
  destruct l as [|c1 l1] using rev_ind; [by apply skip_one|].
  apply Forall_app in Hl as [_ [Hc1 _]%Forall_cons].
  by apply skip_plain.
Qed.

(** [int(str(z))] is [z]. *)
Lemma int_str_of_int z : py.int (str_of_int z) = Some z.
Proof.
  unfold str_of_int, py.int. destruct z as [|p|p]; simpl Z.to_int; [done|..].
  - unfold DecimalString.NilZero.string_of_int, DecimalString.NilZero.string_of_uint.
    pose proof (to_uint_not_Nil p) as Hp.
    assert (py.chars (match Pos.to_uint p with
                      | Decimal.Nil => "0"
                      | _ => DecimalString.NilEmpty.string_of_uint (Pos.to_uint p)
                      end) = decimal (Pos.to_uint p)) as -> by (by destruct (Pos.to_uint p)).
    pose proof (skip_decimal (Pos.to_uint p) []
                  (λ c Hc, False_ind _ (not_elem_of_nil c Hc))) as Hs.
    simpl app in Hs. rewrite Hs.
    assert (py.digits 0 false (decimal (Pos.to_uint p)) = Some (Z.pos p)) as Hd
      by (by rewrite digits_of_uint_first, DecimalPos.Unsigned.of_to).
    pose proof (decimal_digits (Pos.to_uint p)) as Hall.
    destruct (decimal (Pos.to_uint p)) as [|c l]; [done|].
    apply Forall_cons in Hall as [[n Hn] _].
    destruct (Ascii.eqb_spec c "-"); [by subst|].
    destruct (Ascii.eqb_spec c "+"); [by subst|].
    destruct c as [[] [] [] [] [] [] [] []]; try done.
  - unfold DecimalString.NilZero.string_of_int, DecimalString.NilZero.string_of_uint.
    pose proof (to_uint_not_Nil p) as Hp.
    assert (py.chars (String "-" (match Pos.to_uint p with
                      | Decimal.Nil => "0"
                      | _ => DecimalString.NilEmpty.string_of_uint (Pos.to_uint p)
                      end)) = ["-"%char] ++ decimal (Pos.to_uint p)) as ->
      by (by destruct (Pos.to_uint p)).
    rewrite (skip_decimal _ ["-"%char])
      by (intros c ->%list_elem_of_singleton; reflexivity).
    cbn [app]. cbv beta iota.
    change (Ascii.eqb "-" "-") with true.
    by rewrite digits_of_uint_first, DecimalPos.Unsigned.of_to.
Qed.

Lemma str_of_int_decimal z :
  ∃ pre d, py.chars (str_of_int z) = pre ++ decimal d ∧ (pre = [] ∨ pre = ["-"%char]).
Proof.
  unfold str_of_int. destruct z as [|p|p]; simpl Z.to_int.
  - exists [], (Decimal.D0 Decimal.Nil). eauto.
  - exists [], (Pos.to_uint p). split; [|by left].
    pose proof (to_uint_not_Nil p). simpl. by destruct (Pos.to_uint p).
  - exists ["-"%char], (Pos.to_uint p). split; [|by right].
    pose proof (to_uint_not_Nil p). simpl. by destruct (Pos.to_uint p).
Qed.

Lemma str_of_int_no_underscore z :
  forallb (λ c, negb (Ascii.eqb c "_")) (py.chars (str_of_int z)) = true.
Proof.
  destruct (str_of_int_decimal z) as (pre & d & -> & Hpre).
  rewrite forallb_app. apply andb_true_iff. split; [by destruct Hpre as [->| ->]|].
  apply forallb_forall. intros c Hc.
  pose proof (decimal_digits d) as Hd. rewrite Forall_forall in Hd.
  apply list_elem_of_In, Hd in Hc as [n Hn].
  destruct (Ascii.eqb_spec c "_"); [by subst|done].
Qed.

(** The data of the Like button for the candidate [t] is read back as
    [t]. *)
Lemma like_data_parsed t :
  py.startswith ("like_" +:+ str_of_int t) "like_" = true
  ∧ py.split_sep "_" ("like_" +:+ str_of_int t) !! 1%nat = Some (str_of_int t)
  ∧ py.int (str_of_int t) = Some t.
Proof.
  split; [unfold py.startswith; simpl; by destruct (str_of_int t)|].
  split; [|apply int_str_of_int].
  unfold py.split_sep. rewrite chars_app. simpl.
  rewrite split_on_none by apply str_of_int_no_underscore. simpl.
  unfold py.text, py.chars. by rewrite string_of_list_ascii_of_string.
Qed.

(** ** Computations that only add to what was sent *)

Lemma only_sends_ret {A} (a : A) : only_sends (mret a).
Proof. intros w. exists []. simpl. by rewrite app_nil_r. Qed.
Lemma only_sends_raise {A} e : only_sends (@raise A e).
Proof. intros w. exists []. simpl. by rewrite app_nil_r. Qed.
Lemma only_sends_send r : only_sends (send r).
Proof. intros w. by exists [r]. Qed.
Lemma only_sends_get_data : only_sends get_data.
Proof. intros w. exists []. simpl. by rewrite app_nil_r. Qed.
Lemma only_sends_put_data u : only_sends (put_data u).
Proof. intros w. exists []. simpl. by rewrite app_nil_r. Qed.
Lemma only_sends_of_option {A} e (o : option A) : only_sends (of_option e o).
Proof. destruct o; [apply only_sends_ret|apply only_sends_raise]. Qed.
Lemma only_sends_query {A} (f : DB → result A) : only_sends (query f).
Proof.
  intros w. exists []. unfold query. destruct (f (store w)); simpl; by rewrite app_nil_r.
Qed.
Lemma only_sends_execute (f : DB → result DB) : only_sends (execute f).
Proof.
  intros w. exists []. unfold execute. destruct (f (store w)); simpl; by rewrite app_nil_r.
Qed.
Lemma only_sends_bind {A B} (m : M A) (k : A → M B) :
  only_sends m → (∀ a, only_sends (k a)) → only_sends (m ≫= k).
Proof.
  intros Hm Hk w. unfold mbind, M_bind. destruct (Hm w) as [r1 H1].
  destruct (m w) as [a w'|e w']; simpl in *; [|by eauto].
  destruct (Hk a w') as [r2 H2]. exists (r1 ++ r2). by rewrite H2, H1, app_assoc.
Qed.
Lemma only_sends_try_except {A} (m : M A) classes h :
  only_sends m → only_sends h → only_sends (try_except m classes h).
Proof.
  intros Hm Hh w. unfold try_except. destruct (Hm w) as [r1 H1].
  destruct (m w) as [a w'|e w']; simpl in *; [by eauto|].
  destruct (classes e); [|by eauto].
  destruct (Hh w') as [r2 H2]. exists (r1 ++ r2). by rewrite H2, H1, app_assoc.
Qed.
Lemma only_sends_view_profile u : only_sends (view_profile u).
Proof. intros w. apply view_profile_frame. Qed.

#[local] Hint Resolve keeps_store_ret keeps_store_raise keeps_store_send keeps_store_get_data
  keeps_store_put_data keeps_store_of_option keeps_store_query keeps_store_view_profile
  keeps_store_increment_index : keeps.
#[local] Hint Resolve only_sends_ret only_sends_raise only_sends_send only_sends_get_data
  only_sends_put_data only_sends_of_option only_sends_query only_sends_execute
  only_sends_view_profile : keeps.

Ltac only_sends :=
  repeat first
    [ solve [auto with keeps]
    | apply only_sends_bind; [|intros ?]
    | apply only_sends_try_except
    | match goal with |- only_sends (if ?b then _ else _) => destruct b end
    | match goal with |- only_sends (match ?o with _ => _ end) => destruct o end ].

(** ** The Like button *)

(** The Like button that [view_profile] shows for the candidate [t]
    carries the data like_ followed by [str(t)]; pressing it notifies
    [t], whatever [t] is, before anything else can fail. *)
Theorem like_button_notifies_candidate t q w :
  profile_keyboard t = InlineKeyboard [[("Like", q_data q); ("Next", "next_profile")]] →
  ∃ rest,
    sent (final (profile_callback q w))
    = sent w
      ++ [answer;
          send_message t
            (Lit "Someone liked your profile! You can view their profile by searching for them.");
          edit_message_text (Lit "You liked this profile!") NoMarkup]
      ++ rest.
Proof.
  intros [= Hq]. destruct (like_data_parsed t) as (Hsw & Hsplit & Hint).
  unfold profile_callback. rewrite <- Hq, Hsw. cbv zeta.
  unfold mbind at 1 2 3 4 5. unfold M_bind at 1 2 3 4 5.
  unfold send at 1 2 3. rewrite Hsplit. unfold of_option at 1. unfold mret at 1.
  unfold M_ret at 1. rewrite Hint. unfold of_option at 1. unfold mret at 1.
  unfold M_ret at 1. cbn beta iota. cbn [store user_data sent].
  match goal with
  | |- context [final (?k ?w0)] =>
      assert (only_sends k) as Hk by (unfold increment_index; only_sends);
      destruct (Hk w0) as [rest Hrest]; rewrite Hrest
  end.
  exists rest. cbn [sent]. by rewrite <- !app_assoc.
Qed.

Lemma like_button_notifies_candidate_witness :
  ∃ rest,
    sent (final (profile_callback (presses 5 "like_3") (final without_photos)))
    = sent (final without_photos)
      ++ [answer;
          send_message 3
            (Lit "Someone liked your profile! You can view their profile by searching for them.");
          edit_message_text (Lit "You liked this profile!") NoMarkup]
      ++ rest.
Proof.
  exact (like_button_notifies_candidate 3 (presses 5 "like_3") (final without_photos) eq_refl).
Defined.

(** ** Handlers that do not write *)

(** The menu, the cancellation, the three steps of a search, the display
    of a profile, the buttons under it and the two handlers of the admin
    menu leave the store as it is, whatever they are given and however
    they end. *)
Theorem read_only_handlers ADMIN_USER_IDS m q u ul random created_at :
  keeps_store (menu ADMIN_USER_IDS m)
  ∧ keeps_store (cancel m)
  ∧ keeps_store (search_gender m)
  ∧ keeps_store (search_age_min m)
  ∧ keeps_store (search_age_max m random)
  ∧ keeps_store (view_profile ul)
  ∧ keeps_store (profile_callback q)
  ∧ keeps_store (admin_menu_command ADMIN_USER_IDS u)
  ∧ keeps_store (admin_menu_callback q created_at).
Proof.
  repeat apply conj.
  - unfold menu. keeps_store.
  - apply keeps_store_cancel.
  - unfold search_gender. keeps_store.
  - unfold search_age_min, int_. keeps_store.
  - apply keeps_store_search_age_max.
  - apply keeps_store_view_profile.
  - apply keeps_store_profile_callback.
  - apply keeps_store_admin_menu_command.
  - unfold admin_menu_callback. keeps_store.
Qed.

(** ** Handlers and the invariant of the store *)

Lemma keeps_store_wf {A} (m : M A) : keeps_store m → keeps_wf m.
Proof. intros Hm w Hwf. by rewrite Hm. Qed.

Lemma keeps_wf_execute (f : DB → result DB) :
  (∀ d d', wf d → f d = Ok d' → wf d') → keeps_wf (execute f).
Proof.
  intros Hf w Hwf. unfold execute. destruct (f (store w)) as [d'|e] eqn:E; simpl; eauto.
Qed.

Lemma keeps_wf_bind {A B} (m : M A) (k : A → M B) :
  keeps_wf m → (∀ a, keeps_wf (k a)) → keeps_wf (m ≫= k).
Proof.
  intros Hm Hk w Hwf. unfold mbind, M_bind. specialize (Hm w Hwf).
  destruct (m w) as [a w'|e w']; simpl in *; [|done]. by apply Hk.
Qed.

Lemma keeps_wf_try_except {A} (m : M A) classes h :
  keeps_wf m → keeps_wf h → keeps_wf (try_except m classes h).
Proof.
  intros Hm Hh w Hwf. unfold try_except. specialize (Hm w Hwf).
  destruct (m w) as [a w'|e w']; simpl in *; [done|].
  destruct (classes e); [|done]. by apply Hh.
Qed.

Ltac keeps_wf :=
  repeat first
    [ solve [apply keeps_store_wf; auto with keeps]
    | apply keeps_wf_execute; intros ? ? ? ?;
      first [ by eapply update_profile_wf | by eapply create_user_wf
            | by eapply add_coins_wf | by eapply set_premium_status_wf
            | by eapply set_ban_status_wf ]
    | apply keeps_wf_bind; [|intros ?]
    | apply keeps_wf_try_except
    | match goal with |- keeps_wf (if ?b then _ else _) => destruct b end
    | match goal with |- keeps_wf (match ?o with _ => _ end) => destruct o end ].

Lemma keeps_wf_start m args uuid4 : keeps_wf (start m args uuid4).
Proof. unfold start. keeps_wf. Qed.
Lemma keeps_wf_gender m : keeps_wf (gender m).
Proof. unfold gender. keeps_wf. Qed.
Lemma keeps_wf_age m : keeps_wf (age m).
Proof. unfold age, int_. keeps_wf. Qed.
Lemma keeps_wf_bio m : keeps_wf (bio m).
Proof. unfold bio. keeps_wf. Qed.
Lemma keeps_wf_photo m : keeps_wf (photo_ m).
Proof. unfold photo_. keeps_wf. Qed.
Lemma keeps_wf_location m : keeps_wf (location m).
Proof. unfold location. keeps_wf. Qed.

(** The handlers that write keep the invariant of the store, whatever
    the message and however they end. *)
Theorem handlers_keep_wf ADMIN_USER_IDS m args uuid4 ban :
  keeps_wf (start m args uuid4)
  ∧ keeps_wf (gender m) ∧ keeps_wf (age m) ∧ keeps_wf (bio m)
  ∧ keeps_wf (photo_ m) ∧ keeps_wf (location m)
  ∧ keeps_wf (admin_grant_coins ADMIN_USER_IDS m)
  ∧ keeps_wf (admin_grant_premium ADMIN_USER_IDS m)
  ∧ keeps_wf (admin_ban_unban_user ADMIN_USER_IDS m ban).
Proof.
  repeat apply conj.
  - apply keeps_wf_start.
  - apply keeps_wf_gender.
  - apply keeps_wf_age.
  - apply keeps_wf_bio.
  - apply keeps_wf_photo.
  - apply keeps_wf_location.
  - unfold admin_grant_coins, admin_grant_coins_try, admin_menu_command. keeps_wf.
  - unfold admin_grant_premium, admin_grant_premium_try, admin_menu_command, int_. keeps_wf.
  - unfold admin_ban_unban_user, admin_ban_unban_user_try, admin_menu_command, int_.
    keeps_wf.
Qed.

(** The stores of the two examples are well formed. *)
Lemma keeps_wf_joins id g a uuid4 : keeps_wf (joins id g a uuid4).
Proof.
  unfold joins.
  apply keeps_wf_bind; [apply keeps_wf_start|intros _].
  apply keeps_wf_bind; [apply keeps_wf_gender|intros _].
  apply keeps_wf_bind; [apply keeps_wf_age|intros _].
  apply keeps_wf_bio.
Qed.

Lemma without_photos_wf : wf (store (final without_photos)).
Proof.
  assert (keeps_wf (searches 5 [])) as Hs.
  { apply keeps_store_wf. unfold searches.
    apply keeps_store_bind; [unfold search_gender; keeps_store|intros _].
    apply keeps_store_bind; [unfold search_age_min, int_; keeps_store|intros _].
    apply keeps_store_search_age_max. }
  unfold without_photos.
  refine (keeps_wf_bind _ _ (keeps_wf_joins _ _ _ _) (λ _, _) fresh wf_init_db).
  refine (keeps_wf_bind _ _ (keeps_wf_joins _ _ _ _) (λ _, _)).
  exact (keeps_wf_bind _ _ (keeps_wf_joins _ _ _ _) (λ _, Hs)).
Qed.

(** ** The creation of a profile, step by step *)

Lemma bind_Returned {A B} (m : M A) (k : A → M B) w a w' :
  m w = Returned a w' → (m ≫= k) w = k a w'.
Proof. intros H. unfold mbind, M_bind. by rewrite H. Qed.

Lemma start_new_user m args uuid4 w d1 :
  user_exists (store w) (from_user m) = Ok false →
  create_user (store w) (from_user m) (first_name m) (head args) uuid4 = Ok d1 →
  start m args uuid4 w
  = Returned GENDER
      (World d1 (user_data w)
         (sent w ++ [reply_text (chat m)
                       (Lit "Hi! Welcome to the Dating Bot. Let's create your profile. First, what is your gender?")
                       gender_keyboard])).
Proof.
  intros Hex Hc. unfold start, mbind, M_bind, query, execute, send. cbv zeta.
  rewrite Hex. simpl. by rewrite Hc.
Qed.

(** The update a handler of the creation makes, for a user with a row,
    followed by its reply. *)
Lemma store_field user_id field c value r req (next : state) w :
  field ∈ profile_fields → column_of_name field = Some c →
  profiles (store w) !! user_id = Some r → int8 user_id = true →
  encode_arg (column_type c) value = Ok () →
  ∃ w',
    (execute (λ d, update_profile d user_id field value);; send req;; mret next) w
    = Returned next w'
    ∧ profiles (store w') = <[user_id := set_field c value r]> (profiles (store w))
    ∧ users (store w') = users (store w)
    ∧ user_data w' = user_data w.
Proof.
  intros Hf Hc Hr H8 Henc.
  destruct (profile_field_column _ Hf) as (Hid & c' & Hc' & Hne).
  assert (c' = c) as -> by congruence.
  unfold mbind, M_bind, execute, send.
  rewrite (update_profile_column _ _ _ _ _ _ Hid Hc Hne Hr H8), Henc.
  eexists. split; [reflexivity|]. done.
Qed.

Lemma age_stores m w n r :
  msg_text m ≫= py.int = Some n → 18 ≤ n ≤ 99 →
  profiles (store w) !! from_user m = Some r → int8 (from_user m) = true →
  ∃ w',
    age m w = Returned BIO w'
    ∧ profiles (store w') = <[from_user m := set_field c_age (PyInt n) r]> (profiles (store w))
    ∧ users (store w') = users (store w)
    ∧ user_data w' = user_data w.
Proof.
  intros Hn Hr Hp H8. unfold age, try_except, int_.
  destruct (msg_text m) as [s|]; simpl in Hn; [|done].
  unfold mbind, M_bind, of_option. rewrite Hn. simpl.
  rewrite (in_range_true _ Hr). simpl.
  unfold execute. rewrite (update_profile_age _ _ _ _ Hr Hp H8).
  eexists. split; [reflexivity|]. done.
Qed.

Lemma photo_stores m w f r :
  last (photo m) = Some f →
  profiles (store w) !! from_user m = Some r → int8 (from_user m) = true →
  ∃ w',
    photo_ m w = Returned LOCATION w'
    ∧ profiles (store w')
      = <[from_user m := set_field c_photo_id (PyStr f) r]> (profiles (store w))
    ∧ users (store w') = users (store w)
    ∧ user_data w' = user_data w.
Proof.
  intros Hf Hp H8. unfold photo_. unfold mbind at 1. unfold M_bind at 1.
  rewrite Hf. unfold of_option, mret, M_ret.
  by apply (store_field _ "photo_id" c_photo_id);
    [apply (bool_decide_unpack _)|..].
Qed.

(** From /start to the last answer: for a user who is new and whose
    creation succeeds, the six handlers in turn, with a gender, an age in
    [18, 99], a bio, a photo and a location, end the conversation with a
    profile that holds exactly these answers, the photo being the last
    size sent; the user row is the one of the creation, and no other
    profile changes. *)
Theorem profile_creation_flow w id name ch args uuid4 d1 entity g a n b sizes f l :
  users (store w) !! id = None →
  create_user (store w) id name (head args) uuid4 = Ok d1 →
  py.int a = Some n → 18 ≤ n ≤ 99 → last sizes = Some f →
  ∃ w',
    (start (Message id name ch (text_content "/start" entity)) args uuid4;;
     gender (Message id name ch (text_content g None));;
     age (Message id name ch (text_content a None));;
     bio (Message id name ch (text_content b None));;
     photo_ (Message id name ch (photo_content sizes));;
     location (Message id name ch (text_content l None))) w
    = Returned END w'
    ∧ get_user_profile (store w') id
      = Ok (Some (new_user name (uuid_prefix uuid4) (head args),
                  ProfileRow (Some g) (Some n) (Some b) (Some f) (Some l)))
    ∧ users (store w') = users d1
    ∧ (∀ k, k ≠ id → profiles (store w') !! k = profiles d1 !! k)
    ∧ user_data w' = user_data w.
Proof.
  intros HA Hc Ha Hn Hf.
  pose proof (user_exists_absent _ _ _ _ _ _ HA Hc) as Hex.
  pose proof (create_user_fresh_inv _ _ _ _ _ _ Hex Hc) as (H8 & _ & d0 & Hd1 & _).
  pose proof (start_new_user (Message id name ch (text_content "/start" entity))
                args uuid4 w d1 Hex Hc) as H0.
  match type of H0 with _ = Returned _ ?w0 => set (w1 := w0) in H0 end.
  assert (profiles (store w1) !! id = Some new_profile) as Hp1
    by (subst d1; simpl; apply lookup_insert_eq).
  destruct (store_field id "gender" c_gender (PyStr g) new_profile
              (reply_text ch (Lit "Great! Now, how old are you?") NoMarkup) AGE w1)
    as (w2 & H1 & Hp2 & Hu2 & Hd2); [by apply (bool_decide_unpack _)|done..|].
  destruct (age_stores (Message id name ch (text_content a None)) w2 n
              (set_field c_gender (PyStr g) new_profile))
    as (w3 & H2 & Hp3 & Hu3 & Hd3); [done|done|simpl; rewrite Hp2; apply lookup_insert_eq|done|].
  destruct (store_field id "bio" c_bio (PyStr b)
              (set_field c_age (PyInt n) (set_field c_gender (PyStr g) new_profile))
              (reply_text ch (Lit "Nice bio! Now, please send a photo of yourself.")
                 ReplyKeyboardRemove) PHOTO w3)
    as (w4 & H3 & Hp4 & Hu4 & Hd4);
    [by apply (bool_decide_unpack _)|done|simpl in Hp3; rewrite Hp3; apply lookup_insert_eq
    |done|done|].
  destruct (photo_stores (Message id name ch (photo_content sizes)) w4 f
              (set_field c_bio (PyStr b)
                 (set_field c_age (PyInt n) (set_field c_gender (PyStr g) new_profile))))
    as (w5 & H4 & Hp5 & Hu5 & Hd5); [done|simpl; rewrite Hp4; apply lookup_insert_eq|done|].
  destruct (store_field id "location" c_location (PyStr l)
              (set_field c_photo_id (PyStr f)
                 (set_field c_bio (PyStr b)
                    (set_field c_age (PyInt n) (set_field c_gender (PyStr g) new_profile))))
              (reply_text ch
                 (Lit "Your profile is complete! You can now use the bot's features. Use /menu to see what you can do.")
                 NoMarkup) END w5)
    as (w6 & H5 & Hp6 & Hu6 & Hd6);
    [by apply (bool_decide_unpack _)|done|simpl in Hp5; rewrite Hp5; apply lookup_insert_eq
    |done|done|].
  simpl in Hp3, Hp5.
  exists w6. split.
  - rewrite (bind_Returned _ _ _ _ _ H0).
    rewrite (bind_Returned _ _ _ _ _ H1).
    rewrite (bind_Returned _ _ _ _ _ H2).
    rewrite (bind_Returned _ _ _ _ _ H3).
    rewrite (bind_Returned _ _ _ _ _ H4).
    exact H5.
  - assert (users (store w6) = users d1) as Hu
      by (by rewrite Hu6, Hu5, Hu4, Hu3, Hu2).
    repeat apply conj.
    + unfold get_user_profile. rewrite (bigint_arg_Ok _ H8). cbn [mbind result_bind].
      rewrite Hu, Hp6, lookup_insert_eq. subst d1. simpl. by rewrite lookup_insert_eq.
    + done.
    + intros k Hk. rewrite Hp6, Hp5, Hp4, Hp3, Hp2. by rewrite !lookup_insert_ne.
    + by rewrite Hd6, Hd5, Hd4, Hd3, Hd2.
Qed.

Lemma profile_creation_flow_witness :
  ∃ w',
    (start (Message 5 "Y" 5 (text_content "/start" (Some 6%nat))) [] 0;;
     gender (Message 5 "Y" 5 (text_content "Male" None));;
     age (Message 5 "Y" 5 (text_content "40" None));;
     bio (Message 5 "Y" 5 (text_content "hi" None));;
     photo_ (Message 5 "Y" 5 (photo_content ["small"; "large"]));;
     location (Message 5 "Y" 5 (text_content "Paris" None))) fresh
    = Returned END w'
    ∧ get_user_profile (store w') 5
      = Ok (Some (new_user "Y" (uuid_prefix 0) None,
                  ProfileRow (Some "Male") (Some 40) (Some "hi") (Some "large")
                    (Some "Paris"))).
Proof.
  destruct (profile_creation_flow fresh 5 "Y" 5 [] 0 lone_user (Some 6%nat)
              "Male" "40" 40 "hi" ["small"; "large"] "large" "Paris"
              eq_refl ltac:(vm_compute; reflexivity) eq_refl ltac:(lia) eq_refl)
    as (w' & H1 & H2 & _).
  exists w'. split; [exact H1|exact H2].
Defined.

(** ** A second /start *)

(** After a /start that created the user, another /start from the same
    user, with whatever arguments, greets the user back, ends, and leaves
    the store as it is. *)
Theorem start_again m args uuid4 w w1 m' args' uuid4' :
  start m args uuid4 w = Returned GENDER w1 → from_user m' = from_user m →
  start m' args' uuid4' w1
  = Returned END
      (World (store w1) (user_data w1)
         (sent w1 ++ [reply_text (chat m')
                        (Lit "Welcome back! You can access the menu with /menu.") NoMarkup])).
Proof.
  intros H Hm.
  assert (user_exists (store w1) (from_user m) = Ok true) as Hex1.
  { revert H. unfold start, mbind, M_bind, query, execute, send. cbv zeta.
    destruct (user_exists (store w) (from_user m)) as [[|]|e] eqn:Hex; simpl; try done.
    destruct (create_user _ _ _ _ _) as [d'|e] eqn:Hc; simpl; [|done].
    intros [= <-]. simpl.
    apply (create_user_fresh_inv _ _ _ _ _ _ Hex) in Hc as (H8 & _ & d0 & -> & _).
    rewrite (user_exists_Ok _ _ H8). simpl. rewrite lookup_insert_eq.
    by rewrite bool_decide_eq_true_2 by eauto. }
  unfold start, mbind, M_bind, query, send. cbv zeta. by rewrite Hm, Hex1.
Qed.

Lemma start_again_witness :
  start (commands 5 "/start 7ab3c9d2") ["7ab3c9d2"] 9
    (final (start (commands 5 "/start") [] 0 fresh))
  = Returned END
      (World (store (final (start (commands 5 "/start") [] 0 fresh)))
         (user_data (final (start (commands 5 "/start") [] 0 fresh)))
         (sent (final (start (commands 5 "/start") [] 0 fresh))
          ++ [reply_text 5 (Lit "Welcome back! You can access the menu with /menu.")
                NoMarkup])).
Proof.
  exact (start_again (commands 5 "/start") [] 0 fresh
           (final (start (commands 5 "/start") [] 0 fresh))
           (commands 5 "/start 7ab3c9d2") ["7ab3c9d2"] 9 eq_refl eq_refl).
Defined.

(** ** The ages of a search *)



(** A search that finds candidates stores them in the order of the
    search, puts the cursor on the first and shows that one, with its
    photo when it has one: in a well-formed store this display cannot
    fail. *)
Theorem search_age_max_shows_first m random w s max_age min_age gender_pref t l :
  wf (store w) →
  msg_text m = Some s → py.int s = Some max_age →
  ud_search_age_min (user_data w) = Some min_age →
  ud_search_gender (user_data w) = Some gender_pref →
  min_age ≤ max_age ≤ 99 →
  search_users (store w) (from_user m) gender_pref min_age max_age random = Ok (t :: l) →
  ∃ u p,
    users (store w) !! t = Some u ∧ profiles (store w) !! t = Some p
    ∧ search_age_max m random w
      = Returned VIEW_PROFILE
          (World (store w)
             (Data (Some gender_pref) (Some min_age) (Some (t :: l)) (Some 0%nat))
             (sent w
              ++ [if truthy_str (p_photo_id p)
                  then send_photo (chat m) (default "" (p_photo_id p)) (ProfileText (u, p))
                         (profile_keyboard t)
                  else reply_text (chat m) (ProfileText (u, p)) (profile_keyboard t)])).
Proof.
  intros Hwf Ht Hint Hlo Hg Hr Hs.
  destruct (search_users_elem _ _ _ _ _ _ _ t Hs) as (p & Hp & _ & _ & _ & u & Hu & _);
    [by left|]. simpl in Hu.
  exists u, p. do 2 (split; [done|]).
  unfold search_age_max, try_except, int_, mbind, M_bind, of_option, get_data, put_data,
    query, send, mret, M_ret.
  rewrite Ht. cbn beta iota. rewrite Hint. cbn beta iota. rewrite Hlo. cbn beta iota.
  assert ((min_age <=? max_age) && (max_age <=? 99) = true) as ->
    by (apply andb_true_iff; split; apply Z.leb_le; lia).
  cbn [negb]. cbn beta iota. rewrite Hg. cbn beta iota. rewrite Hs.
  rewrite bool_decide_eq_false_2 by done. cbn beta iota.
  rewrite view_profile_cases. cbn [store user_data sent ud_search_results ud_search_index
    ud_search_gender ud_search_age_min from_option]. unfold id. simpl lookup.
  unfold get_user_profile. rewrite (bigint_arg_Ok _ (wf_key _ Hwf _ _ Hu)).
  cbn [mbind result_bind]. rewrite Hu, Hp. cbn [mbind option_bind option_ret mret].
  cbn beta iota. cbn [snd].
  by destruct (truthy_str (p_photo_id p)).
Qed.

Lemma search_age_max_shows_first_witness :
  ∃ u p,
    search_age_max (says 5 "99") []
      (World (store (final without_photos))
             (Data (Some (Some "Female")) (Some 18) None None) [])
    = Returned VIEW_PROFILE
        (World (store (final without_photos))
           (Data (Some (Some "Female")) (Some 18) (Some [3; 2]) (Some 0%nat))
           [reply_text 5 (ProfileText (u, p)) (profile_keyboard 3)]).
Proof.
  destruct (search_age_max_shows_first (says 5 "99") []
              (World (store (final without_photos))
                     (Data (Some (Some "Female")) (Some 18) None None) [])
              "99" 99 18 (Some "Female") 3 [2] without_photos_wf eq_refl eq_refl eq_refl eq_refl
              ltac:(lia) ltac:(vm_compute; reflexivity)) as (u & p & Hu & Hp & H).
  exists u, p. simpl in Hp. vm_compute in Hp. injection Hp as <-. exact H.
Defined.

(** ** The admin handlers *)





(** [admin_grant_premium] on the text of an integer. *)
Lemma admin_grant_premium_parsed ADMIN_USER_IDS m w s target :
  msg_text m = Some s → py.int s = Some target → int8 target = true →
  admin_grant_premium ADMIN_USER_IDS m w
  = match users (store w) !! target with
    | None =>
        Returned ADMIN_MENU
          (World (store w) (user_data w)
                 (sent w ++ [reply_text (chat m) (Lit "User not found.") NoMarkup]))
    | Some _ =>
        (admin_menu_command ADMIN_USER_IDS (of_message m);; mret ADMIN_MENU)
          (World (with_users (store w) (alter (set_premium true) target (users (store w))))
             (user_data w)
             (sent w
              ++ [reply_text (chat m)
                    (Lit ("Successfully granted premium status to user "
                          +:+ str_of_int target +:+ ".")) NoMarkup;
                  send_message target (Lit "An admin has granted you premium status!")]))
    end.
Proof.
  intros Ht Hint H8.
  unfold admin_grant_premium, admin_grant_premium_try, try_except, int_.
  rewrite Ht. unfold mbind, M_bind, of_option, mret, M_ret, query, execute, send.
  rewrite Hint. cbn beta iota.
  unfold user_exists, set_premium_status. rewrite (bigint_arg_Ok _ H8).
  cbn [mbind result_bind].
  destruct (users (store w) !! target) as [u|] eqn:Hu.
  - rewrite bool_decide_eq_true_2 by eauto. simpl. by rewrite <- app_assoc.
  - rewrite bool_decide_eq_false_2 by (by intros [? ?]). done.
Qed.

(** The grant of premium status, on the text of an integer: for the id
    of a user the flag is set and nothing else of the row changes, no
    other user and no profile, and both the admin and the user are told;
    for an id of nobody that fits BIGINT the answer is that the user is
    not found and the store stays as it is; for an integer that fits no
    BIGINT the check for the user raises DataError, which the handler does
    not catch: nothing is sent and nothing changes. *)
Theorem admin_grant_premium_sets_flag ADMIN_USER_IDS m w s target :
  msg_text m = Some s → py.int s = Some target →
  (int8 target = true →
   (∀ u, users (store w) !! target = Some u →
      users (store (final (admin_grant_premium ADMIN_USER_IDS m w))) !! target
      = Some (UserRow (u_name u) (u_coins u) true (u_is_banned u)
                      (u_referral_code u) (u_referred_by u))
      ∧ (∀ k, k ≠ target →
           users (store (final (admin_grant_premium ADMIN_USER_IDS m w))) !! k
           = users (store w) !! k)
      ∧ profiles (store (final (admin_grant_premium ADMIN_USER_IDS m w))) = profiles (store w)
      ∧ ∃ rest,
          sent (final (admin_grant_premium ADMIN_USER_IDS m w))
          = sent w
            ++ [reply_text (chat m)
                  (Lit ("Successfully granted premium status to user "
                        +:+ str_of_int target +:+ ".")) NoMarkup;
                send_message target (Lit "An admin has granted you premium status!")]
            ++ rest)
   ∧ (users (store w) !! target = None →
      admin_grant_premium ADMIN_USER_IDS m w
      = Returned ADMIN_MENU
          (World (store w) (user_data w)
                 (sent w ++ [reply_text (chat m) (Lit "User not found.") NoMarkup]))))
  ∧ (int8 target = false →
     admin_grant_premium ADMIN_USER_IDS m w = Raised DataError w).
Proof.
  intros Ht Hint. split.
  - intros H8. rewrite (admin_grant_premium_parsed _ _ _ _ _ Ht Hint H8). split.
    + intros u Hu. rewrite Hu.
      match goal with
      | |- context [(admin_menu_command ?a ?b ≫= ?k) ?w0] =>
          destruct (admin_menu_again a m w0) as (-> & rest & ->)
      end.
      simpl. rewrite lookup_alter_eq, Hu. split; [done|].
      split; [intros k Hk; by rewrite lookup_alter_ne|]. split; [done|].
      exists rest. by rewrite <- app_assoc.
    + intros Hu. by rewrite Hu.
  - intros H8.
    unfold admin_grant_premium, admin_grant_premium_try, try_except, int_.
    rewrite Ht. unfold mbind, M_bind, of_option, mret, M_ret, query.
    rewrite Hint. cbn beta iota.
    unfold user_exists, bigint_arg. by rewrite H8.
Qed.

Lemma admin_grant_premium_sets_flag_witness :
  users (store (final (admin_grant_premium [1] (says 1 "5") (World (one_user 5) no_data []))))
    !! 5
  = Some (UserRow "Y" 100 true false (Some "7ab3c9d2") None)
  ∧ admin_grant_premium [1] (says 1 "6") (World (one_user 5) no_data [])
    = Returned ADMIN_MENU
        (World (one_user 5) no_data [reply_text 1 (Lit "User not found.") NoMarkup])
  ∧ admin_grant_premium [1] (says 1 "-9223372036854775809") (World (one_user 5) no_data [])
    = Raised DataError (World (one_user 5) no_data []).
Proof.
  split; [|split].
  - exact (proj1 (proj1 (proj1 (admin_grant_premium_sets_flag [1] (says 1 "5")
                           (World (one_user 5) no_data []) "5" 5 eq_refl eq_refl) eq_refl)
                    (new_user "Y" (uuid_prefix referrer_uuid) None) eq_refl)).
  - exact (proj2 (proj1 (admin_grant_premium_sets_flag [1] (says 1 "6")
                    (World (one_user 5) no_data []) "6" 6 eq_refl eq_refl) eq_refl) eq_refl).
  - exact (proj2 (admin_grant_premium_sets_flag [1] (says 1 "-9223372036854775809")
                    (World (one_user 5) no_data []) "-9223372036854775809"
                    (-9223372036854775809) eq_refl eq_refl) eq_refl).
Defined.

(** [admin_grant_coins] does not look at who sent the message before it
    writes: for a sender who is no admin the coins are granted and both
    messages are sent, and only then the return to the admin menu raises
    AttributeError. *)
Theorem admin_grant_coins_unchecked ADMIN_USER_IDS m w txt s1 s2 target amount u :
  is_admin ADMIN_USER_IDS (from_user m) = false →
  msg_text m = Some txt → py.split txt = [s1; s2] →
  py.int s1 = Some target → py.int s2 = Some amount → int8 target = true →
  users (store w) !! target = Some u →
  int4 amount = true → int4 (u_coins u + amount) = true →
  admin_grant_coins ADMIN_USER_IDS m w
  = Raised AttributeError
      (World (with_users (store w)
                (<[target := set_coins (u_coins u + amount) u]> (users (store w))))
             (user_data w)
             (sent w ++ [reply_text (chat m) (GrantedText amount target) NoMarkup;
                         send_message target (GrantNotice amount)])).
Proof.
  intros Hadm Ht Hs H1 H2 H8 Hu H4 Hsum.
  rewrite (admin_grant_coins_parsed _ _ _ _ _ _ _ _ Ht Hs H1 H2).
  rewrite (user_exists_Ok _ _ H8), bool_decide_eq_true_2 by eauto.
  rewrite (add_coins_Ok _ _ _ _ Hu H8 H4 Hsum).
  unfold admin_menu_command, mbind, M_bind. cbn [effective_user]. by rewrite Hadm.
Qed.

Lemma admin_grant_coins_unchecked_witness :
  admin_grant_coins [1] (says 2 "5 100") (World (one_user 5) no_data [])
  = Raised AttributeError
      (World (with_users (one_user 5)
                (<[5 := set_coins 200 (new_user "Y" (uuid_prefix referrer_uuid) None)]>
                   (users (one_user 5))))
             no_data
             [reply_text 2 (GrantedText 100 5) NoMarkup; send_message 5 (GrantNotice 100)]).
Proof.
  exact (admin_grant_coins_unchecked [1] (says 2 "5 100") (World (one_user 5) no_data [])
           "5 100" "5" "100" 5 100 (new_user "Y" (uuid_prefix referrer_uuid) None)
           eq_refl eq_refl eq_refl eq_refl eq_refl eq_refl eq_refl eq_refl eq_refl).
Defined.

(** ** Which handler takes an update *)

Lemma prefix_admin data :
  py.startswith data "admin_" = true →
  re_match like_or_next_pattern data = false ∧ re_match search_pattern data = false.
Proof.
  unfold py.startswith, re_match. destruct data as [|c data]; [done|].
  cbn [String.prefix].
  destruct (ascii_dec "a" c) as [<-|_]; [|done]. intros _.
  split; [done|]. apply orb_false_iff.
  split; apply String.eqb_neq; discriminate.
Qed.

Lemma conv_handler_no_callback username s q :
  conversation_check username conv_handler s (of_callback q) = None.
Proof. by destruct s as [[]|]. Qed.

Lemma search_conv_handler_no_admin username s q :
  py.startswith (q_data q) "admin_" = true →
  conversation_check username search_conv_handler s (of_callback q) = None.
Proof.
  intros [Hl Hs]%prefix_admin.
  destruct s as [st|]; unfold conversation_check.
  - set (hs := state_handlers search_conv_handler st).
    destruct st; vm_compute in hs; subst hs; unfold first_match;
      cbn -[re_match]; by rewrite ?Hl.
  - unfold first_match. cbn -[re_match]. by rewrite Hs.
Qed.

(** A press of a button whose data begins with admin_, by a user who is
    not in the admin conversation, goes to [admin_menu_callback] as the
    entry of that conversation, whatever the states of the other two
    conversations and whoever the user is; with the data admin_grant_coins
    the callback asks for an id and an amount and puts the conversation in
    ADMIN_GRANT_COINS, where the next text of the user goes to
    [admin_grant_coins]. *)
Theorem admin_button_enters_conversation username q s1 s2 created_at w m t :
  py.startswith (q_data q) "admin_" = true →
  msg_text m = Some t → t ≠ "" → bot_command m = None →
  process_update username (application s1 s2 None) (of_callback q)
  = Some (2%nat, cb_admin_menu_callback)
  ∧ (q_data q = "admin_grant_coins" →
     admin_menu_callback q created_at w
     = Returned ADMIN_GRANT_COINS
         (World (store w) (user_data w)
            (sent w
             ++ [answer;
                 edit_message_text
                   (Lit "Enter the User ID and amount of coins to grant (e.g., 12345678 100).")
                   NoMarkup])))
  ∧ update_state ADMIN_GRANT_COINS = Some ADMIN_GRANT_COINS
  ∧ process_update username (application None None (Some ADMIN_GRANT_COINS)) (of_message m)
    = Some (2%nat, cb_admin_grant_coins).
Proof.
  intros Hq Ht Hne Hcmd. repeat apply conj.
  - unfold application, process_update, takes.
    rewrite conv_handler_no_callback, (search_conv_handler_no_admin _ _ _ Hq).
    unfold conversation_check, first_match. cbn -[re_match]. unfold re_match.
    by rewrite Hq.
  - intros Hd. unfold admin_menu_callback, mbind, M_bind, send. rewrite Hd. simpl.
    by rewrite <- app_assoc.
  - done.
  - assert (command_name username m = None) as Hc
      by (unfold command_name; by rewrite Hcmd).
    assert (truthy_str (msg_text m) && negb (COMMAND m) = true) as Htxt.
    { unfold COMMAND. rewrite Ht, Hcmd. unfold truthy_str.
      rewrite bool_decide_eq_false_2 by (by intros [? ?]).
      rewrite andb_true_r. apply negb_true_iff. by apply String.eqb_neq. }
    unfold application, process_update, takes, conversation_check.
    change (state_handlers admin_conv_handler ADMIN_GRANT_COINS)
      with [MessageHandler filters_TEXT_and_not_COMMAND cb_admin_grant_coins].
    unfold first_match. cbn -[check_filter command_name].
    rewrite Hc. cbn -[check_filter]. unfold check_filter. by rewrite Htxt.
Qed.

Lemma admin_button_enters_conversation_witness :
  process_update "dating_bot" (application None None None)
    (of_callback (presses 2 "admin_grant_coins"))
  = Some (2%nat, cb_admin_menu_callback)
  ∧ process_update "dating_bot" (application None None (Some ADMIN_GRANT_COINS))
      (of_message (says 2 "5 100"))
    = Some (2%nat, cb_admin_grant_coins).
Proof.
  pose proof (admin_button_enters_conversation "dating_bot"
                (presses 2 "admin_grant_coins") None None
                (λ _, 0) fresh (says 2 "5 100") "5 100" eq_refl eq_refl
                ltac:(discriminate) eq_refl) as (H1 & _ & _ & H2).
  split; [exact H1|exact H2].
Defined.

(** A message that gives the bot the command /start is a text with a
    bot_command entity, and its text is none of the three gender words. *)
Lemma start_command username m :
  command_name username m = Some "start" →
  COMMAND m = true ∧ photo m = [] ∧ from_option regex_gender false (msg_text m) = false.
Proof.
  intros H. apply (command_no_gender_word username m "start" H). repeat constructor.
Qed.

(** A message with a bot_command entity that is no command for this bot
    (it names another bot) is taken by no handler in a state that waits
    for a text. *)
Lemma foreign_command_AGE username m :
  is_Some (bot_command m) → command_name username m = None →
  process_update username (application (Some AGE) None None) (of_message m) = None.
Proof.
  intros Hcmd Hc.
  assert (COMMAND m = true) as Hb by (by apply bool_decide_eq_true).
  unfold application, process_update, takes, conversation_check, state_handlers,
    first_match. simpl. by rewrite Hb, Hc, andb_false_r.
Qed.

(** While the creation of a profile is in one of its states, a message
    without a command gets an answer only if it is what the state waits
    for: in GENDER one of the three words, and any other message is taken
    by no handler.  The command /start, given to this bot, is taken by no
    handler in any state of the creation: the conversation is entered
    again only after it has ended, and then /start goes to [start].  A
    /start that names another bot is never taken by [start]. *)
Theorem creation_ignores_other_messages username m :
  (bot_command m = None →
   process_update username (application (Some GENDER) None None) (of_message m)
   = if from_option regex_gender false (msg_text m) then Some (0%nat, cb_gender) else None)
  ∧ (command_name username m = Some "start" →
     ∀ s, process_update username (application (Some s) None None) (of_message m) = None)
  ∧ (command_name username m = Some "start" →
     process_update username (application None None None) (of_message m)
     = Some (0%nat, cb_start))
  ∧ (command_name username m = None →
     process_update username (application None None None) (of_message m) = None).
Proof.
  repeat apply conj.
  - intros Hcmd.
    assert (command_name username m = None) as Hc
      by (unfold command_name; by rewrite Hcmd).
    unfold application, process_update, takes, conversation_check, state_handlers,
      first_match. simpl. rewrite Hc.
    by destruct (from_option regex_gender false (msg_text m)).
  - intros Hm s. destruct (start_command username m Hm) as (Hcmd & Hph & Hre).
    destruct s; unfold application, process_update, takes, conversation_check,
      state_handlers, first_match; simpl;
      rewrite ?Hcmd, ?Hph, ?Hre, ?andb_false_r, ?Hm; done.
  - intros Hm.
    unfold application, process_update, takes, conversation_check, first_match. simpl.
    by rewrite Hm.
  - intros Hm.
    unfold application, process_update, takes, conversation_check, first_match. simpl.
    by rewrite Hm.
Qed.

Lemma creation_ignores_other_messages_witness :
  process_update "dating_bot" (application (Some GENDER) None None)
    (of_message (says 5 "male")) = None
  ∧ process_update "dating_bot" (application (Some AGE) None None)
      (of_message (commands 5 "/start")) = None
  ∧ process_update "dating_bot" (application None None None)
      (of_message (commands 5 "/Start@Dating_Bot")) = Some (0%nat, cb_start)
  ∧ process_update "dating_bot" (application None None None)
      (of_message (commands 5 "/start@otherbot")) = None.
Proof.
  pose proof (creation_ignores_other_messages "dating_bot" (says 5 "male")) as (H1 & _).
  pose proof (creation_ignores_other_messages "dating_bot" (commands 5 "/start"))
    as (_ & H2 & _).
  pose proof (creation_ignores_other_messages "dating_bot" (commands 5 "/Start@Dating_Bot"))
    as (_ & _ & H3 & _).
  pose proof (creation_ignores_other_messages "dating_bot" (commands 5 "/start@otherbot"))
    as (_ & _ & _ & H4).
  split; [exact (H1 eq_refl)|]. split; [exact (H2 eq_refl AGE)|].
  split; [exact (H3 eq_refl)|exact (H4 eq_refl)].
Defined.



End handler_more.
